(** * pyrxiv: fetching, downloading and cleaning arXiv papers

    A shallow embedding of the Python sources
      - [pyrxiv/fetcher.py]    (class [ArxivFetcher]),
      - [pyrxiv/downloader.py] (class [ArxivDownloader]),
      - [pyrxiv/extractor.py]  (class [TextExtractor] and the two pipelines),
      - [pyrxiv/datamodel.py]  (the pydantic models),
    followed by the properties of the specification that were checked on it.

    Python [str] values are lists of 8-bit characters, read as the code
    points 0..255; Python [int] values are [Z]; a [set] is a [gset]; the
    file system is a [gmap] from paths to file contents. Lists that the
    code shares between variables live in an explicit heap. A call ends
    with a value or with an exception, and the messages it logs are kept.

    What the code gets from outside is a parameter of the model: the
    answers of the arXiv API as parsed by [xmltodict], the answers of the
    HTTP session, the two PDF loaders, the way pydantic reads a date, and
    the compiled pattern handed to [download_pattern_papers]. The regular
    expressions of the code are run by a backtracking matcher with the
    priorities of Python's [re] (leftmost match, greedy quantifiers). The
    constructor of [ArxivFetcher] is reduced to the attributes it sets. *)

From Stdlib Require Import Ascii String ZArith Lia Bool.
From stdpp Require Import base tactics option list gmap strings sets.

Local Open Scope nat_scope.

(* ===================================================================== *)
(** ** Python strings *)
(* ===================================================================== *)

Module PyStr.

Definition str := list ascii.

(** A literal: [py "abc"] is the Python string ["abc"]. *)
Definition py (s : string) : str := list_ascii_of_string s.

Definition nl : ascii := "010"%char.   (* the newline, \n *)
Definition tab : ascii := "009"%char.  (* the tabulation, \t *)
Definition sp : ascii := " "%char.

Definition code (c : ascii) : N := N_of_ascii c.

Definition between (lo hi : N) (c : ascii) : bool :=
  (lo <=? code c)%N && (code c <=? hi)%N.

(** [str.isspace] on one character, as used by [str.strip] and by the
    regular-expression class [\s] on [str] patterns. *)
Definition is_space (c : ascii) : bool :=
  between 9 13 c || between 28 32 c
  || (code c =? 133)%N || (code c =? 160)%N.

(** The class [\d] on the code points 0..255. *)
Definition is_digit (c : ascii) : bool := between 48 57 c.

(** Simple case mappings on the code points 0..255 (a character whose
    other case lies outside that range is left alone). *)
Definition lower (c : ascii) : ascii :=
  if between 65 90 c || (between 192 222 c && negb (code c =? 215)%N)
  then ascii_of_N (code c + 32) else c.

Definition upper (c : ascii) : ascii :=
  if between 97 122 c || (between 224 254 c && negb (code c =? 247)%N)
  then ascii_of_N (code c - 32) else c.

Definition ascii_eqb (a b : ascii) : bool := Ascii.eqb a b.

Fixpoint str_eqb (a b : str) : bool :=
  match a, b with
  | [], [] => true
  | x :: a', y :: b' => ascii_eqb x y && str_eqb a' b'
  | _, _ => false
  end.

(** [s.startswith(p)] *)
Fixpoint startswith (p s : str) : bool :=
  match p, s with
  | [], _ => true
  | x :: p', y :: s' => ascii_eqb x y && startswith p' s'
  | _ :: _, [] => false
  end.

(** [s.endswith(p)] *)
Definition endswith (p s : str) : bool := startswith (rev p) (rev s).

(** [p in s] for two strings. *)
Fixpoint contains (p s : str) : bool :=
  startswith p s ||
  match s with
  | [] => false
  | _ :: s' => contains p s'
  end.

(** [s.replace(old, new)] for a non-empty [old]: the occurrences are
    replaced from left to right, without overlap. *)
Fixpoint replace_aux (fuel : nat) (old new s : str) : str :=
  match fuel with
  | 0 => s
  | S fuel' =>
      match s with
      | [] => []
      | c :: s' =>
          if startswith old s
          then new ++ replace_aux fuel' old new (drop (length old) s)
          else c :: replace_aux fuel' old new s'
      end
  end.

Definition replace (old new s : str) : str :=
  replace_aux (S (length s)) old new s.

(** [s.split(sep)[-1]] for a one-character separator: what follows the
    last separator, the whole string when there is none. *)
Fixpoint last_segment (sep : ascii) (s : str) : str :=
  match s with
  | [] => []
  | c :: s' =>
      if existsb (ascii_eqb sep) s' then last_segment sep s'
      else if ascii_eqb sep c then s' else s
  end.

Fixpoint lstrip (s : str) : str :=
  match s with
  | c :: s' => if is_space c then lstrip s' else s
  | [] => []
  end.

Definition rstrip (s : str) : str := rev (lstrip (rev s)).

(** [s.strip()] *)
Definition strip (s : str) : str := rstrip (lstrip s).

(** The number a string of decimal digits stands for. *)
Definition int_of_digits (s : str) : Z :=
  fold_left (fun acc c => (10 * acc + Z.of_N (code c - 48))%Z) s 0%Z.

End PyStr.

(* ===================================================================== *)
(** ** Regular expressions: the fragment of Python's [re] the code uses *)
(* ===================================================================== *)

Module Re.
Import PyStr.

(** Items of a character class [[...]]. *)
Inductive cls_item :=
| CChar (c : ascii)          (* a single character *)
| CRange (lo hi : ascii)     (* [lo-hi] *)
| CSpace                     (* \s *)
| CDigit.                    (* \d *)

(** Patterns. Every quantifier of the code is greedy: [*] is [Rep r 0 None],
    [+] is [Rep r 1 None], [?] is [Rep r 0 (Some 1)], [{m,n}] is
    [Rep r m (Some n)] and [{m,}] is [Rep r m None]. *)
Inductive regex :=
| Eps
| Lit (c : ascii)
| Cls (items : list cls_item)
| Seq (r1 r2 : regex)
| Alt (r1 r2 : regex)
| Rep (r : regex) (lo : nat) (hi : option nat)
| Grp (i : nat) (r : regex).   (* capturing group number [i] *)

(** The literal string [s] as a pattern. *)
Fixpoint lits (s : str) : regex :=
  match s with
  | [] => Eps
  | [c] => Lit c
  | c :: s' => Seq (Lit c) (lits s')
  end.

Definition star (r : regex) : regex := Rep r 0 None.
Definition plus (r : regex) : regex := Rep r 1 None.
Definition opt (r : regex) : regex := Rep r 0 (Some 1).
Definition space : regex := Cls [CSpace].
Definition digit : regex := Cls [CDigit].

Fixpoint seqs (rs : list regex) : regex :=
  match rs with
  | [] => Eps
  | [r] => r
  | r :: rs' => Seq r (seqs rs')
  end.

(** Matching one character; [ic] is the flag [re.IGNORECASE]. *)
Definition lit_match (ic : bool) (c x : ascii) : bool :=
  if ic then ascii_eqb (lower c) (lower x) else ascii_eqb c x.

Definition item_match (x : ascii) (it : cls_item) : bool :=
  match it with
  | CChar c => ascii_eqb c x
  | CRange lo hi => between (code lo) (code hi) x
  | CSpace => is_space x
  | CDigit => is_digit x
  end.

Definition cls_match (ic : bool) (items : list cls_item) (x : ascii) : bool :=
  if ic
  then existsb (item_match (lower x)) items || existsb (item_match (upper x)) items
  else existsb (item_match x) items.

(** The groups captured so far, most recent first. *)
Definition caps := list (nat * str).

Definition group (i : nat) (cs : caps) : option str :=
  snd <$> List.find (fun p => Nat.eqb (fst p) i) cs.

Section Matcher.
(** The type of what a successful match hands back. *)
Context {R : Type}.

(** A matcher takes the captures, the text still to read and what to do
    with both once it has matched; [None] makes the caller backtrack. *)
Definition cont := caps -> str -> option R.
Definition matcher := caps -> str -> cont -> option R.

Definition orelse (a b : option R) : option R :=
  match a with
  | Some x => Some x
  | None => b
  end.

(** The mandatory iterations of a repetition. *)
Fixpoint rep_min (step : matcher) (lo : nat) (cs : caps) (s : str) (k : cont)
  : option R :=
  match lo with
  | 0 => k cs s
  | S lo' => step cs s (fun cs' s' => rep_min step lo' cs' s' k)
  end.

(** The optional iterations, greedy: one more is tried first, and that
    iteration has to consume something; then the rest of the pattern. *)
Fixpoint rep_max (step : matcher) (fuel : nat) (hi : option nat)
    (cs : caps) (s : str) (k : cont) : option R :=
  match fuel with
  | 0 => k cs s
  | S fuel' =>
      match hi with
      | Some 0 => k cs s
      | _ =>
          orelse
            (step cs s (fun cs' s' =>
               if length s' <? length s
               then rep_max step fuel' (pred <$> hi) cs' s' k
               else None))
            (k cs s)
      end
  end.

Fixpoint m_re (ic : bool) (r : regex) (cs : caps) (s : str) (k : cont)
  : option R :=
  match r with
  | Eps => k cs s
  | Lit c =>
      match s with
      | x :: s' => if lit_match ic c x then k cs s' else None
      | [] => None
      end
  | Cls items =>
      match s with
      | x :: s' => if cls_match ic items x then k cs s' else None
      | [] => None
      end
  | Seq r1 r2 => m_re ic r1 cs s (fun cs' s' => m_re ic r2 cs' s' k)
  | Alt r1 r2 => orelse (m_re ic r1 cs s k) (m_re ic r2 cs s k)
  | Rep r0 lo hi =>
      rep_min (m_re ic r0) lo cs s (fun cs' s' =>
        rep_max (m_re ic r0) (length s') ((fun h => h - lo) <$> hi) cs' s' k)
  | Grp i r0 =>
      m_re ic r0 cs s (fun cs' s' =>
        k ((i, take (length s - length s') s) :: cs') s')
  end.

(** A matcher is sound when a result it returns is a result of its
    continuation, called on no more text than the matcher was given. *)
Definition sound (step : matcher) : Prop :=
  forall cs s k x, step cs s k = Some x ->
    exists cs' s', k cs' s' = Some x /\ length s' <= length s.
End Matcher.

(** A match object: [m.start()], [m.end()] and the captured groups. *)
Record match_obj := {
  m_start : nat;
  m_end : nat;
  m_caps : caps
}.

(** One attempt at the front of [s]; with [adv] the empty match is refused
    (the engine's "must advance" after an empty match). *)
Definition match_at (ic : bool) (r : regex) (adv : bool) (s : str)
  : option (caps * str) :=
  m_re ic r [] s (fun cs s' =>
    if adv && (length s' =? length s) then None else Some (cs, s')).

(** Scanning for the leftmost match; [start] is the offset of [s]. *)
Fixpoint search_from (ic : bool) (r : regex) (adv : bool) (start : nat)
    (s : str) : option match_obj :=
  match match_at ic r adv s with
  | Some (cs, s') =>
      Some {| m_start := start;
              m_end := start + (length s - length s');
              m_caps := cs |}
  | None =>
      match s with
      | [] => None
      | _ :: s' => search_from ic r false (S start) s'
      end
  end.

(** [re.search(pattern, text, flags)] *)
Definition search (ic : bool) (r : regex) (text : str) : option match_obj :=
  search_from ic r false 0 text.

(** The loop of [re.sub] for a replacement without back-references: copy
    up to the next match, emit the replacement, go on behind the match. *)
Fixpoint sub_loop (ic : bool) (r : regex) (repl : str) (fuel : nat)
    (adv : bool) (s : str) : str :=
  match fuel with
  | 0 => s
  | S fuel' =>
      match search_from ic r adv 0 s with
      | None => s
      | Some m =>
          take (m_start m) s ++ repl ++
          sub_loop ic r repl fuel' (m_end m =? m_start m) (drop (m_end m) s)
      end
  end.

(** [re.sub(pattern, repl, text)]. Two rounds for each character are
    enough: a round either consumes a character or is an empty match, and
    the round after an empty match must advance. *)
Definition sub (r : regex) (repl : str) (text : str) : str :=
  sub_loop false r repl (2 * length text + 2) false text.

End Re.

(* ===================================================================== *)
(** ** Python values, exceptions and outcomes *)
(* ===================================================================== *)

Module Py.
Import PyStr.

(** What [xmltodict.parse] builds: [None] for an empty element, a string,
    a dictionary (in document order, looked up by the first entry of a
    key), or a list for a repeated element. *)
#[warnings="-register-all"]
Inductive value :=
| VNone
| VStr (s : str)
| VDict (items : list (str * value))
| VList (items : list value).

Inductive exn :=
| AttributeError     (* a method the object does not have *)
| TypeError          (* an operand of the wrong type *)
| ValidationError    (* raised by a pydantic model *)
| LoaderError        (* raised by a PDF loader *)
| URLError           (* raised by [urlopen] or by the XML parser *)
| ValueError.        (* a string that [int] does not convert *)

(** How a call ends: with a value, with an exception, or not within the
    number of loop rounds granted to it. *)
Inductive outcome (A : Type) :=
| Ok (a : A)
| Raise (e : exn)
| OutOfFuel.
Arguments Ok {A} a.
Arguments Raise {A} e.
Arguments OutOfFuel {A}.

#[global] Instance outcome_ret : MRet outcome := fun A a => Ok a.
#[global] Instance outcome_bind : MBind outcome := fun A B f m =>
  match m with
  | Ok a => f a
  | Raise e => Raise e
  | OutOfFuel => OutOfFuel
  end.
#[global] Instance outcome_fmap : FMap outcome := fun A B f m =>
  match m with
  | Ok a => Ok (f a)
  | Raise e => Raise e
  | OutOfFuel => OutOfFuel
  end.

(** A comprehension [[f(x) for x in l]] whose [f] may raise. *)
Fixpoint for_list {A B} (f : A -> outcome B) (l : list A) : outcome (list B) :=
  match l with
  | [] => Ok []
  | x :: l' => y ← f x; ys ← for_list f l'; Ok (y :: ys)
  end.

Definition lookup_key (key : str) (items : list (str * value)) : option value :=
  snd <$> List.find (fun kv => str_eqb (fst kv) key) items.

(** [v.get(key, default)]; only a dictionary has the method. *)
Definition get (v : value) (key : str) (default : value) : outcome value :=
  match v with
  | VDict items => Ok (from_option id default (lookup_key key items))
  | _ => Raise AttributeError
  end.

(** [bool(v)] *)
Definition truthy (v : value) : bool :=
  match v with
  | VNone => false
  | VStr s => negb (bool_decide (s = []))
  | VDict items => negb (bool_decide (items = []))
  | VList items => negb (bool_decide (items = []))
  end.

Definition is_str (s : str) (v : value) : bool :=
  match v with
  | VStr s' => str_eqb s s'
  | _ => false
  end.

(** [needle in v] for a string [needle]: a substring of a string, a key of
    a dictionary, an element of a list; [None] is not iterable. *)
Definition contains (needle : str) (v : value) : outcome bool :=
  match v with
  | VNone => Raise TypeError
  | VStr s => Ok (PyStr.contains needle s)
  | VDict items => Ok (existsb (fun kv => str_eqb (fst kv) needle) items)
  | VList items => Ok (existsb (is_str needle) items)
  end.

(** [sys.get_int_max_str_digits()], at the default value of CPython. *)
Definition int_max_str_digits : nat := 4300.

(** [int(s)] on a string of decimal digits: a string with more digits
    than the limit is refused, leading zeros counted. *)
Definition int (s : str) : outcome Z :=
  if int_max_str_digits <? length s then Raise ValueError
  else Ok (int_of_digits s).

(** The file system: the content of every existing file, by path. *)
Abbreviation files := (gmap str str).

(** [Path(folder) / name] for a relative one-component [name]. *)
Definition joinpath (folder name : str) : str := folder ++ py "/" ++ name.

(** [open(path, "a")] followed by the writes of [data]: the file is created
    when it does not exist. *)
Definition append_file (path data : str) (fs : files) : files :=
  <[path := from_option id [] (fs !! path) ++ data]> fs.

End Py.

(* ===================================================================== *)
(** ** Logging *)
(* ===================================================================== *)

Module Log.
Import PyStr Py.

Inductive level := Info | Warning | Error.

(** The calls of the logger, one constructor for each message of the code. *)
Inductive event :=
(* fetcher.py *)
| NoPapersFound                            (* No papers found in the response *)
| ErrorFetchingPaper                       (* Error fetching the paper *)
| PaperWithoutValidUrlId (url_id : value)  (* Paper without a valid URL id: ... *)
| PaperWithoutSummary (url_id : value)     (* Paper ... without summary/abstract *)
| PaperWithoutAuthors                      (* Paper without authors. *)
| PaperFetched (arxiv_id : str)            (* Paper ... fetched from arXiv. *)
(* downloader.py *)
| PdfDownloaded (pdf_path : str)           (* PDF downloaded: ... *)
| FailedToDownloadPdf                      (* Failed to download PDF: ... *)
(* extractor.py *)
| NoPdfPathProvided      (* No PDF path provided. Returning an empty string for the text. *)
| LoaderNotAvailable (loader : str)        (* Loader ... not available. ... *)
| NoTextForCleaning                        (* No text provided for cleaning. *)
| NoTextExtracted.                         (* No text extracted from the PDF. *)

Definition level_of (e : event) : level :=
  match e with
  | NoPapersFound | PaperWithoutAuthors | PaperFetched _ | PdfDownloaded _
  | NoTextExtracted => Info
  | NoTextForCleaning => Warning
  | ErrorFetchingPaper | PaperWithoutValidUrlId _ | PaperWithoutSummary _
  | FailedToDownloadPdf | NoPdfPathProvided | LoaderNotAvailable _ => Error
  end.

(** A computation that logs: the events it emits, oldest first, and its
    value. *)
Definition logged (A : Type) := (list event * A)%type.

Definition ret {A} (a : A) : logged A := ([], a).
Definition emit (e : event) : logged unit := ([e], tt).
Definition bind {A B} (m : logged A) (f : A -> logged B) : logged B :=
  let (l1, a) := m in let (l2, b) := f a in (l1 ++ l2, b).

Definition value_of {A} (m : logged A) : A := snd m.

End Log.

(* ===================================================================== *)
(** ** datamodel.py *)
(* ===================================================================== *)

Module Datamodel.
Import PyStr Py.

Record datetime := {
  year : Z; month : Z; day : Z;
  hour : Z; minute : Z; second : Z; microsecond : Z;
  utcoffset : option Z
}.

Record Author := {
  name : str;
  affiliation : option str;
  email : option str
}.

Record ArxivPaper := {
  id : str;
  url : str;
  pdf_url : str;
  updated : option datetime;
  published : option datetime;
  title : str;
  summary : str;
  authors : list Author;
  comment : option str;
  n_pages : option Z;
  n_figures : option Z;
  categories : list str;
  pdf_loader : option str;
  text : str
}.

(** [paper.text = t] *)
Definition set_text (t : str) (p : ArxivPaper) : ArxivPaper :=
  {| id := id p; url := url p; pdf_url := pdf_url p; updated := updated p;
     published := published p; title := title p; summary := summary p;
     authors := authors p; comment := comment p; n_pages := n_pages p;
     n_figures := n_figures p; categories := categories p;
     pdf_loader := pdf_loader p; text := t |}.

(** Validation of a field annotated [str]. *)
Definition validate_str (v : value) : outcome str :=
  match v with
  | VStr s => Ok s
  | _ => Raise ValidationError
  end.

(** Validation of a field annotated [str | None]. *)
Definition validate_opt_str (v : value) : outcome (option str) :=
  match v with
  | VNone => Ok None
  | VStr s => Ok (Some s)
  | _ => Raise ValidationError
  end.

(** Validation of a field annotated [datetime.datetime | None]; how
    pydantic reads a date out of a string is left to [parse]. *)
Definition validate_opt_datetime (parse : str -> option datetime) (v : value)
  : outcome (option datetime) :=
  match v with
  | VNone => Ok None
  | VStr s =>
      match parse s with
      | Some d => Ok (Some d)
      | None => Raise ValidationError
      end
  | _ => Raise ValidationError
  end.

(** [Author(name=..., affiliation=...)] *)
Definition make_Author (name affiliation : value) : outcome Author :=
  n ← validate_str name;
  a ← validate_opt_str affiliation;
  Ok {| name := n; affiliation := a; email := None |}.

End Datamodel.

(* ===================================================================== *)
(** ** extractor.py: the text cleaning methods of [TextExtractor] *)
(* ===================================================================== *)

Module Cleaning.
Import PyStr Re.

(** [pattern_start], a non-capturing group of three alternatives:
    newline References newline, newline Bibliography newline, and
    newline [1] followed by spaces and one character of A-Z. *)
Definition pattern_start : regex :=
  Alt (seqs [Lit nl; lits (py "References"); Lit nl])
 (Alt (seqs [Lit nl; lits (py "Bibliography"); Lit nl])
      (seqs [Lit nl; lits (py "[1]"); star (Lit sp);
             Cls [CRange "A" "Z"]])).

(** The class of [pattern_end]: a colon or a newline. *)
Definition colon_or_nl : regex := Cls [CChar ":"; CChar nl].

(** [pattern_end], a non-capturing group of three alternatives: newline and
    one of the headings Supplemental Material, Supplemental Information,
    Appendices, each followed by any number of colons and newlines. *)
Definition pattern_end : regex :=
  Alt (seqs [Lit nl; lits (py "Supplemental Material"); star colon_or_nl])
 (Alt (seqs [Lit nl; lits (py "Supplemental Information"); star colon_or_nl])
      (seqs [Lit nl; lits (py "Appendices"); star colon_or_nl])).

(** [TextExtractor.delete_references]: both patterns are searched in the
    whole text, with [re.IGNORECASE]; [text[:start] + text[end:]]. *)
Definition delete_references (text : str) : str :=
  let match_start := search true pattern_start text in
  let match_end := search true pattern_end text in
  match match_start with
  | Some ms =>
      let start := m_start ms in
      match match_end with
      | Some me =>
          let end_ := m_start me in
          take start text ++ drop end_ text
      | None => take start text
      end
  | None => text
  end.

(** The same operation as the specification words it (removeReferences):
    the first start marker is located; if found, the first end marker
    located after that start; with both, what lies between start and end is
    excised; with the start only, the text is truncated there; otherwise it
    is returned unchanged. *)
Definition remove_references_spec (text : str) : str :=
  match search true pattern_start text with
  | Some ms =>
      let start := m_start ms in
      match search_from true pattern_end false (S start) (drop (S start) text) with
      | Some me => take start text ++ drop (m_start me) text
      | None => take start text
      end
  | None => text
  end.

(** The patterns of [clean_text], in the order of the substitutions. *)
(* hyphen, \s*, newline, \s* *)
Definition hyphen_break : regex :=
  seqs [Lit "-"; star space; Lit nl; star space].
(* two or more newlines *)
Definition newlines2 : regex := Rep (Lit nl) 2 None.
(* arXiv: four digits, a dot, four or five digits, optionally v and digits *)
Definition arxiv_ident : regex :=
  seqs [lits (py "arXiv:"); Rep digit 4 (Some 4); Lit ".";
        Rep digit 4 (Some 5); opt (Grp 1 (Seq (Lit "v") (plus digit)))].
(* one or more spaces or tabs *)
Definition blanks : regex := plus (Cls [CChar sp; CChar tab]).
(* a newline and one or more spaces or tabs *)
Definition indentation : regex := Seq (Lit nl) (plus (Cls [CChar sp; CChar tab])).
(* one or more newlines *)
Definition newlines : regex := plus (Lit nl).

(** The six substitutions of [clean_text], before the final [strip]. *)
Definition join_hyphens (text : str) : str := sub hyphen_break [] text.
Definition collapse_newlines (text : str) : str := sub newlines2 [nl; nl] text.
Definition drop_identifiers (text : str) : str := sub arxiv_ident [] text.
Definition collapse_blanks (text : str) : str := sub blanks [sp] text.
Definition drop_indentation (text : str) : str := sub indentation [nl] text.
Definition flatten_newlines (text : str) : str := sub newlines [sp] text.

(** [TextExtractor.clean_text] *)
Definition clean_text (text : str) : Log.logged str :=
  match text with
  | [] => Log.bind (Log.emit Log.NoTextForCleaning) (fun _ => Log.ret [])
  | _ =>
      let text := join_hyphens text in
      let text := collapse_newlines text in
      let text := drop_identifiers text in
      let text := collapse_blanks text in
      let text := drop_indentation text in
      let text := flatten_newlines text in
      Log.ret (strip text)
  end.

End Cleaning.

(* ===================================================================== *)
(** ** fetcher.py: [ArxivFetcher] *)
(* ===================================================================== *)

Module Fetcher.
Import PyStr Re Py Log Datamodel.

(** The attributes of an [ArxivFetcher] that [fetch] reads;
    [fetched_ids_file] is the path [data_folder / fetched_arxiv_ids_file]. *)
Record fetcher := {
  category : str;
  max_results : Z;
  data_folder : str;
  fetched_ids_file : str
}.

(** An element of the lists [papers] and [new_papers]: an entry as parsed
    from the feed, or an [ArxivPaper] built from one. *)
Inductive item :=
| Raw (v : value)
| Paper (p : ArxivPaper).

(** [isinstance(p, ArxivPaper)] *)
Definition is_paper (it : item) : bool :=
  match it with
  | Paper _ => true
  | Raw _ => false
  end.

Definition papers_of (l : list item) : list ArxivPaper :=
  omap (fun it => match it with Paper p => Some p | Raw _ => None end) l.

(** [paper.get(key, default)]: a pydantic model has no method [get]. *)
Definition item_get (it : item) (key : str) (default : value) : outcome value :=
  match it with
  | Raw v => get v key default
  | Paper _ => Raise AttributeError
  end.

(** Lines of a text file: a line ends at a newline or a carriage return
    (the file is read with universal newlines; the empty lines this adds
    for a carriage return and newline pair are dropped by the caller). *)
Definition is_eol (c : ascii) : bool :=
  ascii_eqb c nl || ascii_eqb c "013"%char.

Fixpoint lines_from (cur : str) (s : str) : list str :=
  match s with
  | [] => [rev cur]
  | c :: s' =>
      if is_eol c then rev cur :: lines_from [] s'
      else lines_from (c :: cur) s'
  end.

Definition lines (s : str) : list str := lines_from [] s.

(** The property [fetched_ids]: the stripped, non-empty lines of the
    ledger file; the empty set when the file does not exist. *)
Definition fetched_ids (self : fetcher) (fs : files) : gset str :=
  match fs !! fetched_ids_file self with
  | None => ∅
  | Some content =>
      list_to_set
        (List.filter (fun l => negb (bool_decide (l = [])))
                     (strip <$> lines content))
  end.

(** The pattern of [_get_pages_and_figures]:
    (\d+), spaces, page, s*, a comma, spaces, (\d+), spaces, figure, s*. *)
Definition pages_figures : regex :=
  seqs [Grp 1 (plus digit); star (Lit sp); lits (py "page"); star (Lit "s");
        Lit ","; star (Lit sp); Grp 2 (plus digit); star (Lit sp);
        lits (py "figure"); star (Lit "s")].

(** [_get_pages_and_figures(comment)]; [re.search] wants a string. *)
Definition get_pages_and_figures (comment : value)
  : outcome (option Z * option Z) :=
  match comment with
  | VStr c =>
      match search false pages_figures c with
      | Some m =>
          let n_pages := default [] (group 1 (m_caps m)) in
          let n_figures := default [] (group 2 (m_caps m)) in
          n_pages ← int n_pages;
          n_figures ← int n_figures;
          Ok (Some n_pages, Some n_figures)
      | None => Ok (None, None)
      end
  | _ => Raise TypeError
  end.

(** The local variables of [fetch]. Lists are objects: [heap] holds the
    lists that exist, [new_papers] is a reference into it, and so is the
    variable [papers] of the loops below. *)
Record locals := {
  heap : list (list item);
  new_papers : nat;
  start_index : Z;
  seen : gset str;      (* the local set [fetched_ids] *)
  log : list event
}.

Definition emit_ev (e : event) (st : locals) : locals :=
  {| heap := heap st; new_papers := new_papers st;
     start_index := start_index st; seen := seen st; log := log st ++ [e] |}.

(** [new_papers = papers]: the variable now refers to the list [papers]. *)
Definition rebind_new_papers (papers : nat) (st : locals) : locals :=
  {| heap := heap st; new_papers := papers;
     start_index := start_index st; seen := seen st; log := log st |}.

(** The list an object reference stands for. *)
Definition deref (st : locals) (l : nat) : list item :=
  default [] (heap st !! l).

(** [new_papers.append(x)] *)
Definition append_new_papers (x : item) (st : locals) : locals :=
  {| heap := <[new_papers st := deref st (new_papers st) ++ [x]]> (heap st);
     new_papers := new_papers st;
     start_index := start_index st; seen := seen st; log := log st |}.

(** [fetched_ids.add(arxiv_id)] *)
Definition add_seen (arxiv_id : str) (st : locals) : locals :=
  {| heap := heap st; new_papers := new_papers st;
     start_index := start_index st; seen := {[arxiv_id]} ∪ seen st;
     log := log st |}.

(** A new list object; its reference is the second component. *)
Definition alloc (l : list item) (st : locals) : locals * nat :=
  ({| heap := heap st ++ [l]; new_papers := new_papers st;
      start_index := start_index st; seen := seen st; log := log st |},
   length (heap st)).

Definition advance (batch_size : Z) (st : locals) : locals :=
  {| heap := heap st; new_papers := new_papers st;
     start_index := (start_index st + batch_size)%Z; seen := seen st;
     log := log st |}.

(** How the body of the [for] loop ends. *)
Inductive flow := Continue | Break.

Section Fetch.
(** The answer of the arXiv API to the query for [category] from [start]
    with [max_results] entries, as [xmltodict.parse] returns it. *)
Variable feed : str -> Z -> Z -> outcome value.
(** How pydantic reads a [datetime] out of a string. *)
Variable parse_datetime : str -> option datetime.

Variable self : fetcher.

(** [url_id.split("/")[-1].replace(".pdf", "")]; only a string has the
    method [split]. *)
Definition arxiv_id_of (url_id : value) : outcome str :=
  match url_id with
  | VStr u => Ok (replace (py ".pdf") [] (last_segment "/" u))
  | _ => Raise AttributeError
  end.

(** [url_id.replace("abs", "pdf")] *)
Definition pdf_url_of (u : str) : str := replace (py "abs") (py "pdf") u.

(** [Author(name=author.get("name"), affiliation=author.get("affiliation"))] *)
Definition author_of (author : value) : outcome Author :=
  n ← get author (py "name") VNone;
  a ← get author (py "affiliation") VNone;
  make_Author n a.

(** [not isinstance(x, list)] wraps [x] in a list. *)
Definition as_list (v : value) : list value :=
  match v with
  | VList l => l
  | _ => [v]
  end.

Definition categories_of (arxiv_categories : value) : outcome (list value) :=
  match arxiv_categories with
  | VList l => for_list (fun c => get c (py "@term") VNone) l
  | _ => t ← get arxiv_categories (py "@term") VNone; Ok [t]
  end.

(** The call [ArxivPaper(id=..., ..., categories=...)] with the
    validation of its fields. *)
Definition make_ArxivPaper (arxiv_id url_id : str)
    (updated published title summary : value) (authors : list Author)
    (comment : value) (n_pages n_figures : option Z)
    (categories : list value) : outcome ArxivPaper :=
  upd ← validate_opt_datetime parse_datetime updated;
  pub ← validate_opt_datetime parse_datetime published;
  ttl ← validate_str title;
  smm ← validate_str summary;
  cmt ← validate_opt_str comment;
  cats ← for_list validate_str categories;
  Ok {| id := arxiv_id; url := url_id; pdf_url := pdf_url_of url_id;
        updated := upd; published := pub; title := ttl; summary := smm;
        authors := authors; comment := cmt; n_pages := n_pages;
        n_figures := n_figures; categories := cats; pdf_loader := None;
        text := [] |}.

(** The body of [for paper in papers], for one [paper]. *)
Definition visit (papers : nat) (paper : item) (st : locals)
  : outcome (flow * locals) :=
  (* If there is an error in the fetching, skip the paper *)
  title ← item_get paper (py "title") (VStr []);
  has_error ← contains (py "Error") title;
  if has_error : bool then
    Ok (Continue, rebind_new_papers papers (emit_ev ErrorFetchingPaper st))
  else
  (* If there is no id, skip the paper *)
  url_id ← item_get paper (py "id") VNone;
  invalid ← (if negb (truthy url_id) then Ok true
             else negb <$> contains (py "arxiv.org") url_id);
  if invalid : bool then
    Ok (Continue,
        rebind_new_papers papers (emit_ev (PaperWithoutValidUrlId url_id) st))
  else
  (* If there is no summary, skip the paper *)
  summary ← item_get paper (py "summary") VNone;
  if negb (truthy summary) then
    Ok (Continue,
        rebind_new_papers papers (emit_ev (PaperWithoutSummary url_id) st))
  else
  (* Getting arXiv id, and skipping if already fetched *)
  arxiv_id ← arxiv_id_of url_id;
  if bool_decide (arxiv_id ∈ seen st) then Ok (Continue, st) else
  (* Extracting authors from the XML response *)
  paper_authors ← item_get paper (py "author") (VList []);
  authors ← for_list author_of (as_list paper_authors);
  let st := if bool_decide (authors = []) then emit_ev PaperWithoutAuthors st
            else st in
  (* Extracting categories from the XML response *)
  arxiv_categories ← item_get paper (py "category") (VList []);
  categories ← categories_of arxiv_categories;
  (* Extracting pages and figures from the comment *)
  comment_elt ← item_get paper (py "arxiv:comment") (VDict []);
  comment ← get comment_elt (py "#text") (VStr []);
  pf ← get_pages_and_figures comment;
  (* Storing the ArxivPaper object in the list *)
  updated ← item_get paper (py "updated") VNone;
  published ← item_get paper (py "published") VNone;
  title ← item_get paper (py "title") VNone;
  url_str ← validate_str url_id;   (* the field [url: str] *)
  p ← make_ArxivPaper arxiv_id url_str updated published title summary
        authors comment (fst pf) (snd pf) categories;
  let st := append_new_papers (Paper p) st in
  let st := add_seen arxiv_id st in
  let st := emit_ev (PaperFetched arxiv_id) st in
  if (Z.of_nat (length (deref st (new_papers st))) >=? max_results self)%Z
  then Ok (Break, st)
  else Ok (Continue, st).

(** [for paper in papers]: the iterator holds the list and an index, and
    sees what is appended to the list while it runs. *)
Fixpoint for_papers (fuel : nat) (papers : nat) (i : nat) (st : locals)
  : outcome locals :=
  match fuel with
  | 0 => OutOfFuel
  | S fuel' =>
      match deref st papers !! i with
      | None => Ok st
      | Some paper =>
          r ← visit papers paper st;
          match r with
          | (Break, st') => Ok st'
          | (Continue, st') => for_papers fuel' papers (S i) st'
          end
      end
  end.

(** How the [while] loop ends: it is left because its condition fails,
    or [fetch] returns from inside it. *)
Inductive loop_end :=
| Exit (st : locals)
| Return (result : list item) (st : locals).

(** How one round of the loop ends: the loop goes on or ends. *)
Inductive round_end :=
| Next (st : locals)
| Stop (e : loop_end).

(** One evaluation of the condition [len(new_papers) < self.max_results]
    and, when it holds, of the body of the loop. *)
Definition round (batch_size : Z) (st : locals) : outcome round_end :=
  let len := Z.of_nat (length (deref st (new_papers st))) in
  if (len <? max_results self)%Z then
    let remaining := (max_results self - len)%Z in
    let current_batch_size := Z.min batch_size remaining in
    (* Fetch request from arXiv API and parsing the XML response *)
    data_dict ← feed (category self) (start_index st) current_batch_size;
    (* Extracting papers from the XML response *)
    feed_elt ← get data_dict (py "feed") (VDict []);
    papers ← get feed_elt (py "entry") (VList []);
    if negb (truthy papers) then
      Ok (Stop (Return [] (emit_ev NoPapersFound st)))
    else
      (* In case max_results is 1, the response is not a list *)
      let (st, papers_ref) := alloc (Raw <$> as_list papers) st in
      (* Store papers object ArxivPaper in a list *)
      st ← for_papers (S (S (length (as_list papers)))) papers_ref 0 st;
      Ok (Next (advance batch_size st))
  else Ok (Stop (Exit st)).

(** [while len(new_papers) < self.max_results]; [fuel] bounds the number
    of rounds. *)
Fixpoint while_loop (batch_size : Z) (fuel : nat) (st : locals)
  : outcome loop_end :=
  match fuel with
  | 0 => OutOfFuel
  | S fuel' =>
      r ← round batch_size st;
      match r with
      | Next st' => while_loop batch_size fuel' st'
      | Stop e => Ok e
      end
  end.

(** The end of [fetch]: the identifiers are saved if all the elements of
    [new_papers] are [ArxivPaper] objects with an [id]; the list is
    returned if they all are [ArxivPaper] objects, else an empty list. *)
Definition save_and_return (new_papers : list item) (fs : files)
  : list item * files :=
  let fs :=
    if forallb is_paper new_papers
    then append_file (fetched_ids_file self)
           (concat ((fun p => id p ++ [nl]) <$> papers_of new_papers)) fs
    else fs in
  if negb (forallb is_paper new_papers) then ([], fs)
  else (new_papers, fs).

Definition initial (fs : files) : locals :=
  {| heap := [[]]; new_papers := 0; start_index := 0;
     seen := fetched_ids self fs; log := [] |}.

(** [ArxivFetcher.fetch(batch_size)]: the returned list, the file system
    afterwards and the messages logged. [fuel] bounds the number of
    rounds of the loop, one more than the number of pages requested. *)
Definition fetch (batch_size : Z) (fuel : nat) (fs : files)
  : outcome (list item * files * list event) :=
  r ← while_loop batch_size fuel (initial fs);
  match r with
  | Return result st => Ok (result, fs, log st)
  | Exit st =>
      let (result, fs') := save_and_return (deref st (new_papers st)) fs in
      Ok (result, fs', log st)
  end.

(** The state after [n] rounds of the loop that all went on to the
    next round, if there is one. *)
Fixpoint after_rounds (batch_size : Z) (n : nat) (st : locals)
  : option locals :=
  match n with
  | 0 => Some st
  | S n' =>
      match round batch_size st with
      | Ok (Next st') => after_rounds batch_size n' st'
      | _ => None
      end
  end.

(** In state [st] the loop requests a page, and that page has zero
    entries. *)
Definition zero_entries (batch_size : Z) (st : locals) : bool :=
  let len := Z.of_nat (length (deref st (new_papers st))) in
  (len <? max_results self)%Z &&
  match
    data_dict ← feed (category self) (start_index st)
                     (Z.min batch_size (max_results self - len));
    feed_elt ← get data_dict (py "feed") (VDict []);
    get feed_elt (py "entry") (VList [])
  with
  | Ok papers => negb (truthy papers)
  | _ => false
  end.
End Fetch.

End Fetcher.

(* ===================================================================== *)
(** ** downloader.py: [ArxivDownloader.download_pdf] *)
(* ===================================================================== *)

Module Downloader.
Import PyStr Py Log Datamodel.

(** A streamed HTTP response: its status, the chunks [iter_content]
    yields, and whether the stream then breaks with a
    [RequestException] instead of ending. *)
Record response := {
  status_code : Z;
  chunks : list str;
  broken : bool
}.

(** [response.raise_for_status()] raises an [HTTPError] for the client and
    server error codes. *)
Definition raises_for_status (r : response) : bool :=
  (400 <=? status_code r)%Z && (status_code r <? 600)%Z.

(** What the [with open(pdf_path, "wb")] block leaves in the file: the
    non-empty chunks received. *)
Definition written (r : response) : str :=
  concat (List.filter (fun chunk => negb (bool_decide (chunk = []))) (chunks r)).

Section Download.
(** [self.session.get(url, stream=True, timeout=60)]: a response, or
    [None] when the call raises a [RequestException]. *)
Variable session_get : str -> option response.
(** [self.data_folder] *)
Variable data_folder : str.

(** [download_pdf(arxiv_paper, write)]: the file system afterwards and
    the returned path, [None] after a failure. *)
Definition download_pdf (arxiv_paper : ArxivPaper) (write : bool) (fs : files)
  : logged (files * option str) :=
  match session_get (pdf_url arxiv_paper) with
  | None => ([FailedToDownloadPdf], (fs, None))
  | Some response =>
      if raises_for_status response then ([FailedToDownloadPdf], (fs, None))
      else
        let pdf_path := joinpath data_folder (id arxiv_paper ++ py ".pdf") in
        if write then
          let fs' := <[pdf_path := written response]> fs in
          if broken response then ([FailedToDownloadPdf], (fs', None))
          else ([PdfDownloaded pdf_path], (fs', Some pdf_path))
        else ([PdfDownloaded pdf_path], (fs, Some pdf_path))
  end.

(** The PDF URL of the record answers, and with a status that
    [raise_for_status] accepts. *)
Definition answers_ok (arxiv_paper : ArxivPaper) : bool :=
  match session_get (pdf_url arxiv_paper) with
  | Some response => negb (raises_for_status response)
  | None => false
  end.
End Download.

End Downloader.

(* ===================================================================== *)
(** ** extractor.py: [TextExtractor.get_text] and [download_pattern_papers] *)
(* ===================================================================== *)

Module Extractor.
Import PyStr Py Log Datamodel Cleaning.

(** What [get_text] returns: the list [[]] of its two early returns, or a
    string. *)
Inductive extracted :=
| EmptyList
| Text (s : str).

(** [bool(text)] *)
Definition nonempty (text : extracted) : bool :=
  match text with
  | EmptyList => false
  | Text s => negb (bool_decide (s = []))
  end.

(** [str(pdf_path)] for a string or [None]. *)
Definition str_of_path (pdf_path : option str) : str :=
  match pdf_path with
  | Some p => p
  | None => py "None"
  end.

Section GetText.
(** The two loaders: the contents of the pages read from a file with
    the given content; a loader may raise. *)
Variable pypdf : str -> outcome (list str).
Variable pdfminer : str -> outcome (list str).

(** [self.available_loaders] *)
Definition available_loaders (loader : str)
  : option (str -> outcome (list str)) :=
  if str_eqb loader (py "pypdf") then Some pypdf
  else if str_eqb loader (py "pdfminer") then Some pdfminer
  else None.

(** [_check_pdf_path(pdf_path)] *)
Definition check_pdf_path (pdf_path : option str) (fs : files) : logged bool :=
  let pdf_path := str_of_path pdf_path in
  if bool_decide (pdf_path = []) then ([NoPdfPathProvided], false)
  else ([], bool_decide (is_Some (fs !! pdf_path))
            && endswith (py ".pdf") pdf_path).

(** [get_text(pdf_path, loader)] *)
Definition get_text (pdf_path : option str) (loader : str) (fs : files)
  : logged (outcome extracted) :=
  let (l, valid) := check_pdf_path pdf_path fs in
  if negb valid then (l, Ok EmptyList)
  else
    match available_loaders loader with
    | None => (l ++ [LoaderNotAvailable loader], Ok EmptyList)
    | Some load =>
        (l, pages ← load (default [] (fs !! str_of_path pdf_path));
            Ok (Text (concat pages)))
    end.
End GetText.

(** The lists [download_pattern_papers] builds, the file system and the
    log. *)
Record acc := {
  fs : files;
  paths : list (option str);      (* the variable [files] *)
  all_papers : list ArxivPaper;
  plog : list event
}.

Section Pipeline.
Variable feed : str -> Z -> Z -> outcome value.
Variable parse_datetime : str -> option datetime.
Variable session_get : str -> option Downloader.response.
Variable pypdf : str -> outcome (list str).
Variable pdfminer : str -> outcome (list str).
(** [pattern.search(text)] finds a match. *)
Variable pattern : str -> bool.

Variable self : Fetcher.fetcher.
Variable loader : str.

(** [pdf_path.unlink()] *)
Definition unlink (pdf_path : option str) (fs : files) : outcome files :=
  match pdf_path with
  | Some p => Ok (delete p fs)
  | None => Raise AttributeError
  end.

(** [paper.text = clean_text(delete_references(text))] *)
Definition attach (text : str) (paper : ArxivPaper) : logged ArxivPaper :=
  let text := delete_references text in
  let (l, text) := clean_text text in
  (l, set_text text paper).

(** The body of [for paper in papers]. *)
Definition process_paper (paper : Fetcher.item) (a : acc) : outcome acc :=
  match paper with
  | Fetcher.Raw _ => Raise AttributeError
  | Fetcher.Paper p =>
      let '(l1, (fs1, pdf_path)) :=
        Downloader.download_pdf session_get (Fetcher.data_folder self) p true (fs a) in
      (* Extract text from the PDF *)
      let '(l2, r) := get_text pypdf pdfminer pdf_path loader fs1 in
      text ← r;
      if negb (nonempty text) then
        Ok {| fs := fs1; paths := paths a; all_papers := all_papers a;
              plog := plog a ++ l1 ++ l2 ++ [NoTextExtracted] |}
      else
        match text with
        | EmptyList => Raise TypeError
        | Text t =>
            (* Deleting downloaded PDFs that do not match the pattern *)
            if negb (pattern t) then
              fs2 ← unlink pdf_path fs1;
              Ok {| fs := fs2; paths := paths a; all_papers := all_papers a;
                    plog := plog a ++ l1 ++ l2 |}
            else
              let (l3, p') := attach t p in
              Ok {| fs := fs1;
                    paths := paths a ++ [pdf_path];
                    all_papers := all_papers a ++ [p'];
                    plog := plog a ++ l1 ++ l2 ++ l3 |}
        end
  end.

Fixpoint process_papers (papers : list Fetcher.item) (a : acc) : outcome acc :=
  match papers with
  | [] => Ok a
  | paper :: papers' => a' ← process_paper paper a; process_papers papers' a'
  end.

(** [for _ in range(n_fetch_batches)]; [fuel] bounds the pages each call
    of [fetch] may request. *)
Fixpoint fetch_batches (batch_size : Z) (fuel : nat) (n : nat) (a : acc)
  : outcome acc :=
  match n with
  | 0 => Ok a
  | S n' =>
      r ← Fetcher.fetch feed parse_datetime self batch_size fuel (fs a);
      let '(papers, fs', l) := r in
      a' ← process_papers papers
             {| fs := fs'; paths := paths a; all_papers := all_papers a;
                plog := plog a ++ l |};
      fetch_batches batch_size fuel n' a'
  end.

(** [download_pattern_papers(...)]: the two returned lists, with the file
    system and the log at the end. *)
Definition download_pattern_papers (batch_size n_fetch_batches : Z)
    (fuel : nat) (fs0 : files) : outcome acc :=
  fetch_batches batch_size fuel (Z.to_nat n_fetch_batches)
    {| fs := fs0; paths := []; all_papers := []; plog := [] |}.

(** The file of a record in the content folder. *)
Definition pdf_file (p : ArxivPaper) : str :=
  joinpath (Fetcher.data_folder self) (id p ++ py ".pdf").

(** The download of the PDF of a record into [fs0] followed by the
    extraction of its text: the file system after the download, the path
    returned by the download, and what [get_text] makes of it. *)
Definition extraction (p : ArxivPaper) (fs0 : files)
  : files * option str * outcome extracted :=
  let '(_, (fs1, pdf_path)) :=
    Downloader.download_pdf session_get (Fetcher.data_folder self) p true fs0 in
  (fs1, pdf_path, value_of (get_text pypdf pdfminer pdf_path loader fs1)).

(** What the pipeline keeps of a record: its path and the record with
    its cleaned text, when the extracted text is not empty and matches. *)
Definition kept (p : ArxivPaper) : option (option str * ArxivPaper) :=
  match extraction p ∅ with
  | (_, pdf_path, Ok (Text t)) =>
      if negb (bool_decide (t = [])) && pattern t
      then Some (pdf_path, value_of (attach t p))
      else None
  | _ => None
  end.
End Pipeline.

End Extractor.

(* ===================================================================== *)
(** ** The invariant of the loops of [fetch] *)
(* ===================================================================== *)

Module Invariants.
Import PyStr Py Datamodel Fetcher.

(** The messages of the three rejections of a feed entry. *)
Definition rejection (e : Log.event) : bool :=
  match e with
  | Log.ErrorFetchingPaper | Log.PaperWithoutValidUrlId _
  | Log.PaperWithoutSummary _ => true
  | _ => false
  end.

(** [seen0] is the ledger as read at the start of the call. The variable
    [new_papers] refers to an existing list, the local set only grows, and
    as long as the list holds records only, their identifiers are pairwise
    distinct, in the local set and not in the ledger. Once an entry has
    been rejected the list does not hold records only. *)
Definition batch_ok (seen0 : gset str) (st : locals) : Prop :=
  new_papers st < length (heap st)
  ∧ seen0 ⊆ seen st
  ∧ (forallb is_paper (deref st (new_papers st)) = true →
     NoDup (id <$> papers_of (deref st (new_papers st)))
     ∧ ∀ p, p ∈ papers_of (deref st (new_papers st)) →
            id p ∈ seen st ∧ id p ∉ seen0)
  ∧ (existsb rejection (log st) = true →
     forallb is_paper (deref st (new_papers st)) = false).

End Invariants.

(* ===================================================================== *)
(** ** Concrete inputs *)
(* ===================================================================== *)

Module Examples.
Import PyStr Py Log Datamodel Fetcher.

(** A feed entry for the identifier [ident], with or without a summary. *)
Definition entry (ident : string) (with_summary : bool) : value :=
  VDict ([(py "id", VStr (py "http://arxiv.org/abs/" ++ py ident));
          (py "title", VStr (py "A title"))]
         ++ if with_summary then [(py "summary", VStr (py "An abstract."))]
            else []).

(** A parsed response whose feed has the given entries. *)
Definition page (entries : list value) : outcome value :=
  Ok (VDict [(py "feed",
              VDict [(py "@xmlns", VStr (py "http://www.w3.org/2005/Atom"));
                     (py "entry", VList entries)])]).

(** A parsed response whose feed has no entry. *)
Definition empty_page : outcome value :=
  Ok (VDict [(py "feed",
              VDict [(py "@xmlns", VStr (py "http://www.w3.org/2005/Atom"))])]).

(** An API that answers the query from offset 0 with [entries] and every
    other query with a feed without entries. *)
Definition one_page (entries : list value) (category : str) (start n : Z)
  : outcome value :=
  if (start =? 0)%Z then page entries else empty_page.

Definition no_dates (s : str) : option datetime := None.

Definition ledger : str := py "data/fetched_arxiv_ids.txt".

Definition fetcher_of (max_results : Z) : fetcher :=
  {| category := py "cond-mat.str-el"; max_results := max_results;
     data_folder := py "data"; fetched_ids_file := ledger |}.

(** The record [fetch] builds from [entry ident true]. *)
Definition paper_of (ident : string) : ArxivPaper :=
  {| id := py ident;
     url := py "http://arxiv.org/abs/" ++ py ident;
     pdf_url := py "http://arxiv.org/pdf/" ++ py ident;
     updated := None; published := None;
     title := py "A title"; summary := py "An abstract.";
     authors := []; comment := Some []; n_pages := None; n_figures := None;
     categories := []; pdf_loader := None; text := [] |}.

(** The messages logged when [entry ident true] is accepted. *)
Definition accepted (ident : string) : list event :=
  [PaperWithoutAuthors; PaperFetched (py ident)].

(** The local variables of [fetch] after a first round that accepted
    [entry ident true], the only entry of its page, for a batch size of 1
    and an empty ledger. *)
Definition after_first_round (ident : string) : locals :=
  {| heap := [[Paper (paper_of ident)]; [Raw (entry ident true)]];
     new_papers := 0; start_index := 1;
     seen := {[ py ident ]} ∪ ∅;
     log := accepted ident |}.

(** A server that answers every request with status 200 and the given
    body in one chunk. *)
Definition serve (body : str) (url : str) : option Downloader.response :=
  Some {| Downloader.status_code := 200; Downloader.chunks := [body];
          Downloader.broken := false |}.

(** A loader that reads the content of the file as its only page. *)
Definition one_page_loader (content : str) : outcome (list str) :=
  Ok [content].

(** The pattern DMFT, without the word boundaries. *)
Definition has_dmft (text : str) : bool := PyStr.contains (py "DMFT") text.

(** The accumulator of [download_pattern_papers] at its start. *)
Definition start_acc : Extractor.acc :=
  {| Extractor.fs := ∅; Extractor.paths := []; Extractor.all_papers := [];
     Extractor.plog := [] |}.

(** A text whose appendix heading comes before its references heading. *)
Definition appendix_first : str :=
  py "intro" ++ [nl] ++ py "Appendices" ++ [nl] ++ py "foo" ++ [nl]
  ++ py "References" ++ [nl] ++ py "[1] Smith".

End Examples.

(* ===================================================================== *)
(** ** Statements about the ledger file *)
(* ===================================================================== *)

Module Ledger.
Import PyStr Py Fetcher.

(** An identifier that the ledger gives back as it was written: it is not
    empty, [strip] leaves it alone, and it has no end of line in it. *)
Definition ledger_safe (ident : str) : bool :=
  negb (bool_decide (ident = []))
  && bool_decide (strip ident = ident)
  && forallb (fun c => negb (is_eol c)) ident.

(** The ledger file is missing, empty, or ends with an end of line: what
    is appended to it starts a line of its own. *)
Definition ends_line (self : fetcher) (fs : files) : bool :=
  match fs !! fetched_ids_file self with
  | None => true
  | Some content =>
      match last content with
      | None => true
      | Some c => is_eol c
      end
  end.

(** What the end of [fetch] writes for a list of identifiers. *)
Definition ledger_lines (ids : list str) : str :=
  concat ((fun i => i ++ [nl]) <$> ids).

End Ledger.

(* ===================================================================== *)
(** ** Statements about the records [fetch] builds *)
(* ===================================================================== *)

Module Records.
Import PyStr Py Datamodel Fetcher.

(** What [fetch] has checked or computed for a record it appends: the URL
    mentions arxiv.org, the identifier is the last segment of the URL
    without ".pdf", the PDF URL is the URL with "abs" replaced by "pdf",
    the summary is not empty, the title does not mention Error, and no
    text has been attached yet. *)
Definition record_ok (p : ArxivPaper) : bool :=
  PyStr.contains (py "arxiv.org") (url p)
  && bool_decide (id p = replace (py ".pdf") [] (last_segment "/" (url p)))
  && bool_decide (pdf_url p = replace (py "abs") (py "pdf") (url p))
  && negb (bool_decide (summary p = []))
  && negb (PyStr.contains (py "Error") (title p))
  && bool_decide (text p = [])
  && bool_decide (pdf_loader p = None).

(** Every record in a list that exists is as [fetch] builds them. *)
Definition heap_records_ok (st : locals) : Prop :=
  ∀ l p, l ∈ heap st → Paper p ∈ l → record_ok p = true.

(** The list [new_papers] exists and, as long as it holds records only,
    has fewer than ([strict]) or at most [max_results] elements. *)
Definition batch_room (self : fetcher) (strict : bool) (st : locals) : Prop :=
  new_papers st < length (heap st)
  ∧ (forallb is_paper (deref st (new_papers st)) = true →
     if strict
     then (Z.of_nat (length (deref st (new_papers st))) < max_results self)%Z
     else (Z.of_nat (length (deref st (new_papers st))) <= max_results self)%Z).

(** The identifier a message announces as fetched. *)
Definition fetched_id (e : Log.event) : option str :=
  match e with
  | Log.PaperFetched arxiv_id => Some arxiv_id
  | _ => None
  end.

(** The list [new_papers] exists and, as long as it holds records only,
    the log announces its records as fetched, one by one and in order. *)
Definition log_agrees (st : locals) : Prop :=
  new_papers st < length (heap st)
  ∧ (forallb is_paper (deref st (new_papers st)) = true →
     omap fetched_id (log st) = id <$> papers_of (deref st (new_papers st))).

(** An entry of a page brings nothing new: whatever list it is visited
    in, the body of the [for] loop goes on to the next entry and leaves
    every variable as it was, as it does for an identifier already in the
    ledger. *)
Definition brings_nothing (parse_datetime : str -> option datetime)
    (self : fetcher) (ids : gset str) (v : value) : Prop :=
  ∀ papers st, seen st = ids →
    visit parse_datetime self papers (Raw v) st = Ok (Continue, st).

(** The arXiv API answers every query with a page that has entries, none
    of which brings anything new. *)
Definition stale_feed (feed : str -> Z -> Z -> outcome value)
    (parse_datetime : str -> option datetime) (self : fetcher)
    (ids : gset str) : Prop :=
  ∀ start n, ∃ data_dict feed_elt papers,
    feed (category self) start n = Ok data_dict
    ∧ get data_dict (py "feed") (VDict []) = Ok feed_elt
    ∧ get feed_elt (py "entry") (VList []) = Ok papers
    ∧ truthy papers = true
    ∧ Forall (brings_nothing parse_datetime self ids) (as_list papers).

End Records.

(* ===================================================================== *)
(** ** extractor.py: [arxiv_fetch_and_extract] *)
(* ===================================================================== *)

Module Workflow.
Import PyStr Py Log Datamodel Cleaning Fetcher Extractor.

(** The messages of [arxiv_fetch_and_extract]: those of the methods it
    calls, and its own two. *)
Inductive message :=
| Called (e : event)
| PapersFetched (max_results : Z) (category : str)
                             (* ... papers fetched from arXiv, ... *)
| TextStored (arxiv_id : str).
                             (* Text extracted from ... and stored in model. *)

Section Extract.
Variable feed : str -> Z -> Z -> outcome value.
Variable parse_datetime : str -> option datetime.
Variable session_get : str -> option Downloader.response.
Variable pypdf : str -> outcome (list str).
Variable pdfminer : str -> outcome (list str).

(** The fetcher the function has built from its arguments. *)
Variable self : fetcher.
Variable loader : str.

(** The body of [for paper in papers]: the element of the list as the
    round leaves it, the file system and the messages of the round. The
    assignment [paper.text = text] changes the record in the list, which
    no other variable holds. *)
Definition extract_paper (paper : item) (fs : files)
  : outcome (item * files * list message) :=
  match paper with
  | Raw _ => Raise AttributeError
  | Paper p =>
      (* Download the PDF to [data_folder] *)
      let '(l1, (fs1, pdf_path)) :=
        Downloader.download_pdf session_get (data_folder self) p true fs in
      (* Extract text from the PDF *)
      let '(l2, r) := get_text pypdf pdfminer pdf_path loader fs1 in
      text ← r;
      if negb (nonempty text) then
        Ok (Paper p, fs1, Called <$> (l1 ++ l2 ++ [NoTextExtracted]))
      else
        match text with
        | EmptyList => Raise TypeError
        | Text t =>
            (* Delete references and clean text; store the text in the
               [text] attribute *)
            let (l3, p') := attach t p in
            Ok (Paper p', fs1,
                (Called <$> (l1 ++ l2 ++ l3)) ++ [TextStored (id p')])
        end
  end.

Fixpoint extract_papers (papers : list item) (fs : files)
  : outcome (list item * files * list message) :=
  match papers with
  | [] => Ok ([], fs, [])
  | paper :: papers' =>
      r ← extract_paper paper fs;
      let '(paper', fs1, l1) := r in
      r' ← extract_papers papers' fs1;
      let '(rest, fs2, l2) := r' in
      Ok (paper' :: rest, fs2, l1 ++ l2)
  end.

(** [arxiv_fetch_and_extract(...)], once the fetcher and the extractor are
    built: the returned list, the file system afterwards and the
    messages. [fuel] bounds the pages [fetch] may request. *)
Definition arxiv_fetch_and_extract (batch_size : Z) (fuel : nat) (fs : files)
  : outcome (list item * files * list message) :=
  r ← fetch feed parse_datetime self batch_size fuel fs;
  let '(papers, fs1, l) := r in
  r' ← extract_papers papers fs1;
  let '(papers', fs2, l') := r' in
  Ok (papers', fs2,
      (Called <$> l) ++ [PapersFetched (max_results self) (category self)]
      ++ l').
End Extract.

(** A path and a record that go together in the two lists of
    [download_pattern_papers]: the path is the PDF of the record in the
    data folder, and the text of the record is on one line. *)
Definition listed (self : fetcher) (path : option str) (q : ArxivPaper)
  : Prop :=
  path = Some (pdf_file self q) ∧ nl ∉ text q.

End Workflow.

(* ===================================================================== *)
(** ** Classes of characters *)
(* ===================================================================== *)

Module Chars.
Import PyStr.

(** A space or a tabulation, the class of two of the patterns of
    [clean_text]. *)
Definition is_blank (c : ascii) : bool := ascii_eqb sp c || ascii_eqb tab c.

End Chars.

(* ===================================================================== *)
(** ** More runs of the program, for the examples *)
(* ===================================================================== *)

Module Runs.
Import PyStr Py Log Datamodel Fetcher Examples.

(** An API that answers every query with the same entries. *)
Definition same_page (entries : list value) (category : str) (start n : Z)
  : outcome value :=
  page entries.

(** A server whose answer breaks off after the given chunks. *)
Definition cut_off (received : list str) (url : str)
  : option Downloader.response :=
  Some {| Downloader.status_code := 200; Downloader.chunks := received;
          Downloader.broken := true |}.

(** A loader that cannot read the file. *)
Definition failing_loader (content : str) : outcome (list str) :=
  Raise LoaderError.

(** The ledger after the identifier [ident] has been saved. *)
Definition ledger_with (ident : string) : files :=
  {[ ledger := py ident ++ [nl] ]}.

End Runs.

(* ===================================================================== *)
(** * Properties *)
(* ===================================================================== *)

(** ** Facts about [strip] *)

Module StripFacts.
Import PyStr.

Lemma lstrip_suffix (s : str) : ∃ p, s = p ++ lstrip s.
Proof.
  induction s as [|c s IH]; simpl.
  - by exists [].
  - destruct (is_space c).
    + destruct IH as [p Hp]. exists (c :: p). simpl. by f_equal.
    + by exists [].
Qed.

Lemma lstrip_head (s : str) (c : ascii) :
  head (lstrip s) = Some c → is_space c = false.
Proof.
  induction s as [|x s IH]; simpl; [done|].
  destruct (is_space x) eqn:E; [done|].
  simpl. intros [= <-]. done.
Qed.

Lemma rstrip_prefix (s : str) : ∃ q, s = rstrip s ++ q.
Proof.
  unfold rstrip. destruct (lstrip_suffix (rev s)) as [p Hp].
  exists (rev p). rewrite <- rev_app_distr, <- Hp. by rewrite rev_involutive.
Qed.

Lemma rstrip_last (s : str) (c : ascii) :
  last (rstrip s) = Some c → is_space c = false.
Proof.
  unfold rstrip. intros H. apply (lstrip_head (rev s)).
  destruct (lstrip (rev s)) as [|x r]; [done|].
  simpl in *. rewrite last_snoc in H. done.
Qed.

Lemma strip_head (s : str) (c : ascii) :
  head (strip s) = Some c → is_space c = false.
Proof.
  unfold strip. destruct (rstrip_prefix (lstrip s)) as [q Hq].
  destruct (rstrip (lstrip s)) as [|x r] eqn:E; [done|].
  simpl. intros [= <-]. apply (lstrip_head s). by rewrite Hq.
Qed.

Lemma strip_last (s : str) (c : ascii) :
  last (strip s) = Some c → is_space c = false.
Proof. apply rstrip_last. Qed.

Lemma strip_elem (s : str) (c : ascii) : c ∈ strip s → c ∈ s.
Proof.
  unfold strip. destruct (rstrip_prefix (lstrip s)) as [q Hq].
  destruct (lstrip_suffix s) as [p Hp]. intros Hc.
  rewrite Hp, Hq. set_solver.
Qed.

End StripFacts.

(** ** Facts about the matcher *)

Module ReFacts.
Import PyStr Re.

Section Sound.
Context {R : Type}.

Lemma rep_min_sound (step : @matcher R) lo :
  sound step → sound (rep_min step lo).
Proof.
  intros Hs. induction lo as [|lo IH]; intros cs s k x; simpl.
  - intros H. exists cs, s. done.
  - intros H. apply Hs in H as (cs1 & s1 & H & Hl).
    apply IH in H as (cs2 & s2 & H & Hl2). exists cs2, s2. split; [done|lia].
Qed.

Lemma rep_max_sound (step : @matcher R) fuel hi :
  sound step → sound (rep_max step fuel hi).
Proof.
  intros Hs. revert hi.
  induction fuel as [|fuel IH]; intros hi cs s k x; simpl.
  - intros H. exists cs, s. done.
  - assert (Hk : k cs s = Some x → ∃ cs' s', k cs' s' = Some x ∧ length s' ≤ length s)
      by (intros H; exists cs, s; done).
    assert (Hstep : orelse
       (step cs s (fun cs' s' => if length s' <? length s
                                 then rep_max step fuel (pred <$> hi) cs' s' k
                                 else None)) (k cs s) = Some x →
       ∃ cs' s', k cs' s' = Some x ∧ length s' ≤ length s).
    { unfold orelse. destruct (step cs s _) as [y|] eqn:E; [|done].
      intros [= ->]. apply Hs in E as (cs1 & s1 & E & Hl).
      destruct (length s1 <? length s); [|done].
      apply IH in E as (cs2 & s2 & E & Hl2). exists cs2, s2. split; [done|lia]. }
    destruct hi as [[|n]|]; done.
Qed.

Lemma m_re_sound ic r : sound (@m_re R ic r).
Proof.
  induction r as [|c|items|r1 IH1 r2 IH2|r1 IH1 r2 IH2|r IH lo hi|i r IH];
    intros cs s k x; simpl.
  - intros H. exists cs, s. done.
  - destruct s as [|y s']; [done|]. destruct (lit_match ic c y); [|done].
    intros H. exists cs, s'. split; [done|simpl; lia].
  - destruct s as [|y s']; [done|]. destruct (cls_match ic items y); [|done].
    intros H. exists cs, s'. split; [done|simpl; lia].
  - intros H. apply IH1 in H as (cs1 & s1 & H & Hl).
    apply IH2 in H as (cs2 & s2 & H & Hl2). exists cs2, s2. split; [done|lia].
  - unfold orelse. destruct (m_re ic r1 cs s k) as [y|] eqn:E.
    + intros [= ->]. by apply IH1 in E.
    + apply IH2.
  - intros H. apply (rep_min_sound _ _ IH) in H as (cs1 & s1 & H & Hl).
    apply (rep_max_sound _ _ _ IH) in H as (cs2 & s2 & H & Hl2).
    exists cs2, s2. split; [done|lia].
  - intros H. apply IH in H as (cs1 & s1 & H & Hl). eauto.
Qed.

(** The optional iterations never fail when the rest of the pattern
    accepts whatever text is left. *)
Lemma rep_max_total (step : @matcher R) fuel hi cs s k :
  sound step →
  (∀ cs' s', length s' ≤ length s → is_Some (k cs' s')) →
  is_Some (rep_max step fuel hi cs s k).
Proof.
  intros Hs Hk. destruct fuel as [|fuel]; simpl; [by apply Hk|].
  assert (is_Some (k cs s)) as [y Hy] by (by apply Hk).
  destruct hi as [[|n]|]; [by rewrite Hy| |];
    unfold orelse; destruct (step cs s _); rewrite ?Hy; done.
Qed.
End Sound.

(** A match ends inside the text. *)
Lemma match_at_length ic r adv s cs s' :
  match_at ic r adv s = Some (cs, s') → length s' ≤ length s.
Proof.
  unfold match_at. intros H. apply m_re_sound in H as (cs1 & s1 & H & Hl).
  destruct (adv && _); [done|]. by injection H as -> ->.
Qed.

(** With "must advance" a match is not empty. *)
Lemma match_at_advance ic r s cs s' :
  match_at ic r true s = Some (cs, s') → length s' < length s.
Proof.
  unfold match_at. intros H. apply m_re_sound in H as (cs1 & s1 & H & Hl).
  simpl in H. destruct (length s1 =? length s) eqn:E; [done|].
  injection H as -> ->. apply Nat.eqb_neq in E. lia.
Qed.

(** Where [search_from] finds its match. *)
Lemma search_from_bounds ic r adv start s m :
  search_from ic r adv start s = Some m →
  start ≤ m_start m ∧ m_start m ≤ m_end m ∧ m_end m ≤ start + length s.
Proof.
  revert adv start. induction s as [|c s IH]; intros adv start; simpl.
  - destruct (match_at ic r adv []) as [[cs s']|] eqn:E; [|done].
    intros [= <-]. simpl. apply match_at_length in E. simpl in E. lia.
  - destruct (match_at ic r adv (c :: s)) as [[cs s']|] eqn:E.
    + intros [= <-]. simpl. apply match_at_length in E. simpl in E. lia.
    + intros H. apply IH in H. lia.
Qed.

End ReFacts.

(** ** [TextExtractor.clean_text] *)

Module CleaningProps.
Import PyStr Re Log Cleaning ReFacts StripFacts.

(** The pattern "one or more newlines" matches at a newline, and the match
    is not empty. *)
Lemma newlines_at_nl adv t :
  ∃ cs s', match_at false newlines adv (nl :: t) = Some (cs, s')
           ∧ length s' ≤ length t.
Proof.
  unfold match_at, newlines, plus.
  cbn [m_re rep_min fmap option_fmap option_map].
  change (lit_match false nl nl) with true. cbv iota.
  set (k := fun (cs : caps) (s' : str) =>
              if adv && (length s' =? length (nl :: t)) then None
              else Some (cs, s')).
  destruct (rep_max_total (m_re false (Lit nl)) (length t) None [] t k)
    as [[cs s'] H].
  - apply m_re_sound.
  - intros cs' s' Hl. unfold k.
    replace (length s' =? length (nl :: t)) with false; [rewrite andb_false_r; eauto|].
    symmetry. apply Nat.eqb_neq. simpl. lia.
  - exists cs, s'. split; [done|].
    apply rep_max_sound in H as (cs1 & s1 & H & Hl); [|apply m_re_sound].
    unfold k in H. destruct (adv && _); [done|]. by injection H as -> ->.
Qed.

(** It does not match anywhere else. *)
Lemma newlines_elsewhere adv s :
  head s ≠ Some nl → match_at false newlines adv s = None.
Proof.
  intros H. unfold match_at, newlines, plus.
  cbn [m_re rep_min fmap option_fmap option_map].
  destruct s as [|c s]; [done|].
  destruct (lit_match false nl c) eqn:E; [|done].
  unfold lit_match, ascii_eqb in E. apply Ascii.eqb_eq in E.
  subst c. by destruct H.
Qed.

(** What the search for newlines finds: no newline before the match, and
    a match that is not empty; without a match the text has no newline. *)
Lemma search_newlines adv start s :
  match search_from false newlines adv start s with
  | Some m => ∃ j, m_start m = start + j ∧ m_end m > m_start m
                   ∧ m_end m ≤ start + length s ∧ nl ∉ take j s
  | None => nl ∉ s
  end.
Proof.
  revert adv start. induction s as [|c s IH]; intros adv start.
  - cbn [search_from]. rewrite newlines_elsewhere by done. set_solver.
  - destruct (decide (c = nl)) as [->|Hc].
    + cbn [search_from].
      destruct (newlines_at_nl adv s) as (cs & s' & -> & Hl).
      exists 0. cbn [m_start m_end length take]. repeat split; [lia|lia|lia|set_solver].
    + cbn [search_from]. rewrite newlines_elsewhere by (cbn; congruence).
      specialize (IH false (S start)).
      destruct (search_from false newlines false (S start) s) as [m|].
      * destruct IH as (j & Hs & He & Hb & Hn). exists (S j).
        cbn [length take]. repeat split; [lia|lia|lia|].
        apply not_elem_of_cons. split; [congruence|done].
      * apply not_elem_of_cons. split; [congruence|done].
Qed.

(** After the last substitution no newline is left. *)
Lemma sub_loop_newlines fuel adv s :
  length s < fuel → nl ∉ sub_loop false newlines [sp] fuel adv s.
Proof.
  revert adv s. induction fuel as [|fuel IH]; intros adv s Hf; [lia|].
  cbn [sub_loop]. pose proof (search_newlines adv 0 s) as H.
  destruct (search_from false newlines adv 0 s) as [m|]; [|done].
  destruct H as (j & Hs & He & Hb & Hn). cbn in Hs. subst j.
  rewrite !not_elem_of_app. repeat split; [done| |].
  - intros [=]%list_elem_of_singleton.
  - apply IH. rewrite length_drop. simpl in Hb. lia.
Qed.

Lemma flatten_newlines_no_newline text : nl ∉ flatten_newlines text.
Proof. unfold flatten_newlines, sub. apply sub_loop_newlines. lia. Qed.

(** C8. [clean_text] maps the word broken by a hyphen at a line wrap,
    super-\nconductivity, to superconductivity; it maps a\n\n\n\nb to "a b":
    the run of newlines is first collapsed to one blank line (two
    newlines), which the last substitution flattens to a single space. *)
Theorem clean_text_examples :
  value_of (clean_text (py "super-" ++ [nl] ++ py "conductivity"))
    = py "superconductivity"
  ∧ value_of (clean_text (py "a" ++ [nl; nl; nl; nl] ++ py "b")) = py "a b"
  ∧ collapse_newlines (join_hyphens (py "a" ++ [nl; nl; nl; nl] ++ py "b"))
    = py "a" ++ [nl; nl] ++ py "b"
  ∧ flatten_newlines (py "a" ++ [nl; nl] ++ py "b") = py "a b".
Proof. repeat split; vm_compute; reflexivity. Qed.

(** C9. For every input, the output of [clean_text] contains no newline
    and neither begins nor ends with a whitespace character. *)
Theorem clean_text_flat_and_stripped (text : str) :
  (nl ∉ value_of (clean_text text))
  ∧ (∀ c, head (value_of (clean_text text)) = Some c → is_space c = false)
  ∧ (∀ c, last (value_of (clean_text text)) = Some c → is_space c = false).
Proof.
  destruct text as [|c text]; unfold clean_text, value_of, Log.ret; cbn [snd].
  - cbn. repeat split; [set_solver|done|done].
  - repeat split.
    + intros H%strip_elem. by apply flatten_newlines_no_newline in H.
    + apply strip_head.
    + apply strip_last.
Qed.

End CleaningProps.

(** ** [TextExtractor.delete_references] *)

Module ReferencesProps.
Import PyStr Re Cleaning ReFacts Examples.

(** A search that finds nothing before offset [start + n] finds the same
    match when it begins [n] characters further. *)
Lemma search_from_skip ic r n : ∀ start s m,
  search_from ic r false start s = Some m → start + n ≤ m_start m →
  search_from ic r false (start + n) (drop n s) = Some m.
Proof.
  induction n as [|n IH]; intros start s m H Hn.
  - by rewrite Nat.add_0_r, drop_0.
  - destruct s as [|c s]; cbn [search_from] in H.
    + destruct (match_at ic r false []) as [[cs s']|]; [|done].
      injection H as <-. simpl in Hn. lia.
    + destruct (match_at ic r false (c :: s)) as [[cs s']|].
      * injection H as <-. simpl in Hn. lia.
      * replace (start + S n) with (S start + n) by lia.
        cbn [drop]. apply IH; [done|lia].
Qed.

Lemma search_from_skip_none ic r n : ∀ start s,
  search_from ic r false start s = None →
  search_from ic r false (start + n) (drop n s) = None.
Proof.
  induction n as [|n IH]; intros start s H.
  - by rewrite Nat.add_0_r, drop_0.
  - destruct s as [|c s]; cbn [search_from] in H.
    + cbn [drop search_from].
      destruct (match_at ic r false []) as [[cs s']|]; done.
    + destruct (match_at ic r false (c :: s)) as [[cs s']|]; [done|].
      replace (start + S n) with (S start + n) by lia.
      cbn [drop]. by apply IH.
Qed.

(** The code does what the specification says on every text whose first
    end marker, if it has one, comes after the start marker. *)
Lemma delete_references_agrees (text : str) :
  (∀ ms me, search true pattern_start text = Some ms →
            search true pattern_end text = Some me → m_start ms < m_start me) →
  delete_references text = remove_references_spec text.
Proof.
  intros Hlt. unfold delete_references, remove_references_spec.
  destruct (search true pattern_start text) as [ms|] eqn:Es; [|done].
  unfold search in *.
  destruct (search_from true pattern_end false 0 text) as [me|] eqn:Ee.
  - specialize (Hlt ms me eq_refl eq_refl).
    apply (search_from_skip _ _ (S (m_start ms))) in Ee; [|simpl; lia].
    simpl in Ee. by rewrite Ee.
  - apply (search_from_skip_none _ _ (S (m_start ms))) in Ee.
    simpl in Ee. by rewrite Ee.
Qed.

(** C2. On a text whose appendix heading precedes its references heading
    the code does not follow the case analysis of the specification: the
    end marker it uses lies before the start, so instead of truncating the
    text at the start marker it returns the prefix followed by everything
    from the appendix heading on, references included. *)
Theorem delete_references_end_before_start :
  search true pattern_start appendix_first
    = Some {| m_start := 20; m_end := 32; m_caps := [] |}
  ∧ search true pattern_end appendix_first
    = Some {| m_start := 5; m_end := 17; m_caps := [] |}
  ∧ delete_references appendix_first
    = take 20 appendix_first ++ drop 5 appendix_first
  ∧ remove_references_spec appendix_first = take 20 appendix_first
  ∧ delete_references appendix_first ≠ remove_references_spec appendix_first
  ∧ length (delete_references appendix_first) = 56
  ∧ length appendix_first = 41.
Proof. repeat split; vm_compute; congruence. Qed.

End ReferencesProps.

(** ** [TextExtractor.get_text] *)

Module GetTextProps.
Import PyStr Py Log Extractor.

(** The two early returns give the empty list, whatever the loaders. *)
Lemma get_text_invalid (pypdf pdfminer : str → outcome (list str))
    (pdf_path : option str) (loader : str) (fs : files) :
  fs !! str_of_path pdf_path = None
  ∨ endswith (py ".pdf") (str_of_path pdf_path) = false
  ∨ available_loaders pypdf pdfminer loader = None →
  value_of (get_text pypdf pdfminer pdf_path loader fs) = Ok EmptyList.
Proof.
  intros H. unfold get_text, check_pdf_path.
  destruct (bool_decide (str_of_path pdf_path = [])); [done|].
  destruct (bool_decide (is_Some (fs !! str_of_path pdf_path))) eqn:E1;
    [|done].
  destruct (endswith (py ".pdf") (str_of_path pdf_path)) eqn:E2; [|done].
  cbn [andb negb].
  destruct H as [H|[H|H]]; [|done|by rewrite H].
  apply bool_decide_eq_true in E1. rewrite H in E1. by destruct E1.
Qed.

(** C5. For a path that does not exist [get_text] returns the empty list
    and not the empty string, and it logs nothing; for a loader that is
    not available it logs an error and returns the empty list as well.
    Neither call raises. *)
Theorem get_text_returns_empty_list (pypdf pdfminer : str → outcome (list str)) :
  get_text pypdf pdfminer (Some (py "missing.pdf")) (py "pdfminer") ∅
    = ([], Ok EmptyList)
  ∧ get_text pypdf pdfminer (Some (py "notes.txt")) (py "pdfminer")
      {[ py "notes.txt" := py "hello" ]}
    = ([], Ok EmptyList)
  ∧ get_text pypdf pdfminer (Some (py "paper.pdf")) (py "tika")
      {[ py "paper.pdf" := py "%PDF" ]}
    = ([LoaderNotAvailable (py "tika")], Ok EmptyList)
  ∧ EmptyList ≠ Text [].
Proof. repeat split; try (vm_compute; reflexivity). discriminate. Qed.

End GetTextProps.

(** ** [ArxivDownloader.download_pdf] *)

Module DownloaderProps.
Import PyStr Py Log Datamodel Downloader.

(** C10. [download_pdf] with [write=False] leaves the file system as it
    was; it returns the path of the record's PDF in the data folder when
    the URL answers with a successful response, and [None] after a
    transport failure. *)
Theorem download_pdf_dry_run (session_get : str → option response)
    (data_folder : str)
    (arxiv_paper : ArxivPaper) (fs : files) :
  value_of (download_pdf session_get data_folder arxiv_paper false fs)
  = (fs, if answers_ok session_get arxiv_paper
         then Some (joinpath data_folder (id arxiv_paper ++ py ".pdf"))
         else None).
Proof.
  unfold download_pdf, answers_ok.
  destruct (session_get (pdf_url arxiv_paper)) as [r|]; [|done].
  destruct (raises_for_status r); done.
Qed.

(** With [write=True] the same call does write the file. *)
Lemma download_pdf_writes (session_get : str → option response)
    (data_folder : str) (arxiv_paper : ArxivPaper) (fs : files) :
  answers_ok session_get arxiv_paper = true →
  is_Some (fst (value_of (download_pdf session_get data_folder arxiv_paper true fs))
           !! joinpath data_folder (id arxiv_paper ++ py ".pdf")).
Proof.
  unfold download_pdf, answers_ok.
  destruct (session_get (pdf_url arxiv_paper)) as [r|]; [|done].
  destruct (raises_for_status r); [done|]. intros _.
  destruct (broken r); cbn [value_of fst snd]; rewrite lookup_insert_eq; eauto.
Qed.

End DownloaderProps.

(** ** [ArxivFetcher.fetch] *)

Module FetcherProps.
Import PyStr Py Log Datamodel Fetcher Invariants Examples.

Lemma bind_Ok {A B} (m : outcome A) (f : A → outcome B) (b : B) :
  (m ≫= f) = Ok b → ∃ a, m = Ok a ∧ f a = Ok b.
Proof. destruct m as [a| |]; [|done|done]. intros H. by exists a. Qed.

Ltac inv_bind H :=
  let a := fresh "a" in
  let E := fresh "E" in
  apply bind_Ok in H as (a & E & H).

Section Fetch.
Variable feed : str → Z → Z → outcome value.
Variable parse_datetime : str → option datetime.
Variable self : fetcher.

Lemma item_get_Ok it key default v :
  item_get it key default = Ok v → ∃ raw, it = Raw raw.
Proof. destruct it as [raw|p]; [eauto|done]. Qed.

Lemma make_ArxivPaper_id arxiv_id url_id updated published title summary
    authors comment n_pages n_figures categories p :
  make_ArxivPaper parse_datetime arxiv_id url_id updated published title
    summary authors comment n_pages n_figures categories = Ok p →
  id p = arxiv_id.
Proof.
  unfold make_ArxivPaper. intros H.
  do 6 inv_bind H. by injection H as <-.
Qed.

(** The three ways the body of the [for] loop can end without raising:
    the entry is rejected and [new_papers] is bound to the page, the entry
    is a duplicate and nothing changes, or a record is appended. *)
Lemma visit_cases papers paper st fl st' :
  visit parse_datetime self papers paper st = Ok (fl, st') →
  (∃ raw, paper = Raw raw) ∧
  ((∃ e, fl = Continue ∧ st' = rebind_new_papers papers (emit_ev e st))
   ∨ (fl = Continue ∧ st' = st)
   ∨ (∃ p st1, (st1 = st ∨ st1 = emit_ev PaperWithoutAuthors st)
        ∧ (id p ∉ seen st)
        ∧ st' = emit_ev (PaperFetched (id p))
                  (add_seen (id p) (append_new_papers (Paper p) st1)))).
Proof.
  unfold visit. intros H.
  apply bind_Ok in H as (title & Et & H).
  split; [by eapply item_get_Ok|].
  apply bind_Ok in H as (has_error & _ & H).
  destruct has_error.
  { injection H as <- <-. left. eauto. }
  apply bind_Ok in H as (url_id & _ & H).
  apply bind_Ok in H as (invalid & _ & H).
  destruct invalid.
  { injection H as <- <-. left. eauto. }
  apply bind_Ok in H as (summary & _ & H).
  destruct (negb (truthy summary)).
  { injection H as <- <-. left. eauto. }
  apply bind_Ok in H as (arxiv_id & _ & H).
  destruct (bool_decide (arxiv_id ∈ seen st)) eqn:Eseen.
  { injection H as <- <-. right. left. done. }
  apply bool_decide_eq_false in Eseen.
  apply bind_Ok in H as (paper_authors & _ & H).
  apply bind_Ok in H as (authors & _ & H).
  apply bind_Ok in H as (arxiv_categories & _ & H).
  apply bind_Ok in H as (categories & _ & H).
  apply bind_Ok in H as (comment_elt & _ & H).
  apply bind_Ok in H as (comment & _ & H).
  apply bind_Ok in H as (pf & _ & H).
  apply bind_Ok in H as (updated & _ & H).
  apply bind_Ok in H as (published & _ & H).
  apply bind_Ok in H as (title' & _ & H).
  apply bind_Ok in H as (url_str & _ & H).
  apply bind_Ok in H as (p & Ep & H).
  apply make_ArxivPaper_id in Ep. subst arxiv_id.
  right. right. exists p.
  exists (if bool_decide (authors = []) then emit_ev PaperWithoutAuthors st else st).
  split; [destruct (bool_decide (authors = [])); auto|].
  split; [done|].
  destruct (_ >=? _)%Z; by injection H as <- <-.
Qed.

Lemma forallb_is_paper_lookup (l : list item) i it :
  forallb is_paper l = true → l !! i = Some it → is_paper it = true.
Proof.
  revert i. induction l as [|x l IH]; intros i; [done|].
  cbn [forallb]. intros [Hx Hl]%andb_prop. destruct i as [|i]; cbn.
  - by intros [= <-].
  - by apply IH.
Qed.

Lemma deref_lookup_valid st l i (it : item) :
  deref st l !! i = Some it → l < length (heap st).
Proof.
  unfold deref. destruct (heap st !! l) as [x|] eqn:E; [|done].
  intros _. by eapply lookup_lt_Some.
Qed.

Section Invariant.
Variable seen0 : gset str.

Lemma batch_ok_emit e st :
  rejection e = false → batch_ok seen0 st → batch_ok seen0 (emit_ev e st).
Proof.
  intros He (Hv & Hs & Hb & Hr). repeat split; try done; try (by apply Hb).
  cbn. rewrite existsb_app. cbn. rewrite He, !orb_false_r. apply Hr.
Qed.

Lemma batch_ok_advance b st :
  batch_ok seen0 st → batch_ok seen0 (advance b st).
Proof. done. Qed.

Lemma batch_ok_rebind papers i raw e st :
  batch_ok seen0 st → deref st papers !! i = Some (Raw raw) →
  batch_ok seen0 (rebind_new_papers papers (emit_ev e st)).
Proof.
  intros (Hv & Hs & Hb & Hr) Hi.
  assert (Hraw : forallb is_paper (deref st papers) = false).
  { destruct (forallb is_paper (deref st papers)) eqn:Hall; [|done].
    by pose proof (forallb_is_paper_lookup _ _ _ Hall Hi). }
  split; [|split; [|split]]; cbn.
  - by eapply deref_lookup_valid.
  - done.
  - intros Hall. unfold deref in Hall, Hraw. cbn in Hall. congruence.
  - intros _. apply Hraw.
Qed.

Lemma batch_ok_append p st :
  batch_ok seen0 st → id p ∉ seen st →
  batch_ok seen0 (add_seen (id p) (append_new_papers (Paper p) st)).
Proof.
  intros (Hv & Hs & Hb & Hr) Hp.
  assert (Hd : deref (add_seen (id p) (append_new_papers (Paper p) st))
                 (new_papers st)
               = deref st (new_papers st) ++ [Paper p]).
  { unfold deref. cbn. by rewrite list_lookup_insert_eq. }
  split; [|split; [|split]]; cbn [new_papers add_seen append_new_papers];
    rewrite ?Hd.
  - cbn. by rewrite length_insert.
  - cbn. intros x Hx. apply elem_of_union_r. by apply Hs.
  - rewrite forallb_app. intros [Hall _]%andb_prop.
    destruct (Hb Hall) as [Hnd Hin].
    unfold papers_of in *. rewrite omap_app, fmap_app. cbn. split.
    + apply NoDup_app. split; [done|]. split; [|apply NoDup_singleton].
      intros x Hx [= ->]%list_elem_of_singleton.
      apply list_elem_of_fmap in Hx as (q & Hq & Hx).
      apply Hin in Hx as [Hx _]. rewrite <- Hq in Hx. done.
    + intros q [Hq|Hq%list_elem_of_singleton]%elem_of_app.
      * apply Hin in Hq as [? ?]. split; [by apply elem_of_union_r|done].
      * subst q. split; [by apply elem_of_union_l, elem_of_singleton|].
        intros H0. apply Hp. by apply Hs.
  - cbn [log]. intros Hrej. rewrite forallb_app, (Hr Hrej). done.
Qed.

Lemma batch_ok_alloc l st :
  batch_ok seen0 st → batch_ok seen0 (fst (alloc l st)).
Proof.
  intros (Hv & Hs & Hb & Hr).
  assert (Hd : deref (fst (alloc l st)) (new_papers st)
               = deref st (new_papers st)).
  { unfold deref. cbn. by rewrite lookup_app_l. }
  split; [|split; [|split]].
  - cbn. rewrite length_app. lia.
  - done.
  - change (new_papers (fst (alloc l st))) with (new_papers st).
    rewrite Hd. exact Hb.
  - change (new_papers (fst (alloc l st))) with (new_papers st).
    rewrite Hd. exact Hr.
Qed.

Lemma visit_batch_ok papers i paper st fl st' :
  batch_ok seen0 st → deref st papers !! i = Some paper →
  visit parse_datetime self papers paper st = Ok (fl, st') →
  batch_ok seen0 st'.
Proof.
  intros Hinv Hi H. apply visit_cases in H as [[raw ->] H].
  destruct H as [(e & _ & ->)|[[_ ->]|(p & st1 & Hst1 & Hp & ->)]].
  - by eapply batch_ok_rebind.
  - done.
  - apply batch_ok_emit; [done|]. destruct Hst1 as [->| ->].
    + by apply batch_ok_append.
    + apply batch_ok_append; [by apply batch_ok_emit|done].
Qed.

Lemma for_papers_batch_ok fuel papers : ∀ i st st',
  batch_ok seen0 st →
  for_papers parse_datetime self fuel papers i st = Ok st' →
  batch_ok seen0 st'.
Proof.
  induction fuel as [|fuel IH]; intros i st st' Hinv H; [done|].
  cbn [for_papers] in H.
  destruct (deref st papers !! i) as [paper|] eqn:Ei.
  - apply bind_Ok in H as ([fl st1] & Ev & H).
    eapply visit_batch_ok in Ev; [|done|done].
    destruct fl; [by eapply IH|by injection H as <-].
  - by injection H as <-.
Qed.

Lemma round_batch_ok batch_size st st' :
  batch_ok seen0 st →
  round feed parse_datetime self batch_size st = Ok (Next st') →
  batch_ok seen0 st'.
Proof.
  intros Hinv. unfold round.
  destruct (_ <? _)%Z; [|done]. intros H.
  apply bind_Ok in H as (data_dict & _ & H).
  apply bind_Ok in H as (feed_elt & _ & H).
  apply bind_Ok in H as (papers & _ & H).
  destruct (negb (truthy papers)); [done|].
  destruct (alloc (Raw <$> as_list papers) st) as [st1 papers_ref] eqn:Ea.
  apply bind_Ok in H as (st2 & Ef & H). injection H as <-.
  apply batch_ok_advance. eapply for_papers_batch_ok; [|done].
  replace st1 with (fst (alloc (Raw <$> as_list papers) st)) by by rewrite Ea.
  by apply batch_ok_alloc.
Qed.

Lemma round_stop batch_size st e :
  round feed parse_datetime self batch_size st = Ok (Stop e) →
  e = Exit st ∨ e = Return [] (emit_ev NoPapersFound st).
Proof.
  unfold round. destruct (_ <? _)%Z; [|intros [= <-]; by left]. intros H.
  apply bind_Ok in H as (data_dict & _ & H).
  apply bind_Ok in H as (feed_elt & _ & H).
  apply bind_Ok in H as (papers & _ & H).
  destruct (negb (truthy papers)); [injection H as <-; by right|].
  destruct (alloc (Raw <$> as_list papers) st) as [st1 papers_ref].
  by apply bind_Ok in H as (st2 & Ef & H).
Qed.

Lemma while_loop_exit batch_size fuel : ∀ st st',
  batch_ok seen0 st →
  while_loop feed parse_datetime self batch_size fuel st = Ok (Exit st') →
  batch_ok seen0 st'.
Proof.
  induction fuel as [|fuel IH]; intros st st' Hinv H; [done|].
  cbn [while_loop] in H. apply bind_Ok in H as (r & Er & H).
  destruct r as [st1|e].
  - eapply IH; [|done]. by eapply round_batch_ok.
  - injection H as ->. apply round_stop in Er as [[= ->]|[=]]. done.
Qed.

Lemma while_loop_return batch_size fuel : ∀ st result st',
  while_loop feed parse_datetime self batch_size fuel st
    = Ok (Return result st') →
  result = [].
Proof.
  induction fuel as [|fuel IH]; intros st result st' H; [done|].
  cbn [while_loop] in H. apply bind_Ok in H as (r & Er & H).
  destruct r as [st1|e].
  - by eapply IH.
  - injection H as ->. by apply round_stop in Er as [[=]|[= -> _]].
Qed.
End Invariant.

Lemma batch_ok_initial (fs : files) :
  batch_ok (fetched_ids self fs) (initial self fs).
Proof.
  split; [|split; [|split]]; cbn; [lia|done| |done].
  intros _. split; [constructor|].
  intros p Hp. by apply elem_of_nil in Hp.
Qed.

(** Rounds that go on to the next round use up one unit of fuel each. *)
Lemma while_loop_after_rounds batch_size n : ∀ st st' fuel,
  after_rounds feed parse_datetime self batch_size n st = Some st' →
  while_loop feed parse_datetime self batch_size (n + fuel) st
  = while_loop feed parse_datetime self batch_size fuel st'.
Proof.
  induction n as [|n IH]; intros st st' fuel; cbn [after_rounds].
  - by intros [= ->].
  - cbn [Nat.add while_loop].
    destruct (round feed parse_datetime self batch_size st) as [[st1|e]| |];
      [|done..].
    intros H. cbn. by apply IH.
Qed.

Lemma round_zero_entries batch_size st :
  zero_entries feed self batch_size st = true →
  round feed parse_datetime self batch_size st
  = Ok (Stop (Return [] (emit_ev NoPapersFound st))).
Proof.
  unfold zero_entries, round. intros [Hlt H]%andb_prop. rewrite Hlt.
  destruct (feed _ _ _) as [data_dict| |]; [|done..]. cbn in *.
  destruct (get data_dict _ _) as [feed_elt| |]; [|done..]. cbn in *.
  destruct (get feed_elt _ _) as [papers| |]; [|done..]. cbn in *.
  by rewrite H.
Qed.

(** C6. If a page requested by [fetch] has zero entries, the call returns
    the empty list at once, whatever was accumulated in the rounds before,
    and leaves the file system, the ledger included, as it was. *)
Theorem fetch_zero_entries (batch_size : Z) (n fuel : nat) (fs : files)
    (st : locals) :
  after_rounds feed parse_datetime self batch_size n (initial self fs)
    = Some st →
  zero_entries feed self batch_size st = true →
  n < fuel →
  fetch feed parse_datetime self batch_size fuel fs
  = Ok ([], fs, log st ++ [NoPapersFound]).
Proof.
  intros Hn Hz Hf. unfold fetch.
  replace fuel with (n + S (fuel - S n)) by lia.
  rewrite (while_loop_after_rounds _ _ _ _ _ Hn).
  cbn [while_loop]. by rewrite (round_zero_entries _ _ Hz).
Qed.

(** C4. A call that returns has written the ledger at most once: when
    the loop was left with a list of records only, the identifiers of
    exactly these records were appended and the list is returned; in
    every other case the file system is unchanged and the empty list is
    returned. *)
Theorem fetch_ledger_fail_closed (batch_size : Z) (fuel : nat) (fs fs' : files)
    (result : list item) (l : list event) :
  fetch feed parse_datetime self batch_size fuel fs = Ok (result, fs', l) →
  match while_loop feed parse_datetime self batch_size fuel (initial self fs) with
  | Ok (Exit st) =>
      let batch := deref st (new_papers st) in
      if forallb is_paper batch
      then result = batch
           ∧ fs' = append_file (fetched_ids_file self)
                     (concat ((fun p => id p ++ [nl]) <$> papers_of batch)) fs
      else result = [] ∧ fs' = fs
  | _ => result = [] ∧ fs' = fs
  end.
Proof.
  unfold fetch. intros H.
  destruct (while_loop _ _ _ _ _ _) as [[st|r st]| |] eqn:E; [| |done..].
  - cbn in H. unfold save_and_return in H.
    destruct (forallb is_paper (deref st (new_papers st)));
      cbn in H; by injection H as <- <- _.
  - apply while_loop_return in E as ->. cbn in H. by injection H as <- <- _.
Qed.

(** C3. No record returned by [fetch] carries an identifier that was in
    the ledger before the call, and no two returned records carry the
    same identifier; what is returned are records only. *)
Theorem fetch_skips_ledgered_ids (batch_size : Z) (fuel : nat) (fs fs' : files)
    (result : list item) (l : list event) :
  fetch feed parse_datetime self batch_size fuel fs = Ok (result, fs', l) →
  forallb is_paper result = true
  ∧ NoDup (id <$> papers_of result)
  ∧ ∀ ident p, ident ∈ fetched_ids self fs → p ∈ papers_of result →
               id p ≠ ident.
Proof.
  intros H.
  assert (Hnil : forallb is_paper [] = true
                 ∧ NoDup (id <$> papers_of [])
                 ∧ ∀ ident p, ident ∈ fetched_ids self fs →
                              p ∈ papers_of [] → id p ≠ ident).
  { split; [done|]. split; [constructor|]. intros ? p _ Hp.
    by apply elem_of_nil in Hp. }
  unfold fetch in H. apply bind_Ok in H as ([st|r st] & E & H).
  - apply while_loop_exit with (seen0 := fetched_ids self fs) in E;
      [|apply batch_ok_initial].
    destruct E as (_ & _ & Hb & _). unfold save_and_return in H.
    destruct (forallb is_paper (deref st (new_papers st))) eqn:Hall;
      cbn in H; injection H as <- <- _; [|done].
    destruct (Hb eq_refl) as [Hnd Hin]. split; [done|]. split; [done|].
    intros ident p Hi Hp Heq. apply Hin in Hp as [_ Hp].
    by rewrite Heq in Hp.
  - apply while_loop_return in E as ->. by injection H as <- <- _.
Qed.

(** Whenever a call that returns has rejected an entry, it returns the
    empty list and writes nothing: the records accepted in that call are
    lost with the rejected entry. *)
Lemma fetch_after_rejection (batch_size : Z) (fuel : nat) (fs fs' : files)
    (result : list item) (l : list event) :
  fetch feed parse_datetime self batch_size fuel fs = Ok (result, fs', l) →
  existsb rejection l = true →
  result = [] ∧ fs' = fs.
Proof.
  intros H Hrej. unfold fetch in H. apply bind_Ok in H as ([st|r st] & E & H).
  - apply while_loop_exit with (seen0 := fetched_ids self fs) in E;
      [|apply batch_ok_initial].
    destruct E as (_ & _ & _ & Hr). unfold save_and_return in H.
    destruct (forallb is_paper (deref st (new_papers st))) eqn:Hall;
      cbn in H; injection H as <- <- <-; [|done].
    pose proof (Hr Hrej). congruence.
  - apply while_loop_return in E as ->. by injection H as <- <- _.
Qed.
End Fetch.

(** C1. A page with an entry without summary between two well-formed
    entries: the call returns the empty list and writes nothing, so the
    record accepted before the rejected entry is lost with the whole batch
    (the rejection binds [new_papers] to the raw page). Without the
    rejected entry the same call returns both records and ledgers them. *)
Theorem fetch_rejection_drops_batch :
  fetch (one_page [entry "2501.00001v1" true; entry "2501.00002v1" false;
                   entry "2501.00003v1" true])
        no_dates (fetcher_of 2) 10 3 ∅
  = Ok ([], ∅,
        accepted "2501.00001v1"
        ++ [PaperWithoutSummary (VStr (py "http://arxiv.org/abs/2501.00002v1"))]
        ++ accepted "2501.00003v1")
  ∧ fetch (one_page [entry "2501.00001v1" true; entry "2501.00003v1" true])
          no_dates (fetcher_of 2) 10 3 ∅
    = Ok ([Paper (paper_of "2501.00001v1"); Paper (paper_of "2501.00003v1")],
          {[ ledger := py "2501.00001v1" ++ [nl] ++ py "2501.00003v1" ++ [nl] ]},
          accepted "2501.00001v1" ++ accepted "2501.00003v1").
Proof. split; vm_compute; reflexivity. Qed.

(** When the limit is not reached on the page of the rejected entry, a
    record accepted after it is appended to the very list the loop runs
    over, and the loop ends up reading that record as if it were a feed
    entry. *)
Lemma fetch_rejection_raises :
  fetch (one_page [entry "2501.00001v1" true; entry "2501.00002v1" false;
                   entry "2501.00003v1" true])
        no_dates (fetcher_of 10) 10 3 ∅
  = Raise AttributeError.
Proof. vm_compute; reflexivity. Qed.

Lemma fetch_zero_entries_witness :
  after_rounds (one_page [entry "2501.00001v1" true]) no_dates (fetcher_of 2)
    1 1 (initial (fetcher_of 2) ∅)
  = Some (after_first_round "2501.00001v1")
  ∧ zero_entries (one_page [entry "2501.00001v1" true]) (fetcher_of 2) 1
      (after_first_round "2501.00001v1") = true
  ∧ 1 < 2
  ∧ fetch (one_page [entry "2501.00001v1" true]) no_dates (fetcher_of 2) 1 2 ∅
    = Ok ([], ∅, log (after_first_round "2501.00001v1") ++ [NoPapersFound]).
Proof.
  split; [vm_compute; reflexivity|]. split; [vm_compute; reflexivity|].
  split; [lia|].
  apply (fetch_zero_entries (one_page [entry "2501.00001v1" true]) no_dates
           (fetcher_of 2) 1 1 2 ∅ (after_first_round "2501.00001v1"));
    [vm_compute; reflexivity|vm_compute; reflexivity|lia].
Defined.

Lemma fetch_ledger_fail_closed_witness :
  fetch (one_page [entry "2501.00001v1" true; entry "2501.00003v1" true])
        no_dates (fetcher_of 2) 10 3 ∅
  = Ok ([Paper (paper_of "2501.00001v1"); Paper (paper_of "2501.00003v1")],
        {[ ledger := py "2501.00001v1" ++ [nl] ++ py "2501.00003v1" ++ [nl] ]},
        accepted "2501.00001v1" ++ accepted "2501.00003v1")
  ∧ match while_loop
            (one_page [entry "2501.00001v1" true; entry "2501.00003v1" true])
            no_dates (fetcher_of 2) 10 3 (initial (fetcher_of 2) ∅) with
    | Ok (Exit st) =>
        let batch := deref st (new_papers st) in
        if forallb is_paper batch
        then [Paper (paper_of "2501.00001v1"); Paper (paper_of "2501.00003v1")]
             = batch
             ∧ ({[ ledger := py "2501.00001v1" ++ [nl] ++ py "2501.00003v1" ++ [nl] ]}
                  : files)
               = append_file (fetched_ids_file (fetcher_of 2))
                   (concat ((fun p => id p ++ [nl]) <$> papers_of batch)) ∅
        else [Paper (paper_of "2501.00001v1"); Paper (paper_of "2501.00003v1")]
             = []
             ∧ ({[ ledger := py "2501.00001v1" ++ [nl] ++ py "2501.00003v1" ++ [nl] ]}
                  : files) = ∅
    | _ => [Paper (paper_of "2501.00001v1"); Paper (paper_of "2501.00003v1")]
           = []
           ∧ ({[ ledger := py "2501.00001v1" ++ [nl] ++ py "2501.00003v1" ++ [nl] ]}
                : files) = ∅
    end.
Proof.
  split; [vm_compute; reflexivity|].
  apply (fetch_ledger_fail_closed
           (one_page [entry "2501.00001v1" true; entry "2501.00003v1" true])
           no_dates (fetcher_of 2) 10 3 ∅ _ _
           (accepted "2501.00001v1" ++ accepted "2501.00003v1")).
  vm_compute; reflexivity.
Defined.

Lemma fetch_skips_ledgered_ids_witness :
  fetch (one_page [entry "2501.00001v1" true; entry "2501.00003v1" true])
        no_dates (fetcher_of 1) 10 2
        {[ ledger := py "2501.00001v1" ++ [nl] ]}
  = Ok ([Paper (paper_of "2501.00003v1")],
        {[ ledger := py "2501.00001v1" ++ [nl] ++ py "2501.00003v1" ++ [nl] ]},
        accepted "2501.00003v1")
  ∧ forallb is_paper [Paper (paper_of "2501.00003v1")] = true
  ∧ NoDup (id <$> papers_of [Paper (paper_of "2501.00003v1")])
  ∧ ∀ ident p,
      ident ∈ fetched_ids (fetcher_of 1) {[ ledger := py "2501.00001v1" ++ [nl] ]} →
      p ∈ papers_of [Paper (paper_of "2501.00003v1")] → id p ≠ ident.
Proof.
  split; [vm_compute; reflexivity|].
  apply (fetch_skips_ledgered_ids
           (one_page [entry "2501.00001v1" true; entry "2501.00003v1" true])
           no_dates (fetcher_of 1) 10 2
           {[ ledger := py "2501.00001v1" ++ [nl] ]}
           {[ ledger := py "2501.00001v1" ++ [nl] ++ py "2501.00003v1" ++ [nl] ]}
           _ (accepted "2501.00003v1")).
  vm_compute; reflexivity.
Defined.

End FetcherProps.

(** ** The [for] loop of [fetch] always ends *)

Module FetcherFuel.
Import PyStr Py Log Datamodel Fetcher Invariants FetcherProps.

Lemma bind_fuel {A B} (m : outcome A) (f : A → outcome B) :
  m ≠ OutOfFuel → (∀ a, f a ≠ OutOfFuel) → (m ≫= f) ≠ OutOfFuel.
Proof. destruct m as [a| |]; cbn; [auto|done|done]. Qed.

Lemma fmap_fuel {A B} (m : outcome A) (f : A → B) :
  m ≠ OutOfFuel → f <$> m ≠ OutOfFuel.
Proof. by destruct m. Qed.

Lemma for_list_fuel {A B} (f : A → outcome B) (l : list A) :
  (∀ x, f x ≠ OutOfFuel) → for_list f l ≠ OutOfFuel.
Proof.
  intros Hf. induction l as [|x l IH]; cbn [for_list]; [done|].
  apply bind_fuel; [done|]. intros y. apply bind_fuel; [done|]. done.
Qed.

Lemma get_fuel v key default : get v key default ≠ OutOfFuel.
Proof. by destruct v. Qed.

Lemma item_get_fuel it key default : item_get it key default ≠ OutOfFuel.
Proof. destruct it; [apply get_fuel|done]. Qed.

Lemma contains_fuel needle v : contains needle v ≠ OutOfFuel.
Proof. by destruct v. Qed.

Lemma validate_str_fuel v : validate_str v ≠ OutOfFuel.
Proof. by destruct v. Qed.

Lemma validate_opt_str_fuel v : validate_opt_str v ≠ OutOfFuel.
Proof. by destruct v. Qed.

Lemma validate_opt_datetime_fuel parse v :
  validate_opt_datetime parse v ≠ OutOfFuel.
Proof. destruct v as [|s| |]; cbn; try done. by destruct (parse s). Qed.

Ltac fuel :=
  repeat match goal with
  | |- Ok _ ≠ OutOfFuel => discriminate
  | |- Raise _ ≠ OutOfFuel => discriminate
  | |- (_ ≫= _) ≠ OutOfFuel => apply bind_fuel; [|intros ?]
  | |- (_ <$> _) ≠ OutOfFuel => apply fmap_fuel
  | |- for_list _ _ ≠ OutOfFuel => apply for_list_fuel; intros ?
  | |- get _ _ _ ≠ OutOfFuel => apply get_fuel
  | |- item_get _ _ _ ≠ OutOfFuel => apply item_get_fuel
  | |- contains _ _ ≠ OutOfFuel => apply contains_fuel
  | |- validate_str _ ≠ OutOfFuel => apply validate_str_fuel
  | |- validate_opt_str _ ≠ OutOfFuel => apply validate_opt_str_fuel
  | |- validate_opt_datetime _ _ ≠ OutOfFuel => apply validate_opt_datetime_fuel
  | |- (if ?b then _ else _) ≠ OutOfFuel => destruct b
  | |- (match ?x with _ => _ end) ≠ OutOfFuel => destruct x
  end.

Section Fetch.
Variable feed : str → Z → Z → outcome value.
Variable parse_datetime : str → option datetime.
Variable self : fetcher.

Lemma visit_fuel papers paper st :
  visit parse_datetime self papers paper st ≠ OutOfFuel.
Proof.
  unfold visit, arxiv_id_of, author_of, make_Author, categories_of,
    get_pages_and_figures, int, make_ArxivPaper.
  cbv zeta. fuel.
Qed.

(** The only step of the body that changes a list appends a record to
    [new_papers]. *)
Lemma visit_heap papers paper st fl st' (raws : list value)
    (ps : list ArxivPaper) :
  visit parse_datetime self papers paper st = Ok (fl, st') →
  deref st papers = (Raw <$> raws) ++ (Paper <$> ps) →
  ∃ ps', deref st' papers = (Raw <$> raws) ++ (Paper <$> ps').
Proof.
  intros H Hl. apply visit_cases in H as [_ H].
  destruct H as [(e & _ & ->)|[[_ ->]|(p & st1 & Hst1 & _ & ->)]];
    [by exists ps..|].
  assert (Hh : heap st1 = heap st ∧ new_papers st1 = new_papers st)
    by (by destruct Hst1 as [->| ->]).
  destruct Hh as [Hh Hn]. unfold deref in *. cbn. rewrite Hh, Hn.
  destruct (decide (new_papers st = papers)) as [->|Hne].
  - destruct (heap st !! papers) as [l|] eqn:E.
    + rewrite list_lookup_insert_eq by (by eapply lookup_lt_Some).
      cbn in *. exists (ps ++ [p]). unfold deref. rewrite Hh, E. cbn.
      by rewrite Hl, fmap_app, <- app_assoc.
    + rewrite list_insert_ge by (by apply lookup_ge_None).
      rewrite E. by exists ps.
  - rewrite list_lookup_insert_ne by done. by exists ps.
Qed.

Lemma for_papers_fuel papers : ∀ fuel i st (raws : list value)
    (ps : list ArxivPaper),
  deref st papers = (Raw <$> raws) ++ (Paper <$> ps) →
  i ≤ length raws → length raws + 2 ≤ fuel + i →
  for_papers parse_datetime self fuel papers i st ≠ OutOfFuel.
Proof.
  induction fuel as [|fuel IH]; intros i st raws ps Hl Hi Hf; [lia|].
  cbn [for_papers]. destruct (deref st papers !! i) as [paper|] eqn:Ei; [|done].
  pose proof (visit_fuel papers paper st) as Hv.
  destruct (visit parse_datetime self papers paper st) as [[fl st']| |] eqn:Ev;
    [|done..].
  cbn. destruct fl; [|done].
  destruct (visit_heap _ _ _ _ _ _ _ Ev Hl) as [ps' Hl'].
  apply visit_cases in Ev as [[raw ->] _].
  assert (i < length raws).
  { destruct (decide (i < length raws)) as [|Hge]; [done|]. exfalso.
    rewrite Hl, lookup_app_r in Ei by (rewrite length_fmap; lia).
    apply list_lookup_fmap_Some in Ei as (? & ? & ?). done. }
  eapply IH; [done|lia|lia].
Qed.

(** With the fuel [round] grants it, the [for] loop ends: a round runs
    out of fuel only if the request for the page does. *)
Lemma round_fuel (batch_size : Z) (st : locals) :
  (∀ category start n, feed category start n ≠ OutOfFuel) →
  round feed parse_datetime self batch_size st ≠ OutOfFuel.
Proof.
  intros Hfeed. unfold round. destruct (_ <? _)%Z; [|done].
  apply bind_fuel; [apply Hfeed|intros data_dict].
  apply bind_fuel; [apply get_fuel|intros feed_elt].
  apply bind_fuel; [apply get_fuel|intros papers].
  destruct (negb (truthy papers)); [done|].
  destruct (alloc (Raw <$> as_list papers) st) as [st1 papers_ref] eqn:Ea.
  apply bind_fuel; [|done].
  apply (for_papers_fuel _ _ _ _ (as_list papers) []); [|lia|lia].
  injection Ea as <- <-. unfold deref. cbn.
  rewrite lookup_app_r, Nat.sub_diag by done. cbn. by rewrite app_nil_r.
Qed.
End Fetch.

End FetcherFuel.

(** ** [download_pattern_papers] *)

Module PipelineProps.
Import PyStr Py Log Datamodel Cleaning Fetcher Downloader Extractor Examples.
Import FetcherProps GetTextProps.

Section Pipeline.
Variable session_get : str → option response.
Variable pypdf pdfminer : str → outcome (list str).
Variable pattern : str → bool.
Variable self : fetcher.
Variable loader : str.

Lemma get_text_no_path (fs0 : files) :
  value_of (get_text pypdf pdfminer None loader fs0) = Ok EmptyList.
Proof. apply get_text_invalid. right. left. reflexivity. Qed.

(** A download returns no path or the path of the file it has written. *)
Lemma download_pdf_path (p : ArxivPaper) (fs0 fs1 : files)
    (l : list event) (pdf_path : option str) :
  download_pdf session_get (data_folder self) p true fs0 = (l, (fs1, pdf_path)) →
  pdf_path = None
  ∨ (pdf_path = Some (pdf_file self p) ∧ is_Some (fs1 !! pdf_file self p)).
Proof.
  unfold download_pdf, pdf_file.
  destruct (session_get (pdf_url p)) as [r|]; [|intros [= _ _ <-]; by left].
  destruct (raises_for_status r); [intros [= _ _ <-]; by left|].
  destruct (broken r); intros [= _ <- <-]; [by left|right].
  split; [done|]. rewrite lookup_insert_eq. eauto.
Qed.

(** A text that is not empty was read from the file of the record. *)
Lemma extraction_path (p : ArxivPaper) (fs0 fs1 : files)
    (pdf_path : option str) (c : ascii) (t : str) :
  extraction session_get pypdf pdfminer self loader p fs0
    = (fs1, pdf_path, Ok (Text (c :: t))) →
  pdf_path = Some (pdf_file self p) ∧ is_Some (fs1 !! pdf_file self p).
Proof.
  unfold extraction.
  destruct (download_pdf _ _ p true fs0) as [l1 [fs1' pp]] eqn:Ed.
  intros [= <- <- Hg].
  apply download_pdf_path in Ed as [->|Hp]; [|done].
  by rewrite get_text_no_path in Hg.
Qed.

Lemma attach_value (t : str) (p : ArxivPaper) :
  value_of (attach t p)
  = set_text (value_of (clean_text (delete_references t))) p.
Proof. unfold attach. by destruct (clean_text (delete_references t)). Qed.

(** The body of the loop, once the text of the record is known. *)
Lemma process_paper_result (p : ArxivPaper) (a : acc) (fs1 : files)
    (pdf_path : option str) (text : extracted) :
  extraction session_get pypdf pdfminer self loader p (fs a)
    = (fs1, pdf_path, Ok text) →
  ∃ l l',
    process_paper session_get pypdf pdfminer pattern self loader (Paper p) a
    = match text with
      | Text (c :: t) =>
          if pattern (c :: t)
          then Ok {| fs := fs1; paths := paths a ++ [pdf_path];
                     all_papers := all_papers a ++ [value_of (attach (c :: t) p)];
                     plog := plog a ++ l ++ l' |}
          else fs2 ← unlink pdf_path fs1;
               Ok {| fs := fs2; paths := paths a; all_papers := all_papers a;
                     plog := plog a ++ l |}
      | _ => Ok {| fs := fs1; paths := paths a; all_papers := all_papers a;
                   plog := plog a ++ l ++ [NoTextExtracted] |}
      end.
Proof.
  unfold extraction, process_paper.
  destruct (download_pdf _ _ p true (fs a)) as [l1 [fs1' pp]].
  destruct (get_text pypdf pdfminer pp loader fs1') as [l2 r].
  cbn [value_of snd]. intros [= <- <- ->]. cbn [mbind outcome_bind].
  destruct text as [|[|c t]]; cbn [nonempty negb].
  - exists (l1 ++ l2), []. by rewrite <- app_assoc.
  - exists (l1 ++ l2), []. by rewrite <- app_assoc.
  - change (bool_decide (c :: t = [])) with false. cbn [negb].
    destruct (pattern (c :: t)); cbn [negb].
    + destruct (attach (c :: t) p) as [l3 p']. cbn [value_of snd].
      exists (l1 ++ l2), l3. by rewrite <- !app_assoc.
    + by exists (l1 ++ l2), [].
Qed.


(** The path and the text of an extraction do not depend on what the
    content folder held before. *)
Lemma extraction_independent (p : ArxivPaper) (fs0 : files) :
  snd (fst (extraction session_get pypdf pdfminer self loader p fs0))
  = snd (fst (extraction session_get pypdf pdfminer self loader p ∅))
  ∧ snd (extraction session_get pypdf pdfminer self loader p fs0)
    = snd (extraction session_get pypdf pdfminer self loader p ∅).
Proof.
  unfold extraction, download_pdf.
  destruct (session_get (pdf_url p)) as [r|];
    [|cbn [fst snd]; by rewrite !get_text_no_path].
  destruct (raises_for_status r); [cbn [fst snd]; by rewrite !get_text_no_path|].
  destruct (broken r); [cbn [fst snd]; by rewrite !get_text_no_path|].
  cbn [fst snd]. split; [done|].
  unfold get_text, check_pdf_path. cbn [str_of_path].
  destruct (bool_decide (joinpath (data_folder self) (id p ++ py ".pdf") = []));
    [done|].
  rewrite !lookup_insert_eq.
  destruct (bool_decide (is_Some (Some (written r))) && _); [|done].
  cbn [negb].
  by destruct (available_loaders pypdf pdfminer loader).
Qed.

Lemma process_paper_Ok (p : ArxivPaper) (a a' : acc) :
  process_paper session_get pypdf pdfminer pattern self loader (Paper p) a
    = Ok a' →
  ∃ text, snd (extraction session_get pypdf pdfminer self loader p (fs a))
          = Ok text.
Proof.
  unfold extraction, process_paper.
  destruct (download_pdf _ _ p true (fs a)) as [l1 [fs1' pp]].
  destruct (get_text pypdf pdfminer pp loader fs1') as [l2 [text| |]];
    cbn; [eauto|done..].
Qed.

(** What one round of the loop adds to the two lists. *)
Lemma process_paper_lists (p : ArxivPaper) (a a' : acc) :
  process_paper session_get pypdf pdfminer pattern self loader (Paper p) a
    = Ok a' →
  paths a' = paths a
    ++ (fst <$> option_list (kept session_get pypdf pdfminer pattern self loader p))
  ∧ all_papers a' = all_papers a
    ++ (snd <$> option_list (kept session_get pypdf pdfminer pattern self loader p)).
Proof.
  intros H. destruct (process_paper_Ok _ _ _ H) as [text Ht].
  destruct (extraction_independent p (fs a)) as [Hpath Htext].
  unfold kept. revert Hpath Htext.
  destruct (extraction session_get pypdf pdfminer self loader p ∅)
    as [[fs2 pp2] r2].
  destruct (extraction session_get pypdf pdfminer self loader p (fs a))
    as [[fs1 pp] r] eqn:Ex.
  cbn [fst snd] in *. subst r. intros -> <-.
  destruct (process_paper_result p a fs1 _ text Ex) as (l & l' & E).
  rewrite E in H. clear E.
  destruct text as [|[|c t]].
  - injection H as <-. cbn. by rewrite !app_nil_r.
  - injection H as <-. cbn. by rewrite !app_nil_r.
  - change (bool_decide (c :: t = [])) with false. cbn [negb andb].
    destruct (pattern (c :: t)).
    + by injection H as <-.
    + apply bind_Ok in H as (fs2' & _ & [= <-]). cbn. by rewrite !app_nil_r.
Qed.

(** The two lists at the end of the loop: what was there, followed by
    the paths and the records of the papers that are kept, in order. *)
Lemma process_papers_lists (ps : list ArxivPaper) : ∀ a a',
  process_papers session_get pypdf pdfminer pattern self loader
    (Paper <$> ps) a = Ok a' →
  paths a' = paths a
    ++ (fst <$> omap (kept session_get pypdf pdfminer pattern self loader) ps)
  ∧ all_papers a' = all_papers a
    ++ (snd <$> omap (kept session_get pypdf pdfminer pattern self loader) ps).
Proof.
  induction ps as [|p ps IH]; intros a a'.
  - intros [= <-]. by rewrite !app_nil_r.
  - cbn [fmap list_fmap process_papers]. intros H.
    apply bind_Ok in H as (a1 & E1 & H). apply IH in H as [Hp Ha].
    apply process_paper_lists in E1 as [Hp1 Ha1].
    rewrite Hp, Ha, Hp1, Ha1, <- !app_assoc. cbn [omap list_omap].
    by destruct (kept session_get pypdf pdfminer pattern self loader p).
Qed.
End Pipeline.


(** A record whose text matches is kept, with its cleaned text, and its
    file stays in the content folder. *)
Example process_paper_keeps_match :
  process_paper (serve (py "On DMFT -" ++ [nl] ++ py "and more")) one_page_loader
    one_page_loader has_dmft (fetcher_of 1) (py "pypdf")
    (Paper (paper_of "2501.00001v1")) start_acc
  = Ok {| fs := {[ py "data/2501.00001v1.pdf"
                     := py "On DMFT -" ++ [nl] ++ py "and more" ]};
          paths := [Some (py "data/2501.00001v1.pdf")];
          all_papers := [set_text (py "On DMFT and more")
                           (paper_of "2501.00001v1")];
          plog := [PdfDownloaded (py "data/2501.00001v1.pdf")] |}.
Proof. vm_compute; reflexivity. Qed.

End PipelineProps.

(** ** The ledger file and the property [fetched_ids] *)

Module LedgerProps.
Import PyStr Py Fetcher Ledger StripFacts.

Lemma lstrip_fixed (s : str) :
  (∀ c, head s = Some c → is_space c = false) → lstrip s = s.
Proof.
  destruct s as [|c s]; [done|]. intros H. cbn [lstrip].
  by rewrite (H c eq_refl).
Qed.

Lemma rstrip_fixed (s : str) :
  (∀ c, last s = Some c → is_space c = false) → rstrip s = s.
Proof.
  intros H. unfold rstrip. rewrite lstrip_fixed, rev_involutive; [done|].
  intros c Hc. apply H. rewrite <- (rev_involutive s).
  destruct (rev s) as [|x r]; [done|]. cbn in *. by rewrite last_snoc.
Qed.

(** [strip] does nothing to what it has returned. *)
Lemma strip_strip (s : str) : strip (strip s) = strip s.
Proof.
  unfold strip at 1. rewrite lstrip_fixed by apply strip_head.
  apply rstrip_fixed, strip_last.
Qed.

Lemma lines_from_eol (cur a b : str) (c : ascii) :
  is_eol c = true →
  lines_from cur (a ++ c :: b) = lines_from cur a ++ lines_from [] b.
Proof.
  intros Hc. revert cur. induction a as [|x a IH]; intros cur; cbn [app lines_from].
  - by rewrite Hc.
  - destruct (is_eol x); [by rewrite IH|apply IH].
Qed.

Lemma lines_from_one_line (cur i : str) :
  forallb (fun c => negb (is_eol c)) i = true →
  lines_from cur i = [rev cur ++ i].
Proof.
  revert cur. induction i as [|x i IH]; intros cur; cbn [forallb lines_from].
  - by rewrite app_nil_r.
  - intros [Hx Hi]%andb_prop. apply negb_true_iff in Hx. rewrite Hx.
    rewrite IH by done. cbn. by rewrite <- app_assoc.
Qed.

(** The lines of what [fetch] writes are the identifiers written. *)
Lemma lines_ledger_lines (ids : list str) :
  Forall (fun i => forallb (fun c => negb (is_eol c)) i = true) ids →
  lines (ledger_lines ids) = ids ++ [[]].
Proof.
  unfold lines, ledger_lines. induction 1 as [|i ids Hi _ IH]; [done|].
  cbn [fmap list_fmap concat]. rewrite <- app_assoc. cbn [app].
  rewrite lines_from_eol by done. rewrite IH, lines_from_one_line by done.
  done.
Qed.

Lemma lines_from_no_eol (s : str) : ∀ cur l c,
  (∀ x, x ∈ cur → is_eol x = false) →
  l ∈ lines_from cur s → c ∈ l → is_eol c = false.
Proof.
  induction s as [|x s IH]; intros cur l c Hcur; cbn [lines_from].
  - intros ->%list_elem_of_singleton Hc. apply Hcur.
    by apply list_elem_of_In, in_rev, list_elem_of_In in Hc.
  - destruct (is_eol x) eqn:Ex.
    + intros [->|Hl]%elem_of_cons Hc.
      * apply Hcur. by apply list_elem_of_In, in_rev, list_elem_of_In in Hc.
      * eapply (IH []); [|done|done]. intros y Hy. by apply elem_of_nil in Hy.
    + apply IH. intros y [->|Hy]%elem_of_cons; [done|by apply Hcur].
Qed.

(** The set read from a text, as [fetched_ids] reads it. *)
Lemma fetched_ids_content (self : fetcher) (fs : files) (content : str) :
  fs !! fetched_ids_file self = Some content →
  fetched_ids self fs
  = list_to_set (List.filter (fun l => negb (bool_decide (l = [])))
                             (strip <$> lines content)).
Proof. unfold fetched_ids. by intros ->. Qed.

(** X1. The identifiers the property [fetched_ids] reads from the ledger
    are not empty, have no whitespace at either end and no end of line in
    them. *)
Theorem fetched_ids_trimmed (self : fetcher) (fs : files) (ident : str) :
  ident ∈ fetched_ids self fs →
  ident ≠ [] ∧ strip ident = ident ∧ ∀ c, c ∈ ident → is_eol c = false.
Proof.
  unfold fetched_ids. destruct (fs !! fetched_ids_file self) as [content|];
    [|intros H; by apply not_elem_of_empty in H].
  intros H%elem_of_list_to_set%list_elem_of_In%List.filter_In.
  destruct H as [H Hne]. apply list_elem_of_In, list_elem_of_fmap in H
    as (l & -> & Hl).
  split; [|split].
  - apply negb_true_iff, bool_decide_eq_false in Hne. done.
  - apply strip_strip.
  - intros c Hc%strip_elem. eapply (lines_from_no_eol content []); [|done|done].
    intros y Hy. by apply elem_of_nil in Hy.
Qed.

Lemma ledger_safe_spec (ident : str) :
  ledger_safe ident = true →
  ident ≠ [] ∧ strip ident = ident
  ∧ forallb (fun c => negb (is_eol c)) ident = true.
Proof.
  unfold ledger_safe. intros [[H1 H2]%andb_prop H3]%andb_prop.
  apply negb_true_iff, bool_decide_eq_false in H1.
  apply bool_decide_eq_true in H2. done.
Qed.

Lemma read_ledger_lines (ids : list str) :
  Forall (fun i => ledger_safe i = true) ids →
  List.filter (fun l => negb (bool_decide (l = [])))
              (strip <$> lines (ledger_lines ids))
  = ids.
Proof.
  intros Hsafe. rewrite lines_ledger_lines.
  2:{ eapply Forall_impl; [done|]. intros i Hi.
      by apply ledger_safe_spec in Hi as (_ & _ & ?). }
  rewrite fmap_app, List.filter_app. cbn. rewrite app_nil_r.
  induction Hsafe as [|i ids Hi _ IH]; [done|].
  apply ledger_safe_spec in Hi as (Hne & Hs & _).
  cbn [fmap list_fmap List.filter]. rewrite Hs, IH.
  by rewrite bool_decide_eq_false_2.
Qed.

(** What is read from the ledger after identifiers have been appended. *)
Lemma ledger_after_append (self : fetcher) (fs : files) (ids : list str) :
  ends_line self fs = true →
  Forall (fun i => ledger_safe i = true) ids →
  fetched_ids self (append_file (fetched_ids_file self) (ledger_lines ids) fs)
  = fetched_ids self fs ∪ list_to_set ids.
Proof.
  intros Hend Hsafe.
  rewrite (fetched_ids_content self _
             (from_option (fun x => x) [] (fs !! fetched_ids_file self)
              ++ ledger_lines ids))
    by (unfold append_file; apply lookup_insert_eq).
  unfold ends_line, fetched_ids in *.
  destruct (fs !! fetched_ids_file self) as [content|]; cbn [from_option].
  - destruct (last content) as [c|] eqn:El.
    + apply last_Some in El as [old ->]. rewrite <- app_assoc. cbn [app].
      unfold lines. rewrite !(lines_from_eol _ _ _ _ Hend).
      rewrite !fmap_app, !List.filter_app, !list_to_set_app_L.
      fold (lines (ledger_lines ids)). rewrite read_ledger_lines by done.
      cbn. by rewrite union_empty_r_L.
    + apply last_None in El as ->. cbn [app].
      rewrite read_ledger_lines by done. cbn. by rewrite union_empty_l_L.
  - cbn [app]. rewrite read_ledger_lines by done. by rewrite union_empty_l_L.
Qed.

(** X2. What the end of [fetch] appends to the ledger is read back by the
    property [fetched_ids]: when the file is missing, empty or ends with an
    end of line, and the identifiers are ledger safe, an identifier is
    read after the write exactly when it was read before it or is one of
    those written. *)
Theorem fetched_ids_append (self : fetcher) (fs : files) (ids : list str)
    (ident : str) :
  ends_line self fs = true →
  Forall (fun i => ledger_safe i = true) ids →
  ident ∈ fetched_ids self
            (append_file (fetched_ids_file self) (ledger_lines ids) fs)
  ↔ ident ∈ fetched_ids self fs ∨ ident ∈ ids.
Proof.
  intros Hend Hsafe. rewrite ledger_after_append by done.
  rewrite elem_of_union. by rewrite elem_of_list_to_set.
Qed.

(** *** Examples *)

Import Examples Runs.

Lemma fetched_ids_trimmed_witness :
  py "2501.00001v1"
    ∈ fetched_ids (fetcher_of 1)
        {[ ledger := py "  2501.00001v1 " ++ [nl; nl] ]}
  ∧ (py "2501.00001v1" ≠ []
     ∧ strip (py "2501.00001v1") = py "2501.00001v1"
     ∧ ∀ c, c ∈ py "2501.00001v1" → is_eol c = false).
Proof.
  assert (H : py "2501.00001v1"
                ∈ fetched_ids (fetcher_of 1)
                    {[ ledger := py "  2501.00001v1 " ++ [nl; nl] ]}).
  { replace (fetched_ids (fetcher_of 1)
               {[ ledger := py "  2501.00001v1 " ++ [nl; nl] ]})
      with ({[ py "2501.00001v1" ]} : gset str) by (vm_compute; reflexivity).
    by apply elem_of_singleton_2. }
  split; [exact H|]. exact (fetched_ids_trimmed _ _ _ H).
Defined.

Lemma fetched_ids_append_witness :
  ends_line (fetcher_of 1) (ledger_with "2501.00001v1") = true
  ∧ Forall (fun i => ledger_safe i = true)
      [py "2501.00003v1"; py "2501.00005v2"]
  ∧ (py "2501.00005v2"
       ∈ fetched_ids (fetcher_of 1)
           (append_file (fetched_ids_file (fetcher_of 1))
              (ledger_lines [py "2501.00003v1"; py "2501.00005v2"])
              (ledger_with "2501.00001v1"))
     ↔ py "2501.00005v2"
         ∈ fetched_ids (fetcher_of 1) (ledger_with "2501.00001v1")
       ∨ py "2501.00005v2" ∈ [py "2501.00003v1"; py "2501.00005v2"]).
Proof.
  assert (H1 : ends_line (fetcher_of 1) (ledger_with "2501.00001v1") = true)
    by (vm_compute; reflexivity).
  assert (H2 : Forall (fun i => ledger_safe i = true)
                 [py "2501.00003v1"; py "2501.00005v2"]).
  { repeat constructor; vm_compute; reflexivity. }
  split; [exact H1|]. split; [exact H2|].
  exact (fetched_ids_append _ _ _ _ H1 H2).
Defined.

End LedgerProps.

(** ** More about [ArxivFetcher.fetch] *)

Module FetchMore.
Import PyStr Py Log Datamodel Fetcher Invariants Records Ledger.
Import FetcherProps LedgerProps.

Lemma last_segment_no_sep (sep : ascii) (s : str) : sep ∉ last_segment sep s.
Proof.
  induction s as [|c s IH]; cbn [last_segment]; [apply not_elem_of_nil|].
  destruct (existsb (ascii_eqb sep) s) eqn:E; [done|].
  assert (Hs : sep ∉ s).
  { intros Hin%list_elem_of_In. apply not_true_iff_false in E. apply E.
    apply existsb_exists. exists sep. split; [done|].
    unfold ascii_eqb. apply Ascii.eqb_refl. }
  destruct (ascii_eqb sep c) eqn:Ec; [done|].
  apply not_elem_of_cons. split; [|done].
  intros ->. unfold ascii_eqb in Ec. by rewrite Ascii.eqb_refl in Ec.
Qed.

Lemma startswith_length (p s : str) :
  startswith p s = true → length p ≤ length s.
Proof.
  revert s. induction p as [|x p IH]; intros [|y s]; cbn; try done; try lia.
  intros [_ H]%andb_prop. apply IH in H. lia.
Qed.

(** Deleting the occurrences of a string adds no character. *)
Lemma replace_aux_delete (fuel : nat) (old s : str) (c : ascii) :
  c ∈ replace_aux fuel old [] s → c ∈ s.
Proof.
  revert s. induction fuel as [|fuel IH]; intros s; cbn [replace_aux]; [done|].
  destruct s as [|x s]; [done|].
  destruct (startswith old (x :: s)); cbn [app].
  - intros H%IH. by apply (subseteq_drop (length old) (x :: s)).
  - intros [->|H]%elem_of_cons; [left|right; by apply IH].
Qed.

Section Fetch.
Variable feed : str → Z → Z → outcome value.
Variable parse_datetime : str → option datetime.
Variable self : fetcher.

Lemma item_get_twice it key d1 d2 v1 v2 :
  item_get it key d1 = Ok v1 → item_get it key d2 = Ok v2 →
  v1 = v2 ∨ (v1 = d1 ∧ v2 = d2).
Proof.
  destruct it as [[| |items|]|]; cbn; try done.
  destruct (lookup_key key items); cbn; intros [= <-] [= <-]; auto.
Qed.

Lemma make_ArxivPaper_fields arxiv_id url_id updated published title summary
    authors comment n_pages n_figures categories p :
  make_ArxivPaper parse_datetime arxiv_id url_id updated published title
    summary authors comment n_pages n_figures categories = Ok p →
  id p = arxiv_id ∧ url p = url_id ∧ pdf_url p = pdf_url_of url_id
  ∧ validate_str title = Ok (Datamodel.title p)
  ∧ validate_str summary = Ok (Datamodel.summary p)
  ∧ text p = [] ∧ pdf_loader p = None.
Proof.
  unfold make_ArxivPaper. intros H.
  apply bind_Ok in H as (upd & _ & H). apply bind_Ok in H as (pub & _ & H).
  apply bind_Ok in H as (ttl & Et & H). apply bind_Ok in H as (smm & Es & H).
  apply bind_Ok in H as (cmt & _ & H). apply bind_Ok in H as (cats & _ & H).
  by injection H as <-.
Qed.

(** How the body of the [for] loop ends when it does not raise, with what
    is known of the record it appends and of the way it leaves the loop. *)
Lemma visit_shape papers paper st fl st' :
  visit parse_datetime self papers paper st = Ok (fl, st') →
  (∃ raw, paper = Raw raw) ∧
  ((∃ e, fl = Continue ∧ st' = rebind_new_papers papers (emit_ev e st))
   ∨ (fl = Continue ∧ st' = st)
   ∨ (∃ p st1, (st1 = st ∨ st1 = emit_ev PaperWithoutAuthors st)
        ∧ (id p ∉ seen st)
        ∧ record_ok p = true
        ∧ st' = emit_ev (PaperFetched (id p))
                  (add_seen (id p) (append_new_papers (Paper p) st1))
        ∧ fl = if (Z.of_nat (length (deref st' (new_papers st')))
                   >=? max_results self)%Z
               then Break else Continue)).
Proof.
  unfold visit. intros H.
  apply bind_Ok in H as (title & Et & H).
  split; [by eapply item_get_Ok|].
  apply bind_Ok in H as (has_error & Eerr & H).
  destruct has_error.
  { injection H as <- <-. left. eauto. }
  apply bind_Ok in H as (url_id & _ & H).
  apply bind_Ok in H as (invalid & Einv & H).
  destruct invalid.
  { injection H as <- <-. left. eauto. }
  apply bind_Ok in H as (summary & _ & H).
  destruct (negb (truthy summary)) eqn:Esum.
  { injection H as <- <-. left. eauto. }
  apply bind_Ok in H as (arxiv_id & Eid & H).
  destruct (bool_decide (arxiv_id ∈ seen st)) eqn:Eseen.
  { injection H as <- <-. right. left. done. }
  apply bool_decide_eq_false in Eseen.
  apply bind_Ok in H as (paper_authors & _ & H).
  apply bind_Ok in H as (authors & _ & H).
  apply bind_Ok in H as (arxiv_categories & _ & H).
  apply bind_Ok in H as (categories & _ & H).
  apply bind_Ok in H as (comment_elt & _ & H).
  apply bind_Ok in H as (comment & _ & H).
  apply bind_Ok in H as (pf & _ & H).
  apply bind_Ok in H as (updated & _ & H).
  apply bind_Ok in H as (published & _ & H).
  apply bind_Ok in H as (title' & Et' & H).
  apply bind_Ok in H as (url_str & Eurl & H).
  apply bind_Ok in H as (p & Ep & H).
  apply make_ArxivPaper_fields in Ep
    as (Hid & Hurl & Hpdf & Httl & Hsmm & Htext & Hloader).
  right. right. exists p.
  exists (if bool_decide (authors = []) then emit_ev PaperWithoutAuthors st else st).
  split; [destruct (bool_decide (authors = [])); auto|].
  split; [by rewrite Hid|].
  split.
  { destruct url_id as [|u| |]; try done. injection Eurl as ->.
    cbn in Eid. injection Eid as <-.
    destruct summary as [|smm| |]; try done. injection Hsmm as Hsmm.
    unfold record_ok. rewrite Hid, Hurl, Hpdf, Htext, Hloader, <- Hsmm.
    rewrite !bool_decide_eq_true_2 by done. cbn in Esum.
    apply negb_false_iff in Esum. rewrite Esum.
    assert (Hc : PyStr.contains (py "arxiv.org") url_str = true).
    { cbn in Einv. destruct (bool_decide (url_str = [])); [done|].
      cbn in Einv. injection Einv as Einv. by apply negb_false_iff in Einv. }
    rewrite Hc.
    assert (He : PyStr.contains (py "Error") (Datamodel.title p) = false).
    { destruct (item_get_twice _ _ _ _ _ _ Et Et') as [->|[_ ->]]; [|done].
      destruct title' as [|ttl| |]; try done. injection Httl as <-.
      cbn in Eerr. by injection Eerr as Eerr. }
    rewrite He. done. }
  subst arxiv_id. split.
  - by destruct (_ >=? _)%Z; injection H as <- <-.
  - destruct (_ >=? _)%Z eqn:Ege; injection H as <- <-; by rewrite Ege.
Qed.

(** A rule for the loops of [fetch]: [I] holds where the body of the [for]
    loop starts, [I'] between the rounds of the [while] loop. *)
Section LoopRule.
Variables I I' : locals → Prop.
Hypothesis visit_rule : ∀ papers i paper st fl st',
  I st → deref st papers !! i = Some paper →
  visit parse_datetime self papers paper st = Ok (fl, st') →
  match fl with Continue => I st' | Break => I' st' end.
Hypothesis leave_rule : ∀ st, I st → I' st.
Hypothesis enter_rule : ∀ (l : list value) st,
  I' st →
  (Z.of_nat (length (deref st (new_papers st))) <? max_results self)%Z = true →
  I (fst (alloc (Raw <$> l) st)).
Hypothesis advance_rule : ∀ b st, I' st → I' (advance b st).

Lemma for_papers_rule fuel papers : ∀ i st st',
  I st → for_papers parse_datetime self fuel papers i st = Ok st' → I' st'.
Proof.
  induction fuel as [|fuel IH]; intros i st st' Hinv H; [done|].
  cbn [for_papers] in H.
  destruct (deref st papers !! i) as [paper|] eqn:Ei.
  - apply bind_Ok in H as ([fl st1] & Ev & H).
    pose proof (visit_rule _ _ _ _ _ _ Hinv Ei Ev) as Hv.
    destruct fl; [by eapply IH|by injection H as <-].
  - injection H as <-. by apply leave_rule.
Qed.

Lemma round_rule batch_size st st' :
  I' st → round feed parse_datetime self batch_size st = Ok (Next st') →
  I' st'.
Proof.
  intros Hinv. unfold round.
  destruct (_ <? _)%Z eqn:Elt; [|done]. intros H.
  apply bind_Ok in H as (data_dict & _ & H).
  apply bind_Ok in H as (feed_elt & _ & H).
  apply bind_Ok in H as (papers & _ & H).
  destruct (negb (truthy papers)); [done|].
  destruct (alloc (Raw <$> as_list papers) st) as [st1 papers_ref] eqn:Ea.
  apply bind_Ok in H as (st2 & Ef & H). injection H as <-.
  apply advance_rule. eapply for_papers_rule; [|done].
  replace st1 with (fst (alloc (Raw <$> as_list papers) st)) by by rewrite Ea.
  by apply enter_rule.
Qed.

Lemma round_exit batch_size st st' :
  round feed parse_datetime self batch_size st = Ok (Stop (Exit st')) →
  st' = st
  ∧ (Z.of_nat (length (deref st (new_papers st))) <? max_results self)%Z = false.
Proof.
  unfold round. destruct (_ <? _)%Z eqn:Elt; [|by intros [= <-]]. intros H.
  apply bind_Ok in H as (data_dict & _ & H).
  apply bind_Ok in H as (feed_elt & _ & H).
  apply bind_Ok in H as (papers & _ & H).
  destruct (negb (truthy papers)); [done|].
  destruct (alloc (Raw <$> as_list papers) st) as [st1 papers_ref].
  by apply bind_Ok in H as (st2 & Ef & H).
Qed.

Lemma while_loop_rule batch_size fuel : ∀ st st',
  I' st →
  while_loop feed parse_datetime self batch_size fuel st = Ok (Exit st') →
  I' st'
  ∧ (Z.of_nat (length (deref st' (new_papers st'))) <? max_results self)%Z
    = false.
Proof.
  induction fuel as [|fuel IH]; intros st st' Hinv H; [done|].
  cbn [while_loop] in H. apply bind_Ok in H as (r & Er & H).
  destruct r as [st1|e].
  - eapply IH; [|done]. by eapply round_rule.
  - injection H as ->. by apply round_exit in Er as [-> ?].
Qed.

Lemma after_rounds_rule batch_size n : ∀ st st',
  I' st →
  after_rounds feed parse_datetime self batch_size n st = Some st' → I' st'.
Proof.
  induction n as [|n IH]; intros st st' Hinv; cbn [after_rounds].
  - by intros [= <-].
  - destruct (round feed parse_datetime self batch_size st)
      as [[st1|e]| |] eqn:Er; [|done..].
    apply IH. by eapply round_rule.
Qed.
End LoopRule.

(** What a call that returns a list that is not empty has done. *)
Lemma fetch_result (batch_size : Z) (fuel : nat) (fs fs' : files)
    (result : list item) (l : list event) :
  fetch feed parse_datetime self batch_size fuel fs = Ok (result, fs', l) →
  result = []
  ∨ ∃ st, while_loop feed parse_datetime self batch_size fuel (initial self fs)
            = Ok (Exit st)
          ∧ result = deref st (new_papers st)
          ∧ forallb is_paper result = true
          ∧ fs' = append_file (fetched_ids_file self)
                    (ledger_lines (id <$> papers_of result)) fs.
Proof.
  unfold fetch. intros H. apply bind_Ok in H as ([st|r st] & E & H).
  - unfold save_and_return in H.
    destruct (forallb is_paper (deref st (new_papers st))) eqn:Hall;
      cbn in H; injection H as <- <- _; [|by left].
    right. exists st. repeat split; try done.
    unfold ledger_lines. by rewrite <- list_fmap_compose.
  - left. apply while_loop_return in E as ->. by injection H as <- _ _.
Qed.

Lemma deref_elem_of st l : deref st l = [] ∨ deref st l ∈ heap st.
Proof.
  unfold deref. destruct (heap st !! l) as [x|] eqn:E; [right|by left].
  by eapply list_elem_of_lookup_2.
Qed.

Lemma heap_records_ok_append p st :
  heap_records_ok st → record_ok p = true →
  heap_records_ok (append_new_papers (Paper p) st).
Proof.
  intros Hinv Hp l q Hl Hq. cbn in Hl.
  apply list_elem_of_lookup in Hl as [j Hj].
  apply list_lookup_insert_Some in Hj as [(_ & <- & _)|[_ Hj]].
  - apply elem_of_app in Hq as [Hq|Hq%list_elem_of_singleton].
    + destruct (deref_elem_of st (new_papers st)) as [E|E].
      * rewrite E in Hq. by apply elem_of_nil in Hq.
      * by eapply Hinv.
    + by injection Hq as ->.
  - eapply Hinv; [|done]. by eapply list_elem_of_lookup_2.
Qed.

Lemma heap_records_ok_visit papers i paper st fl st' :
  heap_records_ok st → deref st papers !! i = Some paper →
  visit parse_datetime self papers paper st = Ok (fl, st') →
  match fl with Continue => heap_records_ok st' | Break => heap_records_ok st' end.
Proof.
  intros Hinv _ H.
  assert (heap_records_ok st'); [|by destruct fl].
  apply visit_shape in H as [_ H].
  destruct H as [(e & _ & ->)|[[_ ->]|(p & st1 & Hst1 & _ & Hp & -> & _)]];
    [done..|].
  apply (heap_records_ok_append p st1); [|done].
  by destruct Hst1 as [->| ->].
Qed.

Lemma heap_records_ok_alloc (l : list value) st :
  heap_records_ok st → heap_records_ok (fst (alloc (Raw <$> l) st)).
Proof.
  intros Hinv x q Hx Hq. cbn in Hx.
  apply elem_of_app in Hx as [Hx|Hx%list_elem_of_singleton];
    [by eapply Hinv|].
  subst x. by apply list_elem_of_fmap in Hq as (? & ? & ?).
Qed.

(** The records of the returned list have passed the checks of the loop. *)
Lemma fetch_records_checked (batch_size : Z) (fuel : nat) (fs fs' : files)
    (result : list item) (l : list event) (p : ArxivPaper) :
  fetch feed parse_datetime self batch_size fuel fs = Ok (result, fs', l) →
  p ∈ papers_of result → record_ok p = true.
Proof.
  intros H Hp.
  apply fetch_result in H as [->|(st & E & -> & _ & _)];
    [by apply elem_of_nil in Hp|].
  apply (while_loop_rule heap_records_ok heap_records_ok) in E as [Hinv _].
  - apply list_elem_of_omap in Hp as (it & Hit & Hp).
    destruct it as [|q]; [done|]. injection Hp as ->.
    destruct (deref_elem_of st (new_papers st)) as [E|E].
    + rewrite E in Hit. by apply elem_of_nil in Hit.
    + by eapply Hinv.
  - apply heap_records_ok_visit.
  - done.
  - intros l0 st0 Hinv _. by apply heap_records_ok_alloc.
  - done.
  - intros l0 q [->|Hl]%elem_of_cons Hq; [by apply elem_of_nil in Hq|].
    by apply elem_of_nil in Hl.
Qed.

Lemma record_ok_id (p : ArxivPaper) :
  record_ok p = true → "/"%char ∉ id p.
Proof.
  intros Hok.
  unfold record_ok in Hok. repeat (apply andb_prop in Hok as [Hok ?]).
  match goal with H : bool_decide (id p = _) = true |- _ =>
    apply bool_decide_eq_true in H; rewrite H end.
  intros Hin%replace_aux_delete. by apply last_segment_no_sep in Hin.
Qed.

(** The returned list holds records only. *)
Lemma papers_of_all (l : list item) :
  forallb is_paper l = true → l = Paper <$> papers_of l.
Proof.
  induction l as [|[v|p] l IH]; cbn; [done|done|].
  intros H. f_equal. by apply IH.
Qed.

Lemma fetch_papers (batch_size : Z) (fuel : nat) (fs fs' : files)
    (result : list item) (l : list event) :
  fetch feed parse_datetime self batch_size fuel fs = Ok (result, fs', l) →
  result = Paper <$> papers_of result.
Proof.
  intros H. apply fetch_result in H as [->|(st & _ & _ & Hall & _)]; [done|].
  by apply papers_of_all.
Qed.

(** What a call does to the files: nothing, or it appends to the ledger. *)
Lemma fetch_files (batch_size : Z) (fuel : nat) (fs fs' : files)
    (result : list item) (l : list event) :
  fetch feed parse_datetime self batch_size fuel fs = Ok (result, fs', l) →
  fs' = fs ∨ ∃ data, fs' = append_file (fetched_ids_file self) data fs.
Proof.
  unfold fetch. intros H. apply bind_Ok in H as ([st|r st] & E & H).
  - unfold save_and_return in H.
    destruct (forallb is_paper (deref st (new_papers st)));
      cbn in H; injection H as _ <- _; [right; eauto|by left].
  - left. by injection H as _ <- _.
Qed.

(** X3. Every record [fetch] returns is as the loop builds it: its URL
    mentions arxiv.org, its identifier is the last segment of the URL
    without ".pdf" and so has no slash in it, its PDF URL is the URL with
    "abs" replaced by "pdf", its summary is not empty, its title does not
    mention Error, and its text is still empty. *)
Theorem fetch_records_ok (batch_size : Z) (fuel : nat) (fs fs' : files)
    (result : list item) (l : list event) (p : ArxivPaper) :
  fetch feed parse_datetime self batch_size fuel fs = Ok (result, fs', l) →
  p ∈ papers_of result →
  record_ok p = true ∧ "/"%char ∉ id p.
Proof.
  intros H Hp. assert (Hok : record_ok p = true)
    by (by eapply fetch_records_checked).
  split; [done|]. by apply record_ok_id.
Qed.

(** X4. [fetch] touches no file but the ledger, and of the ledger it only
    extends the content: what was in the file is still there, in front
    of what the call has added. *)
Theorem fetch_ledger_only (batch_size : Z) (fuel : nat) (fs fs' : files)
    (result : list item) (l : list event) :
  fetch feed parse_datetime self batch_size fuel fs = Ok (result, fs', l) →
  (∀ q, q ≠ fetched_ids_file self → fs' !! q = fs !! q)
  ∧ dom fs ⊆ dom fs'
  ∧ ∃ data, default [] (fs' !! fetched_ids_file self)
            = default [] (fs !! fetched_ids_file self) ++ data.
Proof.
  intros H. apply fetch_files in H as [->|[data ->]].
  - split; [done|]. split; [done|]. exists []. by rewrite app_nil_r.
  - unfold append_file. split; [|split].
    + intros q Hq. by rewrite lookup_insert_ne.
    + rewrite dom_insert. apply union_subseteq_r.
    + exists data. by rewrite lookup_insert_eq.
Qed.

(** *** The log and the returned list *)

Lemma log_agrees_visit papers i paper st fl st' :
  log_agrees st → deref st papers !! i = Some paper →
  visit parse_datetime self papers paper st = Ok (fl, st') →
  match fl with Continue => log_agrees st' | Break => log_agrees st' end.
Proof.
  intros [Hv Hlog] Hi H.
  assert (log_agrees st'); [|by destruct fl].
  apply visit_shape in H as [[raw ->] H].
  destruct H as [(e & _ & ->)|[[_ ->]|(p & st1 & Hst1 & _ & _ & -> & _)]].
  - split; cbn.
    + by eapply deref_lookup_valid.
    + intros Hall. unfold deref in Hall, Hi. cbn in Hall.
      by pose proof (forallb_is_paper_lookup _ _ _ Hall Hi).
  - done.
  - assert (Hst : heap st1 = heap st ∧ new_papers st1 = new_papers st
                  ∧ omap fetched_id (log st1) = omap fetched_id (log st)).
    { destruct Hst1 as [->| ->]; [done|]. cbn. rewrite omap_app. cbn.
      by rewrite app_nil_r. }
    destruct Hst as (Hh & Hn & Hl).
    set (st2 := emit_ev _ _).
    assert (Hd : deref st2 (new_papers st2)
                 = deref st (new_papers st) ++ [Paper p]).
    { unfold st2. cbn. unfold deref. cbn. rewrite Hh, Hn.
      rewrite list_lookup_insert_eq by done. cbn. unfold deref.
      by rewrite Hh. }
    split.
    + unfold st2. cbn. by rewrite length_insert, Hh, Hn.
    + rewrite Hd, forallb_app. intros [Hall _]%andb_prop.
      unfold st2. cbn [log emit_ev add_seen append_new_papers].
      rewrite omap_app, Hl, (Hlog Hall). unfold papers_of.
      by rewrite omap_app, fmap_app.
Qed.

Lemma log_agrees_alloc (l : list value) st :
  log_agrees st → log_agrees (fst (alloc (Raw <$> l) st)).
Proof.
  intros [Hv Hlog].
  assert (Hd : deref (fst (alloc (Raw <$> l) st)) (new_papers st)
               = deref st (new_papers st)).
  { unfold deref. cbn. by rewrite lookup_app_l. }
  split.
  - cbn. rewrite length_app. lia.
  - change (new_papers (fst (alloc (Raw <$> l) st))) with (new_papers st).
    by rewrite Hd.
Qed.

(** X5. When [fetch] returns records, the messages that announce a paper
    as fetched name exactly the returned records, one message for each
    and in the order of the list, and the same identifiers are what the
    call appends to the ledger, one on a line. *)
Theorem fetch_log_ids (batch_size : Z) (fuel : nat) (fs fs' : files)
    (result : list item) (l : list event) :
  fetch feed parse_datetime self batch_size fuel fs = Ok (result, fs', l) →
  result ≠ [] →
  omap fetched_id l = id <$> papers_of result
  ∧ fs' = append_file (fetched_ids_file self)
            (ledger_lines (omap fetched_id l)) fs.
Proof.
  intros H Hne.
  assert (Hl : ∃ st, while_loop feed parse_datetime self batch_size fuel
                       (initial self fs) = Ok (Exit st) ∧ l = log st).
  { revert H. unfold fetch. intros H.
    apply bind_Ok in H as ([st|r st] & E & H).
    - exists st. split; [done|].
      destruct (save_and_return self (deref st (new_papers st)) fs).
      by injection H as _ _ <-.
    - apply while_loop_return in E as ->. by injection H as <- _ _. }
  destruct Hl as (st0 & E0 & ->).
  apply fetch_result in H as [->|(st & E & -> & Hall & ->)]; [done|].
  rewrite E in E0. injection E0 as <-.
  apply (while_loop_rule log_agrees log_agrees) in E as [[_ Hlog] _].
  - by rewrite (Hlog Hall).
  - apply log_agrees_visit.
  - done.
  - intros l0 st0 Hinv _. by apply log_agrees_alloc.
  - done.
  - split; cbn; [lia|done].
Qed.

(** *** A full batch or nothing *)

Lemma deref_append p st :
  new_papers st < length (heap st) →
  deref (append_new_papers (Paper p) st) (new_papers st)
  = deref st (new_papers st) ++ [Paper p].
Proof. intros Hv. unfold deref. cbn. by rewrite list_lookup_insert_eq. Qed.

Lemma batch_room_visit papers i paper st fl st' :
  batch_room self true st → deref st papers !! i = Some paper →
  visit parse_datetime self papers paper st = Ok (fl, st') →
  match fl with
  | Continue => batch_room self true st'
  | Break => batch_room self false st'
  end.
Proof.
  intros [Hv Hroom] Hi H. apply visit_shape in H as [[raw ->] H].
  destruct H as [(e & -> & ->)|[[-> ->]|(p & st1 & Hst1 & _ & _ & -> & ->)]].
  - split; cbn.
    + by eapply deref_lookup_valid.
    + intros Hall. unfold deref in Hall, Hi. cbn in Hall.
      by pose proof (forallb_is_paper_lookup _ _ _ Hall Hi).
  - done.
  - assert (Hst : heap st1 = heap st ∧ new_papers st1 = new_papers st)
      by (by destruct Hst1 as [->| ->]).
    destruct Hst as [Hh Hn].
    set (st2 := emit_ev _ _).
    assert (Hd : deref st2 (new_papers st2)
                 = deref st (new_papers st) ++ [Paper p]).
    { unfold st2. cbn. unfold deref. cbn. rewrite Hh, Hn.
      rewrite list_lookup_insert_eq by done. cbn. unfold deref.
      by rewrite Hh. }
    assert (Hv2 : new_papers st2 < length (heap st2)).
    { unfold st2. cbn. by rewrite length_insert, Hh, Hn. }
    assert (Hlen : forallb is_paper (deref st2 (new_papers st2)) = true →
                   (Z.of_nat (length (deref st2 (new_papers st2)))
                    <= max_results self)%Z).
    { rewrite Hd, forallb_app, length_app. intros [Hall _]%andb_prop.
      apply Hroom in Hall. cbn. lia. }
    destruct (_ >=? _)%Z eqn:Ege; (split; [done|]); [done|].
    intros Hall. apply Hlen in Hall. lia.
Qed.

Lemma batch_room_alloc (l : list value) st :
  batch_room self false st →
  (Z.of_nat (length (deref st (new_papers st))) <? max_results self)%Z = true →
  batch_room self true (fst (alloc (Raw <$> l) st)).
Proof.
  intros [Hv _] Hlt.
  assert (Hd : deref (fst (alloc (Raw <$> l) st)) (new_papers st)
               = deref st (new_papers st)).
  { unfold deref. cbn. by rewrite lookup_app_l. }
  split.
  - cbn. rewrite length_app. lia.
  - change (new_papers (fst (alloc (Raw <$> l) st))) with (new_papers st).
    rewrite Hd. intros _. lia.
Qed.

(** X6. [fetch] returns a full batch or nothing: the list it returns is
    empty or has exactly [max_results] records. *)
Theorem fetch_full_or_empty (batch_size : Z) (fuel : nat) (fs fs' : files)
    (result : list item) (l : list event) :
  fetch feed parse_datetime self batch_size fuel fs = Ok (result, fs', l) →
  result = [] ∨ Z.of_nat (length result) = max_results self.
Proof.
  intros H. apply fetch_result in H as [->|(st & E & -> & Hall & _)];
    [by left|].
  destruct (decide (0 <= max_results self)%Z) as [Hmax|Hmax].
  - right.
    apply (while_loop_rule (batch_room self true) (batch_room self false))
      in E as [[_ Hroom] Hge].
    + apply Hroom in Hall. lia.
    + apply batch_room_visit.
    + intros st0 [Hv Hr]. split; [done|]. intros Hp. apply Hr in Hp. lia.
    + apply batch_room_alloc.
    + done.
    + split; cbn; [lia|]. intros _. lia.
  - left. destruct fuel as [|fuel]; [done|]. cbn [while_loop] in E.
    assert (Hr : round feed parse_datetime self batch_size (initial self fs)
                 = Ok (Stop (Exit (initial self fs)))).
    { unfold round.
      change (deref (initial self fs) (new_papers (initial self fs)))
        with (@nil item).
      cbn [length]. by destruct (Z.ltb_spec (Z.of_nat 0) (max_results self)); [lia|]. }
    rewrite Hr in E. cbn in E. by injection E as <-.
Qed.

(** *** The cursor *)

Lemma for_papers_start_index fuel papers i st st' :
  for_papers parse_datetime self fuel papers i st = Ok st' →
  start_index st' = start_index st.
Proof.
  apply (for_papers_rule (fun s => start_index s = start_index st)
                         (fun s => start_index s = start_index st));
    [|done|done].
  intros papers0 i0 paper s fl s' Hs _ H.
  assert (start_index s' = start_index st); [|by destruct fl].
  apply visit_shape in H as [_ H].
  destruct H as [(e & _ & ->)|[[_ ->]|(p & st1 & Hst1 & _ & _ & -> & _)]];
    [done..|].
  by destruct Hst1 as [->| ->].
Qed.

Lemma round_start_index batch_size st st' :
  round feed parse_datetime self batch_size st = Ok (Next st') →
  start_index st' = (start_index st + batch_size)%Z.
Proof.
  unfold round. destruct (_ <? _)%Z; [|done]. intros H.
  apply bind_Ok in H as (data_dict & _ & H).
  apply bind_Ok in H as (feed_elt & _ & H).
  apply bind_Ok in H as (papers & _ & H).
  destruct (negb (truthy papers)); [done|].
  destruct (alloc (Raw <$> as_list papers) st) as [st1 papers_ref] eqn:Ea.
  apply bind_Ok in H as (st2 & Ef & H). injection H as <-.
  apply for_papers_start_index in Ef. cbn. rewrite Ef.
  by injection Ea as <- _.
Qed.

(** X7. The offset of the request moves by [batch_size] with every round,
    whatever the round accepted, skipped or rejected: after [n] rounds the
    next page is requested from [n * batch_size]. *)
Theorem fetch_cursor (batch_size : Z) (n : nat) (fs : files) (st : locals) :
  after_rounds feed parse_datetime self batch_size n (initial self fs)
    = Some st →
  start_index st = (Z.of_nat n * batch_size)%Z.
Proof.
  assert (H : ∀ st0,
    after_rounds feed parse_datetime self batch_size n st0 = Some st →
    start_index st = (start_index st0 + Z.of_nat n * batch_size)%Z).
  { induction n as [|n IH]; intros st0; cbn [after_rounds].
    - intros [= <-]. lia.
    - destruct (round feed parse_datetime self batch_size st0)
        as [[st1|e]| |] eqn:Er; [|done..].
      intros H%IH. apply round_start_index in Er. lia. }
  intros H0%H. by rewrite H0.
Qed.

(** *** No quota *)

Lemma fetched_ids_touch fs :
  fetched_ids self (append_file (fetched_ids_file self) [] fs)
  = fetched_ids self fs.
Proof.
  unfold fetched_ids, append_file. rewrite lookup_insert_eq, app_nil_r.
  by destruct (fs !! fetched_ids_file self).
Qed.

(** X8. With [max_results] zero or negative [fetch] asks the API nothing
    and returns the empty list; it opens the ledger for appending all the
    same, which creates the file when it is missing and changes nothing
    of what is read from it. *)
Theorem fetch_no_quota (batch_size : Z) (fuel : nat) (fs : files) :
  (max_results self <= 0)%Z →
  fetch feed parse_datetime self batch_size (S fuel) fs
  = Ok ([], append_file (fetched_ids_file self) [] fs, [])
  ∧ is_Some (append_file (fetched_ids_file self) [] fs !! fetched_ids_file self)
  ∧ fetched_ids self (append_file (fetched_ids_file self) [] fs)
    = fetched_ids self fs.
Proof.
  intros Hmax. split; [|split].
  - unfold fetch. cbn [while_loop].
    assert (Hr : round feed parse_datetime self batch_size (initial self fs)
                 = Ok (Stop (Exit (initial self fs)))).
    { unfold round.
      change (deref (initial self fs) (new_papers (initial self fs)))
        with (@nil item).
      cbn [length]. by destruct (Z.ltb_spec (Z.of_nat 0) (max_results self)); [lia|]. }
    rewrite Hr. reflexivity.
  - unfold append_file. rewrite lookup_insert_eq. eauto.
  - apply fetched_ids_touch.
Qed.
End Fetch.

(** *** Two calls in a row *)

Lemma fetched_ids_same_file (self1 self2 : fetcher) (fs : files) :
  fetched_ids_file self2 = fetched_ids_file self1 →
  fetched_ids self2 fs = fetched_ids self1 fs.
Proof. unfold fetched_ids. by intros ->. Qed.

(** X9. What one call of [fetch] returns, the next call on the same ledger
    does not return again, whatever the API answers: provided the ledger
    was missing, empty or ended with an end of line, and the identifiers
    of the first call are ledger safe. *)
Theorem fetch_twice (feed1 feed2 : str → Z → Z → outcome value)
    (parse1 parse2 : str → option datetime) (self1 self2 : fetcher)
    (b1 b2 : Z) (fuel1 fuel2 : nat) (fs fs1 fs2 : files)
    (r1 r2 : list item) (l1 l2 : list event) (p q : ArxivPaper) :
  fetch feed1 parse1 self1 b1 fuel1 fs = Ok (r1, fs1, l1) →
  fetch feed2 parse2 self2 b2 fuel2 fs1 = Ok (r2, fs2, l2) →
  fetched_ids_file self2 = fetched_ids_file self1 →
  ends_line self1 fs = true →
  Forall (fun i => ledger_safe i = true) (id <$> papers_of r1) →
  p ∈ papers_of r1 → q ∈ papers_of r2 → id q ≠ id p.
Proof.
  intros H1 H2 Hfile Hend Hsafe Hp Hq Heq.
  apply fetch_result in H1 as [->|(st1 & _ & _ & _ & ->)];
    [by apply elem_of_nil in Hp|].
  assert (Hin : id p ∈ fetched_ids self2
                  (append_file (fetched_ids_file self1)
                     (ledger_lines (id <$> papers_of r1)) fs)).
  { rewrite (fetched_ids_same_file self1 self2) by done.
    rewrite ledger_after_append by done.
    apply elem_of_union_r, elem_of_list_to_set, list_elem_of_fmap. eauto. }
  apply fetch_result in H2 as [->|(st2 & E & -> & Hall & _)];
    [by apply elem_of_nil in Hq|].
  apply while_loop_exit
    with (seen0 := fetched_ids self2
                     (append_file (fetched_ids_file self1)
                        (ledger_lines (id <$> papers_of r1)) fs)) in E;
    [|apply batch_ok_initial].
  destruct E as (_ & _ & Hb & _). destruct (Hb Hall) as [_ Hfresh].
  apply Hfresh in Hq as [_ Hq]. by rewrite Heq in Hq.
Qed.

(** *** Examples *)

Import Examples Runs.

Lemma fetch_records_ok_witness :
  fetch (one_page [entry "2501.00001v1" true]) no_dates (fetcher_of 1) 10 2 ∅
  = Ok ([Paper (paper_of "2501.00001v1")], ledger_with "2501.00001v1",
        accepted "2501.00001v1")
  ∧ record_ok (paper_of "2501.00001v1") = true
  ∧ "/"%char ∉ id (paper_of "2501.00001v1").
Proof.
  assert (H : fetch (one_page [entry "2501.00001v1" true]) no_dates
                (fetcher_of 1) 10 2 ∅
              = Ok ([Paper (paper_of "2501.00001v1")],
                    ledger_with "2501.00001v1", accepted "2501.00001v1"))
    by (vm_compute; reflexivity).
  split; [exact H|].
  apply (fetch_records_ok _ _ _ _ _ _ _ _ _ _ H). cbn. left.
Defined.

Lemma fetch_ledger_only_witness :
  fetch (one_page [entry "2501.00001v1" true; entry "2501.00003v1" true])
    no_dates (fetcher_of 1) 10 2 (ledger_with "2501.00001v1")
  = Ok ([Paper (paper_of "2501.00003v1")],
        {[ ledger := py "2501.00001v1" ++ [nl] ++ py "2501.00003v1" ++ [nl] ]},
        accepted "2501.00003v1")
  ∧ (∀ q, q ≠ fetched_ids_file (fetcher_of 1) →
       ({[ ledger := py "2501.00001v1" ++ [nl] ++ py "2501.00003v1" ++ [nl] ]}
          : files) !! q
       = ledger_with "2501.00001v1" !! q)
  ∧ dom (ledger_with "2501.00001v1")
    ⊆ dom ({[ ledger := py "2501.00001v1" ++ [nl] ++ py "2501.00003v1" ++ [nl] ]}
             : files)
  ∧ ∃ data,
      default []
        (({[ ledger := py "2501.00001v1" ++ [nl] ++ py "2501.00003v1" ++ [nl] ]}
            : files) !! fetched_ids_file (fetcher_of 1))
      = default [] (ledger_with "2501.00001v1" !! fetched_ids_file (fetcher_of 1))
        ++ data.
Proof.
  assert (H : fetch (one_page [entry "2501.00001v1" true;
                               entry "2501.00003v1" true])
                no_dates (fetcher_of 1) 10 2 (ledger_with "2501.00001v1")
              = Ok ([Paper (paper_of "2501.00003v1")],
                    {[ ledger := py "2501.00001v1" ++ [nl]
                                 ++ py "2501.00003v1" ++ [nl] ]},
                    accepted "2501.00003v1"))
    by (vm_compute; reflexivity).
  split; [exact H|]. exact (fetch_ledger_only _ _ _ _ _ _ _ _ _ H).
Defined.

Lemma fetch_log_ids_witness :
  fetch (one_page [entry "2501.00001v1" true]) no_dates (fetcher_of 1) 10 2 ∅
  = Ok ([Paper (paper_of "2501.00001v1")], ledger_with "2501.00001v1",
        accepted "2501.00001v1")
  ∧ omap fetched_id (accepted "2501.00001v1")
    = id <$> papers_of [Paper (paper_of "2501.00001v1")]
  ∧ ledger_with "2501.00001v1"
    = append_file (fetched_ids_file (fetcher_of 1))
        (ledger_lines (omap fetched_id (accepted "2501.00001v1"))) ∅.
Proof.
  assert (H : fetch (one_page [entry "2501.00001v1" true]) no_dates
                (fetcher_of 1) 10 2 ∅
              = Ok ([Paper (paper_of "2501.00001v1")],
                    ledger_with "2501.00001v1", accepted "2501.00001v1"))
    by (vm_compute; reflexivity).
  split; [exact H|].
  apply (fetch_log_ids _ _ _ _ _ _ _ _ _ H). discriminate.
Defined.

Lemma fetch_full_or_empty_witness :
  fetch (one_page [entry "2501.00001v1" true]) no_dates (fetcher_of 1) 10 2 ∅
  = Ok ([Paper (paper_of "2501.00001v1")], ledger_with "2501.00001v1",
        accepted "2501.00001v1")
  ∧ ([Paper (paper_of "2501.00001v1")] = []
     ∨ Z.of_nat (length [Paper (paper_of "2501.00001v1")])
       = max_results (fetcher_of 1)).
Proof.
  assert (H : fetch (one_page [entry "2501.00001v1" true]) no_dates
                (fetcher_of 1) 10 2 ∅
              = Ok ([Paper (paper_of "2501.00001v1")],
                    ledger_with "2501.00001v1", accepted "2501.00001v1"))
    by (vm_compute; reflexivity).
  split; [exact H|]. exact (fetch_full_or_empty _ _ _ _ _ _ _ _ _ H).
Defined.

Lemma fetch_cursor_witness :
  after_rounds (one_page [entry "2501.00001v1" true]) no_dates (fetcher_of 2)
    1 1 (initial (fetcher_of 2) ∅)
  = Some (after_first_round "2501.00001v1")
  ∧ start_index (after_first_round "2501.00001v1") = (Z.of_nat 1 * 1)%Z.
Proof.
  assert (H : after_rounds (one_page [entry "2501.00001v1" true]) no_dates
                (fetcher_of 2) 1 1 (initial (fetcher_of 2) ∅)
              = Some (after_first_round "2501.00001v1"))
    by (vm_compute; reflexivity).
  split; [exact H|]. exact (fetch_cursor _ _ _ _ _ _ _ H).
Defined.

Lemma fetch_no_quota_witness :
  fetch (one_page [entry "2501.00001v1" true]) no_dates (fetcher_of 0) 10 1 ∅
  = Ok ([], append_file (fetched_ids_file (fetcher_of 0)) [] ∅, [])
  ∧ is_Some (append_file (fetched_ids_file (fetcher_of 0)) [] ∅
             !! fetched_ids_file (fetcher_of 0))
  ∧ fetched_ids (fetcher_of 0)
      (append_file (fetched_ids_file (fetcher_of 0)) [] ∅)
    = fetched_ids (fetcher_of 0) ∅.
Proof.
  apply (fetch_no_quota (one_page [entry "2501.00001v1" true]) no_dates
           (fetcher_of 0) 10 0 ∅).
  cbn. lia.
Defined.

Lemma fetch_twice_witness :
  fetch (one_page [entry "2501.00001v1" true]) no_dates (fetcher_of 1) 10 2 ∅
  = Ok ([Paper (paper_of "2501.00001v1")], ledger_with "2501.00001v1",
        accepted "2501.00001v1")
  ∧ fetch (one_page [entry "2501.00001v1" true; entry "2501.00003v1" true])
      no_dates (fetcher_of 1) 10 2 (ledger_with "2501.00001v1")
    = Ok ([Paper (paper_of "2501.00003v1")],
          {[ ledger := py "2501.00001v1" ++ [nl] ++ py "2501.00003v1" ++ [nl] ]},
          accepted "2501.00003v1")
  ∧ id (paper_of "2501.00003v1") ≠ id (paper_of "2501.00001v1").
Proof.
  assert (H1 : fetch (one_page [entry "2501.00001v1" true]) no_dates
                 (fetcher_of 1) 10 2 ∅
               = Ok ([Paper (paper_of "2501.00001v1")],
                     ledger_with "2501.00001v1", accepted "2501.00001v1"))
    by (vm_compute; reflexivity).
  assert (H2 : fetch (one_page [entry "2501.00001v1" true;
                                entry "2501.00003v1" true])
                 no_dates (fetcher_of 1) 10 2 (ledger_with "2501.00001v1")
               = Ok ([Paper (paper_of "2501.00003v1")],
                     {[ ledger := py "2501.00001v1" ++ [nl]
                                  ++ py "2501.00003v1" ++ [nl] ]},
                     accepted "2501.00003v1"))
    by (vm_compute; reflexivity).
  split; [exact H1|]. split; [exact H2|].
  apply (fetch_twice _ _ _ _ _ _ _ _ _ _ _ _ _ _ _ _ _ _ _ H1 H2).
  - reflexivity.
  - vm_compute; reflexivity.
  - repeat constructor; vm_compute; reflexivity.
  - cbn. left.
  - cbn. left.
Defined.

End FetchMore.

(** ** [_get_pages_and_figures] *)

Module PagesProps.
Import PyStr Re Py Fetcher ReFacts.

Section Greedy.
Context {R : Type}.
(** A pattern that reads one character satisfying [f]. *)
Variable step : @matcher R.
Variable f : ascii → bool.
Hypothesis step_char : ∀ cs s k,
  step cs s k = match s with
                | x :: s' => if f x then k cs s' else None
                | [] => None
                end.

End Greedy.




Lemma digit_char {R} cs s (k : @cont R) :
  m_re false digit cs s k
  = match s with
    | c :: s' => if is_digit c then k cs s' else None
    | [] => None
    end.
Proof.
  destruct s as [|c s']; [done|]. cbn [digit m_re cls_match existsb item_match].
  by rewrite orb_false_r.
Qed.



Lemma m_re_seq {R} ic r1 r2 cs s (k : @cont R) :
  m_re ic (Seq r1 r2) cs s k
  = m_re ic r1 cs s (fun cs' s' => m_re ic r2 cs' s' k).
Proof. done. Qed.



Lemma plus_group_fail {R} (i : nat) (r0 : regex) (f : ascii → bool)
    (s : str) (cs : caps) (k : @cont R) :
  (∀ cs s k, @m_re R false r0 cs s k
             = match s with
               | c :: s' => if f c then k cs s' else None
               | [] => None
               end) →
  (∀ c, head s = Some c → f c = false) →
  m_re false (Grp i (plus r0)) cs s k = None.
Proof.
  intros Hstep Hs. unfold plus. cbn [m_re rep_min]. rewrite Hstep.
  destruct s as [|c s]; [done|]. by rewrite (Hs c eq_refl).
Qed.

Lemma search_pages_no_digit (s : str) : ∀ adv start,
  forallb (fun c => negb (is_digit c)) s = true →
  search_from false pages_figures adv start s = None.
Proof.
  assert (Hm : ∀ adv s, (∀ c, head s = Some c → is_digit c = false) →
                        match_at false pages_figures adv s = None).
  { intros adv s0 Hs. unfold match_at, pages_figures. cbn [seqs].
    rewrite m_re_seq. apply (plus_group_fail 1 digit is_digit); [|done].
    apply digit_char. }
  induction s as [|c s IH]; intros adv start Hs; cbn [search_from].
  - by rewrite Hm.
  - cbn [forallb] in Hs. apply andb_prop in Hs as [Hc Hs].
    rewrite Hm; [by apply IH|].
    intros x [= <-]. by apply negb_true_iff in Hc.
Qed.

(** X11. For a comment without any digit, the empty comment included,
    [_get_pages_and_figures] returns no page count and no figure count,
    and does not raise. *)
Theorem get_pages_and_figures_no_digit (comment : str) :
  forallb (fun c => negb (is_digit c)) comment = true →
  get_pages_and_figures (VStr comment) = Ok (None, None).
Proof.
  intros H. unfold get_pages_and_figures, search.
  by rewrite search_pages_no_digit.
Qed.

(** *** Examples *)

Import Examples Runs.


Lemma get_pages_and_figures_no_digit_witness :
  get_pages_and_figures (VStr (py "Accepted in Phys. Rev. B")) = Ok (None, None).
Proof.
  apply (get_pages_and_figures_no_digit (py "Accepted in Phys. Rev. B")).
  vm_compute; reflexivity.
Defined.

End PagesProps.

(** ** Substitutions: where the characters of the result come from *)

Module SubFacts.
Import PyStr Re ReFacts.

Lemma m_re_alt {R} ic r1 r2 cs s (k : @cont R) :
  m_re ic (Alt r1 r2) cs s k = orelse (m_re ic r1 cs s k) (m_re ic r2 cs s k).
Proof. reflexivity. Qed.

Lemma m_re_seq_lit {R} ic c r cs s (k : @cont R) :
  m_re ic (Seq (Lit c) r) cs s k
  = match s with
    | x :: s' => if lit_match ic c x then m_re ic r cs s' k else None
    | [] => None
    end.
Proof. reflexivity. Qed.

(** The result of a substitution is made of characters of the text and of
    the replacement. *)
Lemma sub_loop_elem ic r repl fuel : ∀ adv s c,
  c ∈ sub_loop ic r repl fuel adv s → c ∈ s ∨ c ∈ repl.
Proof.
  induction fuel as [|fuel IH]; intros adv s c; cbn [sub_loop]; [by left|].
  destruct (search_from ic r adv 0 s) as [m|]; [|by left].
  rewrite !elem_of_app. intros [H|[H|H]].
  - left. by apply (subseteq_take (m_start m) s).
  - by right.
  - apply IH in H as [H|H]; [left|by right].
    by apply (subseteq_drop (m_end m) s).
Qed.

Lemma sub_elem r repl text c :
  c ∈ sub r repl text → c ∈ text ∨ c ∈ repl.
Proof. apply sub_loop_elem. Qed.

(** Substituting the runs of one class of characters. *)
Section OneClass.
Variable r0 : regex.
Variable f : ascii → bool.
Hypothesis step : ∀ R cs s (k : @cont R),
  m_re false r0 cs s k
  = match s with
    | c :: s' => if f c then k cs s' else None
    | [] => None
    end.

Lemma step_sound {R} : sound (@m_re R false r0).
Proof. apply m_re_sound. Qed.

Lemma plus_at adv c t :
  f c = true →
  ∃ cs s', match_at false (plus r0) adv (c :: t) = Some (cs, s')
           ∧ length s' ≤ length t.
Proof.
  intros Hc. unfold match_at, plus.
  cbn [m_re rep_min fmap option_fmap option_map].
  rewrite step, Hc.
  set (k := fun (cs : caps) (s' : str) =>
              if adv && (length s' =? length (c :: t)) then None
              else Some (cs, s')).
  destruct (rep_max_total (m_re false r0) (length t) None [] t k)
    as [[cs s'] H].
  - apply m_re_sound.
  - intros cs' s' Hl. unfold k.
    replace (length s' =? length (c :: t)) with false;
      [rewrite andb_false_r; eauto|].
    symmetry. apply Nat.eqb_neq. simpl. lia.
  - exists cs, s'. split; [done|].
    apply rep_max_sound in H as (cs1 & s1 & H & Hl); [|apply m_re_sound].
    unfold k in H. destruct (adv && _); [done|]. by injection H as -> ->.
Qed.

Lemma plus_elsewhere adv s :
  (∀ c, head s = Some c → f c = false) →
  match_at false (plus r0) adv s = None.
Proof.
  intros H. unfold match_at, plus.
  cbn [m_re rep_min fmap option_fmap option_map]. rewrite step.
  destruct s as [|c s]; [done|]. by rewrite (H c eq_refl).
Qed.

(** What the search for a run finds: no character of the class before the
    match, and a match that is not empty; without a match the text has
    no character of the class. *)
Lemma search_plus adv start s :
  match search_from false (plus r0) adv start s with
  | Some m => ∃ j, m_start m = start + j ∧ m_end m > m_start m
                   ∧ m_end m ≤ start + length s
                   ∧ Forall (fun c => f c = false) (take j s)
  | None => Forall (fun c => f c = false) s
  end.
Proof.
  revert adv start. induction s as [|c s IH]; intros adv start.
  - cbn [search_from]. by rewrite plus_elsewhere.
  - destruct (f c) eqn:Hc.
    + cbn [search_from].
      destruct (plus_at adv c s Hc) as (cs & s' & -> & Hl).
      exists 0. cbn [m_start m_end length take].
      repeat split; [lia|lia|lia|done].
    + cbn [search_from].
      rewrite plus_elsewhere by (by intros x [= <-]).
      specialize (IH false (S start)).
      destruct (search_from false (plus r0) false (S start) s) as [m|].
      * destruct IH as (j & Hs & He & Hb & Hn). exists (S j).
        cbn [length take]. repeat split; [lia|lia|lia|].
        by apply Forall_cons.
      * by apply Forall_cons.
Qed.

(** After the substitution, a character of the class comes from the
    replacement. *)
Lemma sub_loop_plus repl fuel : ∀ adv s c,
  length s < fuel →
  c ∈ sub_loop false (plus r0) repl fuel adv s → f c = true → c ∈ repl.
Proof.
  induction fuel as [|fuel IH]; intros adv s c Hf; [lia|].
  cbn [sub_loop]. pose proof (search_plus adv 0 s) as H.
  destruct (search_from false (plus r0) adv 0 s) as [m|].
  - destruct H as (j & Hs & He & Hb & Hn). cbn in Hs. subst j.
    rewrite !elem_of_app. intros [Hc|[Hc|Hc]] Hfc; [|done|].
    + rewrite Forall_forall in Hn. apply Hn in Hc. congruence.
    + eapply IH; [|done..]. rewrite length_drop. simpl in Hb. lia.
  - intros Hc Hfc. rewrite Forall_forall in H. apply H in Hc. congruence.
Qed.

Lemma sub_plus repl text c :
  c ∈ sub (plus r0) repl text → f c = true → c ∈ repl.
Proof. unfold sub. apply sub_loop_plus. lia. Qed.
End OneClass.

End SubFacts.

(** ** More about [TextExtractor.clean_text] and [delete_references] *)

Module CleaningMore.
Import PyStr Re Log Cleaning Chars ReFacts StripFacts CleaningProps SubFacts.

Lemma blank_char R cs s (k : @cont R) :
  m_re false (Cls [CChar sp; CChar tab]) cs s k
  = match s with
    | c :: s' => if is_blank c then k cs s' else None
    | [] => None
    end.
Proof.
  cbn [m_re]. destruct s as [|c s']; [done|].
  unfold cls_match, is_blank. cbn [existsb item_match].
  by rewrite orb_false_r.
Qed.

Lemma collapse_blanks_no_tab (text : str) : tab ∉ collapse_blanks text.
Proof.
  unfold collapse_blanks, blanks. intros H.
  apply (sub_plus _ is_blank blank_char) in H; [|done].
  by apply list_elem_of_singleton in H.
Qed.

(** X12. The text [clean_text] returns has no tabulation in it, and every
    character of it is a character of the input or a space: the
    substitutions insert nothing else that survives. *)
Theorem clean_text_characters (text : str) :
  Forall (fun c => c ≠ tab ∧ (c ∈ text ∨ c = sp)) (value_of (clean_text text)).
Proof.
  destruct text as [|c0 text]; unfold clean_text, value_of, Log.ret; cbn [snd].
  - cbn. done.
  - set (t := c0 :: text). apply Forall_forall. intros c Hc%strip_elem.
    assert (Hnl : c ≠ nl).
    { intros ->. by apply flatten_newlines_no_newline in Hc. }
    apply sub_elem in Hc as [Hc|Hc%list_elem_of_singleton];
      [|split; [by subst c|by right]].
    apply sub_elem in Hc as [Hc|Hc%list_elem_of_singleton]; [|done].
    split.
    + intros ->. by apply collapse_blanks_no_tab in Hc.
    + apply sub_elem in Hc as [Hc|Hc%list_elem_of_singleton]; [|by right].
      apply sub_elem in Hc as [Hc|Hc]; [|by apply elem_of_nil in Hc].
      apply sub_elem in Hc as [Hc|Hc].
      * apply sub_elem in Hc as [Hc|Hc]; [by left|by apply elem_of_nil in Hc].
      * apply elem_of_cons in Hc as [Hc|Hc%list_elem_of_singleton]; done.
Qed.

(** With [re.IGNORECASE] too, only a newline matches a newline. *)
Lemma lit_nl_ignorecase (x : ascii) : lit_match true nl x = true → x = nl.
Proof.
  destruct x as [[] [] [] [] [] [] [] []]; vm_compute;
    (reflexivity || discriminate).
Qed.

(** Both patterns of [delete_references] begin with a newline. *)
Lemma pattern_start_at adv s :
  head s ≠ Some nl → match_at true pattern_start adv s = None.
Proof.
  intros H. unfold match_at, pattern_start. cbn [seqs].
  rewrite !m_re_alt, !m_re_seq_lit.
  destruct s as [|x s]; [done|].
  destruct (lit_match true nl x) eqn:E; [|done].
  apply lit_nl_ignorecase in E. subst x. by destruct H.
Qed.

Lemma search_pattern_start (s : str) : ∀ adv start,
  nl ∉ s → search_from true pattern_start adv start s = None.
Proof.
  induction s as [|c s IH]; intros adv start Hs; cbn [search_from].
  - by rewrite pattern_start_at.
  - apply not_elem_of_cons in Hs as [Hc Hs].
    rewrite pattern_start_at by (cbn; congruence). by apply IH.
Qed.

(** X13. A text on a single line is returned by [delete_references] as it
    is: every heading the method looks for begins with a newline. *)
Theorem delete_references_single_line (text : str) :
  nl ∉ text → delete_references text = text.
Proof.
  intros H. unfold delete_references, search.
  by rewrite search_pattern_start.
Qed.

Lemma delete_references_single_line_witness :
  (nl ∉ py "References [1] A. Author")
  ∧ delete_references (py "References [1] A. Author")
    = py "References [1] A. Author".
Proof.
  assert (H : nl ∉ py "References [1] A. Author").
  { unfold py. cbn [list_ascii_of_string].
    repeat (apply not_elem_of_cons; split; [discriminate|]).
    apply not_elem_of_nil. }
  split; [exact H|]. exact (delete_references_single_line _ H).
Defined.

End CleaningMore.

(** ** More about [get_text] and [download_pdf] *)

Module IoProps.
Import PyStr Py Log Datamodel Downloader Extractor.

Lemma str_eqb_eq (a : str) : ∀ b, str_eqb a b = true → a = b.
Proof.
  induction a as [|x a IH]; intros [|y b]; cbn; try done.
  intros [Hx Hab]%andb_prop. apply Ascii.eqb_eq in Hx.
  f_equal; [done|by apply IH].
Qed.

(** X14. [get_text] returns a text only for a path that is given, ends in
    .pdf and names an existing file, and for one of the two loaders; the
    text is then the concatenation of the pages the loader reads from
    that file, and nothing is logged. *)
Theorem get_text_text (pypdf pdfminer : str → outcome (list str))
    (pdf_path : option str) (loader : str) (fs : files)
    (l : list event) (t : str) :
  get_text pypdf pdfminer pdf_path loader fs = (l, Ok (Text t)) →
  l = [] ∧
  ∃ p content pages,
    pdf_path = Some p ∧ fs !! p = Some content
    ∧ endswith (py ".pdf") p = true
    ∧ ((loader = py "pypdf" ∧ pypdf content = Ok pages)
       ∨ (loader = py "pdfminer" ∧ pdfminer content = Ok pages))
    ∧ t = concat pages.
Proof.
  unfold get_text, check_pdf_path.
  destruct (bool_decide (str_of_path pdf_path = [])); [done|].
  destruct (bool_decide (is_Some (fs !! str_of_path pdf_path))) eqn:E1;
    [|done].
  destruct (endswith (py ".pdf") (str_of_path pdf_path)) eqn:E2; [|done].
  cbn [andb negb].
  destruct pdf_path as [p|]; [|by vm_compute in E2].
  cbn [str_of_path] in *.
  apply bool_decide_eq_true in E1 as [content E1].
  unfold str in *. rewrite E1.
  change (default [] (Some content)) with content.
  unfold available_loaders.
  destruct (str_eqb loader (py "pypdf")) eqn:L1.
  - apply str_eqb_eq in L1. destruct (pypdf content) as [pages| |] eqn:Ep;
      cbn [mbind outcome_bind]; [|done..].
    intros [= <- <-]. split; [done|]. exists p, content, pages. eauto 10.
  - destruct (str_eqb loader (py "pdfminer")) eqn:L2; [|done].
    apply str_eqb_eq in L2. destruct (pdfminer content) as [pages| |] eqn:Ep;
      cbn [mbind outcome_bind]; [|done..].
    intros [= <- <-]. split; [done|]. exists p, content, pages. eauto 10.
Qed.

(** Skipping the empty chunks changes nothing of what is written. *)
Lemma written_concat (r : response) : written r = concat (chunks r).
Proof.
  unfold written. induction (chunks r) as [|c cs IH]; [done|].
  cbn [List.filter]. destruct c as [|x c]; cbn; [done|].
  by rewrite IH.
Qed.

(** What a download does to the files: nothing, or it writes the PDF of
    the record. *)
Lemma download_pdf_files (session_get : str → option response)
    (data_folder : str) (p : ArxivPaper) (write : bool) (fs : files) :
  fst (value_of (download_pdf session_get data_folder p write fs)) = fs
  ∨ ∃ data, fst (value_of (download_pdf session_get data_folder p write fs))
            = <[joinpath data_folder (id p ++ py ".pdf") := data]> fs.
Proof.
  unfold download_pdf, value_of.
  destruct (session_get (pdf_url p)) as [r|]; [|by left].
  destruct (raises_for_status r); [by left|].
  destruct write; [|by left].
  right. exists (written r). by destruct (broken r).
Qed.

(** X15. [download_pdf] touches no file but the PDF of the record, and
    removes none: every other path reads as before, and a file that was
    there is still there. *)
Theorem download_pdf_frame (session_get : str → option response)
    (data_folder : str) (p : ArxivPaper) (write : bool) (fs : files) :
  (∀ q, q ≠ joinpath data_folder (id p ++ py ".pdf") →
     fst (value_of (download_pdf session_get data_folder p write fs)) !! q
     = fs !! q)
  ∧ dom fs
    ⊆ dom (fst (value_of (download_pdf session_get data_folder p write fs))).
Proof.
  destruct (download_pdf_files session_get data_folder p write fs)
    as [->|[data ->]]; [done|].
  split; [intros q Hq; by rewrite lookup_insert_ne|].
  rewrite dom_insert. apply union_subseteq_r.
Qed.

(** A download that returns a path after writing. *)
Lemma download_pdf_written (session_get : str → option response)
    (data_folder : str) (p : ArxivPaper) (fs fs1 : files)
    (l : list event) (path : str) :
  download_pdf session_get data_folder p true fs = (l, (fs1, Some path)) →
  ∃ r, session_get (pdf_url p) = Some r
       ∧ raises_for_status r = false ∧ broken r = false
       ∧ path = joinpath data_folder (id p ++ py ".pdf")
       ∧ fs1 = <[path := written r]> fs
       ∧ l = [PdfDownloaded path].
Proof.
  unfold download_pdf.
  destruct (session_get (pdf_url p)) as [r|]; [|done].
  destruct (raises_for_status r) eqn:Es; [done|].
  destruct (broken r) eqn:Eb; [done|].
  intros [= <- <- <-]. by exists r.
Qed.

(** X16. When [download_pdf] returns a path after writing, the server has
    answered with a status that is no error, the stream has not broken,
    the path is the file of the record in the data folder, and that file
    holds all the chunks of the answer, in order. *)
Theorem download_pdf_content (session_get : str → option response)
    (data_folder : str) (p : ArxivPaper) (fs fs1 : files)
    (l : list event) (path : str) :
  download_pdf session_get data_folder p true fs = (l, (fs1, Some path)) →
  ∃ r, session_get (pdf_url p) = Some r
       ∧ raises_for_status r = false ∧ broken r = false
       ∧ path = joinpath data_folder (id p ++ py ".pdf")
       ∧ fs1 = <[path := concat (chunks r)]> fs
       ∧ l = [PdfDownloaded path].
Proof.
  intros H.
  apply download_pdf_written in H as (r & Hr & Hs & Hb & Hp & Hfs & Hl).
  exists r. rewrite <- written_concat. eauto 10.
Qed.

(** *** Examples *)

Import Examples Runs.

Lemma get_text_text_witness :
  get_text one_page_loader failing_loader (Some (py "data/2501.00001v1.pdf"))
    (py "pypdf") {[ py "data/2501.00001v1.pdf" := py "On DMFT" ]}
  = ([], Ok (Text (py "On DMFT")))
  ∧ ∃ p content pages,
      Some (py "data/2501.00001v1.pdf") = Some p
      ∧ ({[ py "data/2501.00001v1.pdf" := py "On DMFT" ]} : files) !! p
        = Some content
      ∧ endswith (py ".pdf") p = true
      ∧ ((py "pypdf" = py "pypdf" ∧ one_page_loader content = Ok pages)
         ∨ (py "pypdf" = py "pdfminer" ∧ failing_loader content = Ok pages))
      ∧ py "On DMFT" = concat pages.
Proof.
  assert (H : get_text one_page_loader failing_loader
                (Some (py "data/2501.00001v1.pdf")) (py "pypdf")
                {[ py "data/2501.00001v1.pdf" := py "On DMFT" ]}
              = ([], Ok (Text (py "On DMFT"))))
    by (vm_compute; reflexivity).
  split; [exact H|].
  exact (proj2 (get_text_text _ _ _ _ _ _ _ H)).
Defined.

Lemma download_pdf_content_witness :
  download_pdf (serve (py "%PDF-1.4")) (py "data") (paper_of "2501.00001v1")
    true ∅
  = ([PdfDownloaded (py "data/2501.00001v1.pdf")],
     ({[ py "data/2501.00001v1.pdf" := py "%PDF-1.4" ]},
      Some (py "data/2501.00001v1.pdf")))
  ∧ ∃ r, serve (py "%PDF-1.4") (pdf_url (paper_of "2501.00001v1")) = Some r
         ∧ raises_for_status r = false ∧ broken r = false
         ∧ py "data/2501.00001v1.pdf"
           = joinpath (py "data") (id (paper_of "2501.00001v1") ++ py ".pdf")
         ∧ ({[ py "data/2501.00001v1.pdf" := py "%PDF-1.4" ]} : files)
           = <[py "data/2501.00001v1.pdf" := concat (chunks r)]> ∅
         ∧ [PdfDownloaded (py "data/2501.00001v1.pdf")]
           = [PdfDownloaded (py "data/2501.00001v1.pdf")].
Proof.
  assert (H : download_pdf (serve (py "%PDF-1.4")) (py "data")
                (paper_of "2501.00001v1") true ∅
              = ([PdfDownloaded (py "data/2501.00001v1.pdf")],
                 ({[ py "data/2501.00001v1.pdf" := py "%PDF-1.4" ]},
                  Some (py "data/2501.00001v1.pdf"))))
    by (vm_compute; reflexivity).
  split; [exact H|]. exact (download_pdf_content _ _ _ _ _ _ _ H).
Defined.

End IoProps.

(** ** The two workflows of extractor.py *)

Module WorkflowProps.
Import PyStr Py Log Datamodel Cleaning Fetcher Downloader Extractor.
Import Workflow Records.
Import StripFacts CleaningProps FetcherProps GetTextProps PipelineProps.
Import IoProps FetchMore.

Lemma set_text_same (p : ArxivPaper) : set_text (text p) p = p.
Proof. by destruct p. Qed.

Lemma clean_text_no_newline (t : str) : nl ∉ value_of (clean_text t).
Proof.
  destruct t as [|c t]; unfold clean_text, value_of, Log.ret; cbn [snd].
  - cbn. apply not_elem_of_nil.
  - intros H%strip_elem. by apply flatten_newlines_no_newline in H.
Qed.

Lemma Forall2_fst_snd {A B} (R : A → B → Prop) (l : list (A * B)) :
  Forall (fun x => R (fst x) (snd x)) l → Forall2 R (fst <$> l) (snd <$> l).
Proof. induction 1; cbn; by constructor. Qed.

Lemma Forall2_impl_r {A B} (R R' : A → B → Prop) (P : B → Prop)
    (l : list A) (k : list B) :
  Forall2 R l k → Forall P k → (∀ x y, R x y → P y → R' x y) →
  Forall2 R' l k.
Proof.
  intros H. induction H; intros Hk HR; [constructor|].
  apply Forall_cons in Hk as [Hy Hk]. constructor; auto.
Qed.

Lemma record_ok_text (p : ArxivPaper) : record_ok p = true → text p = [].
Proof.
  unfold record_ok. intros H. repeat (apply andb_prop in H as [H ?]).
  match goal with H : bool_decide (text p = _) = true |- _ =>
    by apply bool_decide_eq_true in H end.
Qed.

Section Workflows.
Variable feed : str → Z → Z → outcome value.
Variable parse_datetime : str → option datetime.
Variable session_get : str → option response.
Variable pypdf pdfminer : str → outcome (list str).
Variable pattern : str → bool.
Variable self : fetcher.
Variable loader : str.

(** *** [arxiv_fetch_and_extract] *)

(** One round: the record with a text attached or as it was, and the
    files as the download has left them. *)
Lemma extract_paper_Ok (p : ArxivPaper) (fs0 fs1 : files) (it : item)
    (l : list message) :
  extract_paper session_get pypdf pdfminer self loader (Paper p) fs0
    = Ok (it, fs1, l) →
  fs1 = fst (value_of (download_pdf session_get (data_folder self) p true fs0))
  ∧ ∃ t, it = Paper (set_text t p) ∧ (t = text p ∨ nl ∉ t).
Proof.
  unfold extract_paper.
  destruct (download_pdf _ _ p true fs0) as [l1 [fs1' pp]].
  destruct (get_text pypdf pdfminer pp loader fs1') as [l2 [txt| |]];
    cbn [mbind outcome_bind value_of snd fst]; [|done..].
  destruct (nonempty txt); cbn [negb].
  - destruct txt as [|t]; [done|].
    pose proof (attach_value t p) as Ha.
    destruct (attach t p) as [l3 p']. cbn [value_of snd] in Ha. subst p'.
    intros [= <- <- _]. split; [done|].
    eexists. split; [done|]. right. apply clean_text_no_newline.
  - intros [= <- <- _]. split; [done|].
    exists (text p). split; [by rewrite set_text_same|by left].
Qed.

Lemma extract_papers_Ok (ps : list ArxivPaper) : ∀ fs0 its fs2 l,
  extract_papers session_get pypdf pdfminer self loader (Paper <$> ps) fs0
    = Ok (its, fs2, l) →
  Forall2 (fun it p => ∃ t, it = Paper (set_text t p) ∧ (t = text p ∨ nl ∉ t))
    its ps
  ∧ dom fs0 ⊆ dom fs2
  ∧ ∀ q, (∀ p, p ∈ ps → q ≠ pdf_file self p) → fs2 !! q = fs0 !! q.
Proof.
  induction ps as [|p ps IH]; intros fs0 its fs2 l.
  - intros [= <- <- _]. split; [constructor|]. split; done.
  - cbn [fmap list_fmap extract_papers]. intros H.
    apply bind_Ok in H as ([[it fs1] l1] & E1 & H).
    apply bind_Ok in H as ([[rest fs2'] l2] & E2 & H).
    injection H as <- <- _.
    apply extract_paper_Ok in E1 as [Hfs Hit].
    apply IH in E2 as (Hrest & Hdom & Hframe).
    split; [by constructor|].
    destruct (download_pdf_files session_get (data_folder self) p true fs0)
      as [Hd|[data Hd]]; rewrite Hd in Hfs; subst fs1.
    + split; [done|]. intros q Hq. apply Hframe.
      intros p' Hp'. apply Hq. by right.
    + split.
      * rewrite dom_insert in Hdom. intros x Hx. apply Hdom.
        apply elem_of_union. by right.
      * intros q Hq. rewrite Hframe by (intros p' Hp'; apply Hq; by right).
        apply lookup_insert_ne. symmetry. apply Hq. by left.
Qed.

(** X17. [arxiv_fetch_and_extract] returns the records of its call of
    [fetch], as many and in the same order, changed in their text only,
    and the text of a returned record has no newline in it. No file is
    deleted. *)
Theorem arxiv_fetch_and_extract_records (batch_size : Z) (fuel : nat)
    (fs0 fs2 : files) (its : list item) (l : list message) :
  arxiv_fetch_and_extract feed parse_datetime session_get pypdf pdfminer
    self loader batch_size fuel fs0 = Ok (its, fs2, l) →
  ∃ ps fs1 l1,
    fetch feed parse_datetime self batch_size fuel fs0
      = Ok (Paper <$> ps, fs1, l1)
    ∧ Forall2 (fun it p => ∃ t, it = Paper (set_text t p) ∧ nl ∉ t) its ps
    ∧ dom fs0 ⊆ dom fs2.
Proof.
  unfold arxiv_fetch_and_extract. intros H.
  apply bind_Ok in H as ([[result fs1] l1] & Ef & H).
  apply bind_Ok in H as ([[its' fs2'] l2] & Ee & H).
  injection H as <- <- _.
  pose proof (fetch_papers _ _ _ _ _ _ _ _ _ Ef) as Hres.
  rewrite Hres in Ee. apply extract_papers_Ok in Ee as (Hits & Hdom & _).
  exists (papers_of result), fs1, l1. split; [by rewrite <- Hres|]. split.
  - apply (Forall2_impl_r _ _ (fun p => text p = []) _ _ Hits).
    + apply Forall_forall. intros p Hp.
      by apply record_ok_text, (fetch_records_checked _ _ _ _ _ _ _ _ _ _ Ef).
    + intros it p (t & -> & Ht) Hp. exists t. split; [done|].
      destruct Ht as [->|Ht]; [|done]. rewrite Hp. apply not_elem_of_nil.
  - apply fetch_files in Ef as [->|[data ->]]; [done|].
    unfold append_file in Hdom. rewrite dom_insert in Hdom.
    intros x Hx. apply Hdom. apply elem_of_union. by right.
Qed.

(** *** [download_pattern_papers] *)

(** A record that is kept comes with the path of its PDF, and with its
    cleaned text. *)
Lemma kept_path (p q : ArxivPaper) (path : option str) :
  kept session_get pypdf pdfminer pattern self loader p = Some (path, q) →
  path = Some (pdf_file self q) ∧ nl ∉ text q.
Proof.
  unfold kept.
  destruct (extraction session_get pypdf pdfminer self loader p ∅)
    as [[fs1 pp] r] eqn:E.
  destruct r as [[|[|c t]]| |]; [done|done| |done..].
  change (bool_decide (c :: t = [])) with false. cbn [negb andb].
  destruct (pattern (c :: t)); [|done].
  intros [= <- <-]. apply extraction_path in E as [-> _].
  rewrite attach_value. split; [done|]. apply clean_text_no_newline.
Qed.

Lemma process_papers_listed (ps : list ArxivPaper) (a a' : acc) :
  process_papers session_get pypdf pdfminer pattern self loader
    (Paper <$> ps) a = Ok a' →
  Forall2 (listed self) (paths a) (all_papers a) →
  Forall2 (listed self) (paths a') (all_papers a').
Proof.
  intros H Ha. apply process_papers_lists in H as [-> ->].
  apply Forall2_app; [done|]. apply Forall2_fst_snd.
  apply Forall_forall. intros [path q] Hin.
  apply list_elem_of_omap in Hin as (p & _ & Hk). by apply kept_path in Hk.
Qed.

Lemma fetch_batches_listed (batch_size : Z) (fuel : nat) (n : nat) :
  ∀ a a',
  fetch_batches feed parse_datetime session_get pypdf pdfminer pattern self
    loader batch_size fuel n a = Ok a' →
  Forall2 (listed self) (paths a) (all_papers a) →
  Forall2 (listed self) (paths a') (all_papers a').
Proof.
  induction n as [|n IH]; intros a a'; cbn [fetch_batches].
  - by intros [= <-].
  - intros H Ha. apply bind_Ok in H as ([[result fs1] l1] & Ef & H).
    apply bind_Ok in H as (a1 & Ep & H).
    rewrite (fetch_papers _ _ _ _ _ _ _ _ _ Ef) in Ep.
    apply process_papers_listed in Ep; [|done]. by apply IH in H.
Qed.

(** X18. The two lists [download_pattern_papers] returns go together: they
    have the same length, the path at each position is the PDF, in the
    data folder, of the record at that position, and the text of that
    record has no newline in it. *)
Theorem download_pattern_papers_parallel (batch_size n_fetch_batches : Z)
    (fuel : nat) (fs0 : files) (a : acc) :
  download_pattern_papers feed parse_datetime session_get pypdf pdfminer
    pattern self loader batch_size n_fetch_batches fuel fs0 = Ok a →
  Forall2 (fun path q => path = Some (pdf_file self q) ∧ nl ∉ text q)
    (paths a) (all_papers a).
Proof.
  unfold download_pattern_papers. intros H.
  apply fetch_batches_listed in H; [done|]. constructor.
Qed.

(** The round of one record touches no file but the PDF of the record. *)
Lemma process_paper_files (p : ArxivPaper) (a a' : acc) (q : str) :
  process_paper session_get pypdf pdfminer pattern self loader (Paper p) a
    = Ok a' →
  q ≠ pdf_file self p → fs a' !! q = fs a !! q.
Proof.
  intros H Hq.
  assert (Hd : ∀ fs1 l pp,
    download_pdf session_get (data_folder self) p true (fs a) = (l, (fs1, pp)) →
    fs1 !! q = fs a !! q).
  { intros fs1 l pp E.
    destruct (download_pdf_files session_get (data_folder self) p true (fs a))
      as [Hf|[data Hf]]; rewrite E in Hf; cbn in Hf; subst fs1; [done|].
    by apply lookup_insert_ne. }
  revert H. unfold process_paper.
  destruct (download_pdf _ _ p true (fs a)) as [l1 [fs1 pp]] eqn:Ed.
  specialize (Hd _ _ _ eq_refl).
  destruct (get_text pypdf pdfminer pp loader fs1) as [l2 [txt| |]];
    cbn [mbind outcome_bind]; [|done..].
  destruct (nonempty txt); cbn [negb]; [|by intros [= <-]].
  destruct txt as [|t]; [done|].
  destruct (pattern t); cbn [negb].
  - destruct (attach t p) as [l3 p']. by intros [= <-].
  - apply download_pdf_path in Ed as [->|[-> _]]; [done|].
    cbn [unlink mbind outcome_bind]. intros [= <-]. cbn [fs].
    rewrite lookup_delete_ne; [done|]. by intros <-.
Qed.

(** X20. The loop over a batch touches no file but the PDFs of the records
    of the batch: any other path, the ledger among them when it is none
    of these, reads after the loop as it did before. *)
Theorem process_papers_frame (ps : list ArxivPaper) (a a' : acc) (q : str) :
  process_papers session_get pypdf pdfminer pattern self loader
    (Paper <$> ps) a = Ok a' →
  (∀ p, p ∈ ps → q ≠ pdf_file self p) →
  fs a' !! q = fs a !! q.
Proof.
  revert a. induction ps as [|p ps IH]; intros a.
  - by intros [= <-].
  - cbn [fmap list_fmap process_papers]. intros H Hq.
    apply bind_Ok in H as (a1 & E1 & H).
    rewrite (IH a1 H) by (intros p' Hp'; apply Hq; by right).
    eapply process_paper_files; [done|]. apply Hq. by left.
Qed.

(** X21. A download whose stream breaks leaves the chunks received in the
    file of the record, and the loop of [download_pattern_papers] goes on
    to the next record without listing or deleting that file. *)
Theorem process_paper_broken_stream (p : ArxivPaper) (a : acc) (r : response) :
  session_get (pdf_url p) = Some r →
  raises_for_status r = false → broken r = true →
  process_paper session_get pypdf pdfminer pattern self loader (Paper p) a
  = Ok {| fs := <[pdf_file self p := concat (chunks r)]> (fs a);
          paths := paths a; all_papers := all_papers a;
          plog := plog a ++ [FailedToDownloadPdf; NoTextExtracted] |}.
Proof.
  intros Hr Hs Hb. unfold process_paper, download_pdf.
  rewrite Hr, Hs, Hb, written_concat.
  pose proof (get_text_no_path pypdf pdfminer loader
                (<[pdf_file self p := concat (chunks r)]> (fs a))) as Hg.
  unfold pdf_file in *.
  destruct (get_text pypdf pdfminer None loader _) as [l2 r2] eqn:Eg.
  cbn [value_of snd] in Hg. subst r2.
  assert (l2 = []) as ->.
  { revert Eg. unfold get_text, check_pdf_path. cbn [str_of_path].
    change (bool_decide (py "None" = [])) with false. cbv iota.
    change (endswith (py ".pdf") (py "None")) with false.
    rewrite andb_false_r. cbn [negb]. by intros [= <-]. }
  done.
Qed.

End Workflows.

(** *** Examples *)

Import Examples Runs.

Lemma arxiv_fetch_and_extract_records_witness :
  arxiv_fetch_and_extract (one_page [entry "2501.00001v1" true]) no_dates
    (serve (py "On DMFT -" ++ [nl] ++ py "and more")) one_page_loader
    one_page_loader (fetcher_of 1) (py "pypdf") 10 2 ∅
  = Ok ([Paper (set_text (py "On DMFT and more") (paper_of "2501.00001v1"))],
        {[ ledger := py "2501.00001v1" ++ [nl];
           py "data/2501.00001v1.pdf"
             := py "On DMFT -" ++ [nl] ++ py "and more" ]},
        (Called <$> accepted "2501.00001v1")
        ++ [PapersFetched 1 (py "cond-mat.str-el");
            Called (PdfDownloaded (py "data/2501.00001v1.pdf"));
            TextStored (py "2501.00001v1")])
  ∧ ∃ ps fs1 l1,
      fetch (one_page [entry "2501.00001v1" true]) no_dates (fetcher_of 1)
        10 2 ∅ = Ok (Paper <$> ps, fs1, l1)
      ∧ Forall2 (fun it p => ∃ t, it = Paper (set_text t p) ∧ nl ∉ t)
          [Paper (set_text (py "On DMFT and more") (paper_of "2501.00001v1"))]
          ps
      ∧ dom (∅ : files)
        ⊆ dom ({[ ledger := py "2501.00001v1" ++ [nl];
                  py "data/2501.00001v1.pdf"
                    := py "On DMFT -" ++ [nl] ++ py "and more" ]} : files).
Proof.
  assert (H : arxiv_fetch_and_extract (one_page [entry "2501.00001v1" true])
                no_dates (serve (py "On DMFT -" ++ [nl] ++ py "and more"))
                one_page_loader one_page_loader (fetcher_of 1) (py "pypdf")
                10 2 ∅
              = Ok ([Paper (set_text (py "On DMFT and more")
                              (paper_of "2501.00001v1"))],
                    {[ ledger := py "2501.00001v1" ++ [nl];
                       py "data/2501.00001v1.pdf"
                         := py "On DMFT -" ++ [nl] ++ py "and more" ]},
                    (Called <$> accepted "2501.00001v1")
                    ++ [PapersFetched 1 (py "cond-mat.str-el");
                        Called (PdfDownloaded (py "data/2501.00001v1.pdf"));
                        TextStored (py "2501.00001v1")]))
    by (vm_compute; reflexivity).
  split; [exact H|].
  exact (arxiv_fetch_and_extract_records _ _ _ _ _ _ _ _ _ _ _ _ _ H).
Defined.

Lemma download_pattern_papers_parallel_witness :
  download_pattern_papers (one_page [entry "2501.00001v1" true]) no_dates
    (serve (py "On DMFT -" ++ [nl] ++ py "and more")) one_page_loader
    one_page_loader has_dmft (fetcher_of 1) (py "pypdf") 10 1 2 ∅
  = Ok {| fs := {[ ledger := py "2501.00001v1" ++ [nl];
                   py "data/2501.00001v1.pdf"
                     := py "On DMFT -" ++ [nl] ++ py "and more" ]};
          paths := [Some (py "data/2501.00001v1.pdf")];
          all_papers := [set_text (py "On DMFT and more")
                           (paper_of "2501.00001v1")];
          plog := accepted "2501.00001v1"
                  ++ [PdfDownloaded (py "data/2501.00001v1.pdf")] |}
  ∧ Forall2 (fun path q => path = Some (pdf_file (fetcher_of 1) q)
                           ∧ nl ∉ text q)
      [Some (py "data/2501.00001v1.pdf")]
      [set_text (py "On DMFT and more") (paper_of "2501.00001v1")].
Proof.
  assert (H : download_pattern_papers (one_page [entry "2501.00001v1" true])
                no_dates (serve (py "On DMFT -" ++ [nl] ++ py "and more"))
                one_page_loader one_page_loader has_dmft (fetcher_of 1)
                (py "pypdf") 10 1 2 ∅
              = Ok {| fs := {[ ledger := py "2501.00001v1" ++ [nl];
                               py "data/2501.00001v1.pdf"
                                 := py "On DMFT -" ++ [nl] ++ py "and more" ]};
                      paths := [Some (py "data/2501.00001v1.pdf")];
                      all_papers := [set_text (py "On DMFT and more")
                                       (paper_of "2501.00001v1")];
                      plog := accepted "2501.00001v1"
                              ++ [PdfDownloaded (py "data/2501.00001v1.pdf")] |})
    by (vm_compute; reflexivity).
  split; [exact H|].
  exact (download_pattern_papers_parallel _ _ _ _ _ _ _ _ _ _ _ _ _ H).
Defined.

Lemma process_papers_frame_witness :
  process_papers (serve (py "no match here")) one_page_loader one_page_loader
    has_dmft (fetcher_of 1) (py "pypdf") (Paper <$> [paper_of "2501.00001v1"])
    {| fs := ledger_with "2501.00001v1"; paths := []; all_papers := [];
       plog := [] |}
  = Ok {| fs := delete (py "data/2501.00001v1.pdf")
                  (<[py "data/2501.00001v1.pdf" := py "no match here"]>
                     (ledger_with "2501.00001v1"));
          paths := []; all_papers := [];
          plog := [PdfDownloaded (py "data/2501.00001v1.pdf")] |}
  ∧ delete (py "data/2501.00001v1.pdf")
      (<[py "data/2501.00001v1.pdf" := py "no match here"]>
         (ledger_with "2501.00001v1")) !! ledger
    = ledger_with "2501.00001v1" !! ledger.
Proof.
  assert (H : process_papers (serve (py "no match here")) one_page_loader
                one_page_loader has_dmft (fetcher_of 1) (py "pypdf")
                (Paper <$> [paper_of "2501.00001v1"])
                {| fs := ledger_with "2501.00001v1"; paths := [];
                   all_papers := []; plog := [] |}
              = Ok {| fs := delete (py "data/2501.00001v1.pdf")
                              (<[py "data/2501.00001v1.pdf"
                                   := py "no match here"]>
                                 (ledger_with "2501.00001v1"));
                      paths := []; all_papers := [];
                      plog := [PdfDownloaded (py "data/2501.00001v1.pdf")] |})
    by (vm_compute; reflexivity).
  split; [exact H|].
  apply (process_papers_frame _ _ _ _ _ _ _ _ _ ledger H).
  intros p ->%list_elem_of_singleton. vm_compute. discriminate.
Defined.

Lemma process_paper_broken_stream_witness :
  process_paper (cut_off [py "%PDF"; []; py "-1."]) one_page_loader
    one_page_loader has_dmft (fetcher_of 1) (py "pypdf")
    (Paper (paper_of "2501.00001v1")) start_acc
  = Ok {| fs := <[pdf_file (fetcher_of 1) (paper_of "2501.00001v1")
                    := concat [py "%PDF"; []; py "-1."]]> ∅;
          paths := []; all_papers := [];
          plog := [] ++ [FailedToDownloadPdf; NoTextExtracted] |}.
Proof.
  apply (process_paper_broken_stream (cut_off [py "%PDF"; []; py "-1."])
           one_page_loader one_page_loader has_dmft (fetcher_of 1) (py "pypdf")
           (paper_of "2501.00001v1") start_acc
           {| status_code := 200; chunks := [py "%PDF"; []; py "-1."];
              broken := true |});
    reflexivity.
Defined.

End WorkflowProps.

(** ** The two loops of [fetch]: which one can go on for ever *)

Module FetchLoops.
Import PyStr Py Log Datamodel Fetcher Invariants Records Ledger.
Import FetcherProps FetcherFuel FetchMore.

Section Fetch.
Variable feed : str → Z → Z → outcome value.
Variable parse_datetime : str → option datetime.
Variable self : fetcher.

Lemma while_loop_out_of_fuel (batch_size : Z) (fuel : nat) : ∀ st,
  (∀ category start n, feed category start n ≠ OutOfFuel) →
  while_loop feed parse_datetime self batch_size fuel st = OutOfFuel →
  is_Some (after_rounds feed parse_datetime self batch_size fuel st).
Proof.
  induction fuel as [|fuel IH]; intros st Hfeed; [by eexists|].
  cbn [while_loop after_rounds].
  pose proof (round_fuel feed parse_datetime self batch_size st Hfeed) as Hr.
  destruct (round feed parse_datetime self batch_size st) as [[st1|e]| |];
    cbn [mbind outcome_bind]; [by apply IH|done..].
Qed.

(** X23. The [for] loop over a page always ends, also when it appends to
    the list it runs over: if no request to the API hangs and a call of
    [fetch] is still running after a number of rounds of its [while]
    loop, then every one of these rounds has run to its end and gone on
    to the next. *)
Theorem fetch_for_loop_ends (batch_size : Z) (fuel : nat) (fs : files) :
  (∀ category start n, feed category start n ≠ OutOfFuel) →
  fetch feed parse_datetime self batch_size fuel fs = OutOfFuel →
  is_Some (after_rounds feed parse_datetime self batch_size fuel
             (initial self fs)).
Proof.
  intros Hfeed H. apply while_loop_out_of_fuel; [done|].
  revert H. unfold fetch.
  destruct (while_loop feed parse_datetime self batch_size fuel
              (initial self fs)) as [[st|r st]| |];
    cbn [mbind outcome_bind]; [|done..].
  by destruct (save_and_return self (deref st (new_papers st)) fs).
Qed.

(** A page of entries that bring nothing new leaves the variables as
    they were. *)
Lemma for_papers_stale (ids : gset str) (papers : nat) (l : list value) :
  ∀ fuel i st,
  deref st papers = Raw <$> l → seen st = ids →
  Forall (brings_nothing parse_datetime self ids) l →
  i ≤ length l → length l < fuel + i →
  for_papers parse_datetime self fuel papers i st = Ok st.
Proof.
  induction fuel as [|fuel IH]; intros i st Hl Hs Hall Hi Hf; [lia|].
  cbn [for_papers].
  destruct (deref st papers !! i) as [paper|] eqn:Ei; [|done].
  rewrite Hl in Ei. apply list_lookup_fmap_Some in Ei as (v & -> & Hv).
  pose proof Hall as Hall'. rewrite Forall_forall in Hall'.
  assert (Hin : v ∈ l) by (by eapply list_elem_of_lookup_2).
  rewrite (Hall' v Hin papers st Hs).
  cbn [mbind outcome_bind]. apply lookup_lt_Some in Hv.
  apply IH; try done; lia.
Qed.

(** A round on such a page changes nothing but the offset of the next
    query. *)
Lemma round_stale (batch_size : Z) (st : locals) :
  (0 < max_results self)%Z →
  stale_feed feed parse_datetime self (seen st) →
  deref st (new_papers st) = [] → new_papers st < length (heap st) →
  ∃ st', round feed parse_datetime self batch_size st = Ok (Next st')
         ∧ seen st' = seen st
         ∧ deref st' (new_papers st') = []
         ∧ new_papers st' < length (heap st').
Proof.
  intros Hmax Hfeed Hd Hv. unfold round. rewrite Hd. cbn [length].
  destruct (Z.ltb_spec (Z.of_nat 0) (max_results self)) as [_|]; [|lia].
  destruct (Hfeed (start_index st)
              (Z.min batch_size (max_results self - Z.of_nat 0)))
    as (data_dict & feed_elt & papers & -> & Hf & He & Ht & Hall).
  cbn [mbind outcome_bind]. rewrite Hf. cbn [mbind outcome_bind].
  rewrite He. cbn [mbind outcome_bind]. rewrite Ht. cbn [negb alloc].
  rewrite (for_papers_stale (seen st) _ (as_list papers));
    [|unfold deref; cbn; by rewrite lookup_app_r, Nat.sub_diag
     |done|done|lia|lia].
  cbn [mbind outcome_bind]. eexists. split; [done|].
  split; [done|]. split.
  - unfold deref in *. cbn. by rewrite lookup_app_l.
  - cbn. rewrite length_app. lia.
Qed.

Lemma while_loop_stale (batch_size : Z) (fuel : nat) : ∀ st,
  (0 < max_results self)%Z →
  stale_feed feed parse_datetime self (seen st) →
  deref st (new_papers st) = [] → new_papers st < length (heap st) →
  while_loop feed parse_datetime self batch_size fuel st = OutOfFuel.
Proof.
  induction fuel as [|fuel IH]; intros st Hmax Hfeed Hd Hv; [done|].
  cbn [while_loop].
  destruct (round_stale batch_size st Hmax Hfeed Hd Hv)
    as (st' & -> & Hs & Hd' & Hv').
  cbn [mbind outcome_bind]. apply IH; try done. by rewrite Hs.
Qed.

(** X24. [fetch] relies on the API to run dry: if every page it is given
    has entries and none of them brings anything new, as when all their
    identifiers are in the ledger, then a call that asks for at least
    one paper has not returned after any number of rounds. *)
Theorem fetch_stalls (batch_size : Z) (fuel : nat) (fs : files) :
  (0 < max_results self)%Z →
  stale_feed feed parse_datetime self (fetched_ids self fs) →
  fetch feed parse_datetime self batch_size fuel fs = OutOfFuel.
Proof.
  intros Hmax Hfeed. unfold fetch.
  rewrite while_loop_stale; [done|done|done|done|cbn; lia].
Qed.
End Fetch.
(** *** Examples *)

Import Examples Runs.

Lemma fetch_for_loop_ends_witness :
  fetch (same_page [entry "2501.00001v1" true]) no_dates (fetcher_of 1) 10 3
    (ledger_with "2501.00001v1") = OutOfFuel
  ∧ is_Some (after_rounds (same_page [entry "2501.00001v1" true]) no_dates
               (fetcher_of 1) 10 3
               (initial (fetcher_of 1) (ledger_with "2501.00001v1"))).
Proof.
  assert (H : fetch (same_page [entry "2501.00001v1" true]) no_dates
                (fetcher_of 1) 10 3 (ledger_with "2501.00001v1") = OutOfFuel)
    by (vm_compute; reflexivity).
  split; [exact H|].
  apply (fetch_for_loop_ends _ _ _ _ _ _); [|exact H].
  intros category start n. discriminate.
Defined.

Lemma fetch_stalls_witness :
  stale_feed (same_page [entry "2501.00001v1" true]) no_dates (fetcher_of 1)
    (fetched_ids (fetcher_of 1) (ledger_with "2501.00001v1"))
  ∧ fetch (same_page [entry "2501.00001v1" true]) no_dates (fetcher_of 1) 10 7
      (ledger_with "2501.00001v1") = OutOfFuel.
Proof.
  assert (H : stale_feed (same_page [entry "2501.00001v1" true]) no_dates
                (fetcher_of 1)
                (fetched_ids (fetcher_of 1) (ledger_with "2501.00001v1"))).
  { intros start n. do 3 eexists.
    split; [reflexivity|]. split; [reflexivity|]. split; [reflexivity|].
    split; [reflexivity|]. constructor; [|constructor].
    intros papers [h np si sn lg] Hs. cbn in Hs. subst sn.
    vm_compute. reflexivity. }
  split; [exact H|]. apply fetch_stalls; [cbn; lia|exact H].
Defined.

End FetchLoops.
